(** * holidays-jp: the holiday engine of [holiday.go]

    A shallow embedding of the Go package [holiday] (static-table lookups,
    the rule-based calculator and the equinox estimator), with the properties
    its specification states about it.

    Conventions.
    - Go [int] values (years, months, days, rule indices) are [Z]; slice
      indices are [nat]. The arithmetic of the weekday rules is written
      with its 64-bit wrap-around ([Int.wrap]). [time.Date] is written
      with the [uint64] count of seconds the library keeps, wrap-around
      included; it gives the dates of the civil calendar from year
      -292277022399 into year 292277026854 ([GoTime.exact]), and what is
      stated about a weekday is stated for these dates.
    - Go strings are byte strings: [string] with the bytewise lexicographic
      order [String.compare], which is what Go's [<], [>=] and [==] compute.
    - A run-time panic (index out of range, slice bounds) is [None] in the
      [go] monad below.
    - [float64] is [PrimFloat.float] (IEEE 754 binary64), each operation
      rounded on its own.
    - The package-level tables [holidays], [annuallyHolidaysRules] and
      [specialHolidays] live in generated or data files; they are Section
      variables, as are the Go library functions [math.Sin] and [math.Mod]
      and the time-zone database entry behind [jst]. [sort.Sort] is the
      class [Sorter]: any function that meets its contract. *)

From Stdlib Require Import ZArith List String Ascii Bool Lia Arith.
From Stdlib Require Import Sorted Permutation DecimalString DecimalPos.
From Stdlib Require Import PrimFloat Uint63.
From Stdlib Require Finite DecimalN.
Import ListNotations.

Local Open Scope string_scope.
Local Open Scope Z_scope.

(** ** The [go] monad: a computation that may panic *)

Module Go.

Definition go (A : Type) : Type := option A.

Definition ret {A} (a : A) : go A := Some a.

Definition bind {A B} (m : go A) (k : A -> go B) : go B :=
  match m with
  | Some a => k a
  | None => None
  end.

(** [s[i]]: panics when [i] is out of range. *)
Definition index {A} (s : list A) (i : nat) : go A := nth_error s i.

(** [s[lo:hi]]: panics unless [lo <= hi <= len(s)]. *)
Definition slice {A} (s : list A) (lo hi : nat) : go (list A) :=
  if ((lo <=? hi) && (hi <=? List.length s))%nat
  then Some (firstn (hi - lo) (skipn lo s))
  else None.

(** Running [f] on each element in turn, collecting the results. *)
Fixpoint mapM {A B} (f : A -> go B) (l : list A) : go (list B) :=
  match l with
  | nil => ret nil
  | a :: l' =>
      match f a with
      | Some b =>
          match mapM f l' with
          | Some bs => ret (b :: bs)
          | None => None
          end
      | None => None
      end
  end.

End Go.

Import Go.

Notation "x <- m ;; k" := (bind m (fun x => k))
  (at level 61, m at next level, right associativity).

(** ** [fmt.Sprintf] with the verbs [%04d] and [%02d] *)

Module Fmt.

(** Decimal digits of a natural number, ["0"] for zero. *)
Definition digits (n : N) : string :=
  NilEmpty.string_of_uint (N.to_uint n).

Fixpoint zeros (k : nat) : string :=
  match k with
  | O => ""
  | S k' => String "0" (zeros k')
  end.

Definition pad0 (width : nat) (s : string) : string :=
  zeros (width - String.length s) ++ s.

(** [%0<width>d]: the sign counts in the width and the zeros follow it;
    a number wider than [width] is printed in full. *)
Definition d0 (width : nat) (z : Z) : string :=
  if z <? 0
  then String "-" (pad0 (width - 1) (digits (Z.to_N (- z))))
  else pad0 width (digits (Z.to_N z)).

(** [fmt.Sprintf("%04d-%02d-%02d", year, month, day)] *)
Definition date (year month day : Z) : string :=
  d0 4 year ++ "-" ++ d0 2 month ++ "-" ++ d0 2 day.

End Fmt.

(** ** [sort.Search] *)

Module GoSort.

(** The loop of [sort.Search]: [for i < j { h := int(uint(i+j) >> 1); ... }].
    [fuel] bounds the number of iterations; [Search] supplies [n], and
    [SearchFacts.search_loop_spec] below shows that [j - i] iterations are
    never used up. *)
Fixpoint search_loop (fuel : nat) (f : nat -> go bool) (i j : nat)
  : go nat :=
  match fuel with
  | O => ret i
  | S fuel' =>
      if (i <? j)%nat then
        let h := ((i + j) / 2)%nat in
        b <- f h ;;
        if negb b then search_loop fuel' f (h + 1)%nat j
        else search_loop fuel' f i h
      else ret i
  end.

Definition Search (n : nat) (f : nat -> go bool) : go nat :=
  search_loop n f 0%nat n.

End GoSort.

Import GoSort.

(** ** Data model *)

Record Holiday : Type := mkHoliday { Date : string; Name : string }.

(** The zero value [Holiday{}]. *)
Definition zeroHoliday : Holiday := mkHoliday "" "".

Record staticHolyday : Type := mkStatic {
  sDate : string;   (* MM-DD *)
  sName : string
}.

Record weekdayHolyday : Type := mkWeekday {
  wMonth : Z;       (* time.Month *)
  wWeekday : Z;     (* time.Weekday, Sunday = 0 *)
  wIndex : Z;
  wName : string
}.

Record annuallyHolidaysRule : Type := mkRule {
  BeginYear : Z;
  StaticHolydays : list staticHolyday;
  WeekdayHolydays : list weekdayHolyday
}.

(** [s1 >= s2] on Go strings. *)
Definition str_ge (s1 s2 : string) : bool := negb (String.ltb s1 s2).

(** [withDate.Less]: [s[i].Date < s[j].Date]. *)
Definition Less (a b : Holiday) : bool := String.ltb (Date a) (Date b).

(** ** Static-table lookups *)

Section StaticTable.

Variable holidays : list Holiday.

(** The index of the first entry whose date is [>= key]:
    [sort.Search(len(holidays), func(i) { return holidays[i].Date >= key })]. *)
Definition searchDate (key : string) : go nat :=
  Search (List.length holidays)
    (fun i => h <- index holidays i ;; ret (str_ge (Date h) key)).

Definition findHoliday (year month day : Z) : go (Holiday * bool) :=
  let date := Fmt.date year month day in
  idx <- searchDate date ;;
  if (idx <? List.length holidays)%nat then
    h <- index holidays idx ;;
    if String.eqb (Date h) date then ret (h, true)
    else ret (zeroHoliday, false)
  else ret (zeroHoliday, false).

Definition findHolidaysInMonth (year month : Z) : go (list Holiday) :=
  let startDate := Fmt.d0 4 year ++ "-" ++ Fmt.d0 2 month ++ "-01" in
  let endDate := Fmt.d0 4 year ++ "-" ++ Fmt.d0 2 month ++ "-99" in
  start <- searchDate startDate ;;
  end_ <- searchDate endDate ;;
  slice holidays start end_.

Definition findHolidaysInYear (year : Z) : go (list Holiday) :=
  let startDate := Fmt.d0 4 year ++ "-01-01" in
  let endDate := Fmt.d0 4 year ++ "-99-99" in
  start <- searchDate startDate ;;
  end_ <- searchDate endDate ;;
  slice holidays start end_.

End StaticTable.

(** ** Machine integers *)

Module Int.

(** Go's [int] on the 64-bit targets of this program: the value an
    arithmetic result wraps to. *)
Definition wrap (z : Z) : Z := (z + 2 ^ 63) mod 2 ^ 64 - 2 ^ 63.

Definition in_range (z : Z) : Prop := - 2 ^ 63 <= z < 2 ^ 63.

End Int.

(** ** The parts of Go's [time] package the program uses *)

Module GoTime.

Definition March : Z := 3.
Definition September : Z := 9.

(** Days from 1970-01-01 to the given civil date of the proleptic Gregorian
    calendar, for every year. A month outside 1..12 overflows into the year
    and a day outside the month overflows into the neighbouring months (the
    result is linear in [day]). This is the calendar the library is measured
    against below, and the clock of the time zones. *)
Definition daysSinceEpoch (year month day : Z) : Z :=
  let m0 := month - 1 in
  let year := year + m0 / 12 in
  let m := m0 mod 12 + 1 in
  let y := if m <=? 2 then year - 1 else year in
  let era := y / 400 in
  let yoe := y - era * 400 in
  let mp := (m + 9) mod 12 in
  let doy := (153 * mp + 2) / 5 + day - 1 in
  let doe := yoe * 365 + yoe / 4 - yoe / 100 + doy in
  era * 146097 + doe - 719468.

(** *** [time.Date] as the library computes it

    The arithmetic of [time.Date], [Time.Weekday] and [Time.Unix] in the
    library of Go 1.18, the version [go.mod] names: days and seconds are
    counted from January 1 of the year -292277022399, a Monday, in a
    [uint64]. *)

(** The value a [uint64] result wraps to. *)
Definition u64 (z : Z) : Z := z mod 2 ^ 64.

Definition absoluteZeroYear : Z := -292277022399.

(** [absoluteToInternal + internalToUnix]: from the count of seconds since
    the absolute epoch to the count since 1970-01-01. *)
Definition absoluteToUnix : Z := -9223372028715321600.

(** [daysBefore[m]]: the days of a non-leap year before month [m + 1]. *)
Definition daysBefore : list Z :=
  [0; 31; 59; 90; 120; 151; 181; 212; 243; 273; 304; 334; 365].

Definition isLeap (year : Z) : bool :=
  (year mod 4 =? 0) && (negb (year mod 100 =? 0) || (year mod 400 =? 0)).

(** The library's [daysSinceEpoch(year)]: the days from the absolute epoch
    to January 1 of [year], by cycles of 400, 100, 4 and 1 years. *)
Definition daysSinceAbsoluteEpoch (year : Z) : Z :=
  let y := u64 (year - absoluteZeroYear) in
  let n := y / 400 in
  let y := y - 400 * n in
  let d := u64 (146097 * n) in
  let n := y / 100 in
  let y := y - 100 * n in
  let d := u64 (d + 36524 * n) in
  let n := y / 4 in
  let y := y - 4 * n in
  let d := u64 (d + 1461 * n) in
  u64 (d + 365 * y).

(** The count [abs] of [time.Date(year, month, day, hour, 0, 0, 0, loc)],
    for an hour of 0 to 23: the seconds of the wall clock since the
    absolute epoch. The month is normalised into the year first. *)
Definition absDate (year month day hour : Z) : Z :=
  let m := Int.wrap (month - 1) in
  let year := Int.wrap (year + m / 12) in
  let m := m mod 12 in
  let d := daysSinceAbsoluteEpoch year in
  let d := u64 (d + nth (Z.to_nat m) daysBefore 0) in
  let d := if isLeap year && (3 <=? m + 1) then u64 (d + 1) else d in
  let d := u64 (d + (day - 1)) in
  let abs := u64 (d * 86400) in
  u64 (abs + hour * 3600).

(** [time.Date(year, month, day, 0, 0, 0, 0, time.UTC).Weekday()],
    Sunday = 0: the day of the week of [abs], the absolute epoch being a
    Monday. *)
Definition Weekday (year month day : Z) : Z :=
  (u64 (absDate year month day 0 + 86400) mod 604800) / 86400.

(** A [*time.Location], seen through what [time.Date] asks of it: the offset
    from UTC, in seconds, in force at a wall-clock instant given in seconds
    since 1970-01-01T00:00:00 of that wall clock. *)
Definition Location : Type := Z -> Z.

Definition UTC : Location := fun _ => 0.

(** [time.Date(year, month, day, hour, 0, 0, 0, loc).Unix()], for an hour
    of 0 to 23. *)
Definition DateUnix (year month day hour : Z) (loc : Location) : Z :=
  let wall := Int.wrap (absDate year month day hour + absoluteToUnix) in
  Int.wrap (wall - loc wall).

(** *** The dates the library computes without wrap-around *)

(** Days from the absolute epoch to the civil date. *)
Definition absoluteDays (year month day : Z) : Z :=
  daysSinceEpoch year month day - daysSinceEpoch absoluteZeroYear 1 1.

(** The month is an [int] above the least one, the year (after the
    overflow of the month) is from -292277022399 to 292277026854, the date
    is not before the absolute epoch and the seconds from the epoch to the
    end of its day are below [2^64]: the dates from 1 January -292277022399
    to 8 November 292277026854. On these the counts above do not wrap
    around, and the library's weekday is that of the calendar
    ([TimeFacts.Weekday_exact]). *)
Definition exact (year month day : Z) : Prop :=
  Int.in_range (month - 1) /\
  absoluteZeroYear <= year + (month - 1) / 12 <= 292277026854 /\
  0 <= absoluteDays year month day /\
  (absoluteDays year month day + 1) * 86400 < 2 ^ 64.

End GoTime.

(** ** Floating point *)

Module F64.

(** [float64(d)] for an [int64] d: rounded to nearest. *)
Definition of_int (z : Z) : float :=
  if z =? - 2 ^ 63 then (- 0x1p+63)%float
  else if z <? 0 then PrimFloat.opp (PrimFloat.of_uint63 (Uint63.of_Z (- z)))
  else PrimFloat.of_uint63 (Uint63.of_Z z).

End F64.

Set Warnings "-inexact-float".

(** from 長沢 工(1999) "日の出・日の入りの計算 天体の出没時刻の求め方" 株式会社地人書館 *)
Definition sunLongitudeTable : list (float * float * float) := [
  (0.0200, 355.05, 719.981);
  (0.0048, 234.95, 19.341);
  (0.0020, 247.1, 329.64);
  (0.0018, 297.8, 4452.67);
  (0.0018, 251.3, 0.20);
  (0.0015, 343.2, 450.37);
  (0.0013, 81.4, 225.18);
  (0.0008, 132.5, 659.29);
  (0.0007, 153.3, 90.38);
  (0.0007, 206.8, 30.35);
  (0.0006, 29.8, 337.18);
  (0.0005, 207.4, 1.50);
  (0.0005, 291.2, 22.81);
  (0.0004, 234.9, 315.56);
  (0.0004, 157.3, 299.30);
  (0.0004, 21.1, 720.02);
  (0.0003, 352.5, 1079.97);
  (0.0003, 329.7, 44.43)
]%float.

(** [julianYear] is a number of julian years from J2000.0. *)
Definition julianYear : Type := float.

(** [time.Date(2000, 1, 1, 12, 0, 0, 0, time.UTC).Unix()] *)
Definition j2000 : Z := GoTime.DateUnix 2000 1 1 12 GoTime.UTC.

(** [t] is the instant's [Unix()] value. *)
Definition time2JulianYear (t : Z) : julianYear :=
  let d := Int.wrap (t - j2000) in
  let d := Int.wrap (d + 36) in
  let d := Int.wrap (d + 32) in
  (F64.of_int d / F64.of_int ((365 * 24 + 6) * 60 * 60))%float.

(** [math.Pi] as a [float64]. *)
Definition math_Pi : float := 0x1.921fb54442d18p+1%float.

(** ** The equinox estimator *)

Section Estimator.

(** [math.Sin] and [math.Mod] of the Go runtime. *)
Variable math_Sin : float -> float.
Variable math_Mod : float -> float -> float.

(** The package variable [jst], loaded from "Asia/Tokyo". *)
Variable jst : GoTime.Location.

Definition sin (x : float) : float :=
  math_Sin (x / 180 * math_Pi)%float.

Definition normalizeDegree (x : float) : float :=
  let x := math_Mod x 360%float in
  if (x <? 0)%float then (x + 360)%float else x.

Definition sunLongitude (jy : julianYear) : float :=
  let t := jy in
  let l := normalizeDegree (360.00769 * t)%float in
  let l := normalizeDegree (l + 280.4603)%float in
  let l := normalizeDegree
    (l + (1.9146 - 0.00005 * t) * sin (357.538 + 359.991 * t))%float in
  fold_left
    (fun l b => let '(b0, b1, b2) := b in
                normalizeDegree (l + b0 * sin (b1 + b2 * t))%float)
    sunLongitudeTable l.

(** The longitude both searches test on day [i] of [month]:
    [sunLongitude(time2JulianYear(time.Date(year, month, i, 0, 0, 0, 0, jst)))]. *)
Definition longitudeAt (year month i : Z) : float :=
  sunLongitude (time2JulianYear (GoTime.DateUnix year month i 0 jst)).

(** [for i := from; ...; i++ { if hit(i) { return i - 1 } }; return 0],
    with [n] iterations left. *)
Fixpoint scanDays (hit : Z -> bool) (n : nat) (i : Z) : Z :=
  match n with
  | O => 0
  | S n' => if hit i then i - 1 else scanDays hit n' (i + 1)
  end.

(** [for i := 10; i <= 31; i++] *)
Definition vernalEquinoxDay (year : Z) : Z :=
  scanDays (fun i => (longitudeAt year GoTime.March i <? 180)%float) 22 10.

(** [for i := 10; i <= 30; i++]; [l >= 180] *)
Definition autumnalEquinoxDay (year : Z) : Z :=
  scanDays (fun i => (180 <=? longitudeAt year GoTime.September i)%float) 21 10.

End Estimator.

(** ** A concrete Go runtime, for evaluating the program

    The theorems below hold for every [math.Sin], [math.Mod] and location.
    Where one of them is evaluated at a concrete year, the runtime is this
    one: a sine computed by Cody-Waite reduction to an octant and the two
    polynomials of the portable [math.Sin], the exact floating-point
    remainder for the modulus the program uses, and the Tokyo zone. *)

Module Runtime.

Local Open Scope float_scope.

Definition two52 : float := 0x1p+52.

(** The largest integer not above [x], for [0 <= x < 2^52]. *)
Definition floor (x : float) : float :=
  let t := (x + two52) - two52 in
  if x <? t then t - 1 else t.

(** The remainder of [x / y] with the sign of [x], for [|x / y| < 2^52]
    and an integer [y]. *)
Definition Mod (x y : float) : float :=
  let ax := abs x in
  let ay := abs y in
  let q := floor (ax / ay) in
  let r := ax - ay * q in
  let r := if r <? 0 then r + ay else r in
  if x <? 0 then - r else r.

Definition sinCoeff : list float := [
  1.58962301576546568060e-10;
  -2.50507477628578072866e-8;
  2.75573136213857245213e-6;
  -1.98412698295895385996e-4;
  8.33333333332211858878e-3;
  -1.66666666666666307295e-1 ].

Definition cosCoeff : list float := [
  -1.13585365213876817300e-11;
  2.08757008419747316778e-9;
  -2.75573141792967388112e-7;
  2.48015872888517045348e-5;
  -1.38888888888730564116e-3;
  4.16666666666665929218e-2 ].

(** Horner evaluation, highest coefficient first. *)
Definition horner (cs : list float) (zz : float) : float :=
  fold_left (fun acc c => acc * zz + c) cs 0.

Definition PI4A : float := 7.85398125648498535156e-1.
Definition PI4B : float := 3.77489470793079817668e-8.
Definition PI4C : float := 2.69515142907905952645e-15.
Definition fourOverPi : float := 1.2732395447351626861510701069801.

(** The sine of [x] radians, for [|x| < 2^29]. *)
Definition Sin (x : float) : float :=
  if (x =? 0) || negb (x =? x) then x else
  let sign := x <? 0 in
  let x := abs x in
  let y := floor (x * fourOverPi) in
  let y := if (y - 2 * floor (y / 2)) =? 1 then y + 1 else y in
  let j := y - 8 * floor (y / 8) in
  let z := ((x - y * PI4A) - y * PI4B) - y * PI4C in
  let sign := if 3 <? j then negb sign else sign in
  let j := if 3 <? j then j - 4 else j in
  let zz := z * z in
  let r :=
    if (j =? 1) || (j =? 2)
    then 1 - 0.5 * zz + zz * zz * horner cosCoeff zz
    else z + z * zz * horner sinCoeff zz in
  if sign then - r else r.

(** Tokyo: local mean time (UTC+9:18:59) before 1888, UTC+9 afterwards.
    The summer time of 1948-1951 is left out, so this is "Asia/Tokyo"
    for every year outside 1948-1951. *)
Definition tokyo : GoTime.Location :=
  fun wall =>
    if (wall <? GoTime.daysSinceEpoch 1888 1 1 * 86400)%Z
    then 33539%Z else 32400%Z.

End Runtime.

(** ** [sort.Sort] on [withDate]

    [sort.Sort] is not stable and its algorithm is the library's; the
    program relies on its contract only: the result is a rearrangement of
    the input in which no later element is [Less] than an earlier one. *)

(** In the order of [Less]: no element is [Less] than an earlier one. This
    is the order [sort.Sort] leaves a slice in, and the order
    [sort.Slice] of the generator leaves the static table in. *)
Definition date_sorted (l : list Holiday) : Prop :=
  StronglySorted (fun a b => Less b a = false) l.

Class Sorter : Type := {
  Sort : list Holiday -> list Holiday;
  Sort_perm : forall l, Permutation l (Sort l);
  Sort_sorted : forall l, date_sorted (Sort l)
}.

(** ** The rule-based calculator *)

Section Calculator.

Variable annuallyHolidaysRules : list annuallyHolidaysRule.
Variable specialHolidays : list Holiday.
Context {sorter : Sorter}.
Variable math_Sin : float -> float.
Variable math_Mod : float -> float -> float.
Variable jst : GoTime.Location.

(** [for i := len(annuallyHolidaysRules); i > 0; i-- {
       if annuallyHolidaysRules[i-1].BeginYear >= year { rule = ...; break } }]
    The result is the pointer [rule]: [None] is [nil]. *)
Fixpoint searchRule (i : nat) (year : Z) : go (option annuallyHolidaysRule) :=
  match i with
  | O => ret None
  | S i' =>
      r <- index annuallyHolidaysRules i' ;;
      if BeginYear r >=? year then ret (Some r)
      else searchRule i' year
  end.

(** The first loop: the fixed-date holidays of the month. *)
Definition staticHolidaysOf (rule : annuallyHolidaysRule) (year month : Z)
  (holydays : list Holiday) : list Holiday :=
  let yearPrefix := Fmt.d0 4 year ++ "-" in
  let monthPrefix := Fmt.d0 2 month ++ "-" in
  fold_left
    (fun hs d =>
       if String.prefix monthPrefix (sDate d)
       then (hs ++ [mkHoliday (yearPrefix ++ sDate d) (sName d)])%list
       else hs)
    (StaticHolydays rule) holydays.

(** The day of the month a weekday rule falls on, as the loop body
    computes it. *)
Definition weekdayRuleDay (weekdayOfFirstDay : Z) (d : weekdayHolyday) : Z :=
  let day := Int.wrap (wWeekday d - weekdayOfFirstDay) in
  let day := if day <? 0 then Int.wrap (day + 7) else day in
  Int.wrap (day + Int.wrap (Int.wrap (wIndex d * 7) + 1)).

(** The second loop: the holidays on the n-th weekday of the month. *)
Definition weekdayHolidaysOf (rule : annuallyHolidaysRule) (year month : Z)
  (holydays : list Holiday) : list Holiday :=
  let weekdayOfFirstDay := GoTime.Weekday year month 1 in
  fold_left
    (fun hs d =>
       if wMonth d =? month
       then (hs ++ [mkHoliday
                      (Fmt.date year month (weekdayRuleDay weekdayOfFirstDay d))
                      (wName d)])%list
       else hs)
    (WeekdayHolydays rule) holydays.

(** The last loop: the special holidays of the month. *)
Definition specialHolidaysOf (year month : Z) (holydays : list Holiday)
  : list Holiday :=
  let yearMonthPrefix := (Fmt.d0 4 year ++ "-") ++ (Fmt.d0 2 month ++ "-") in
  fold_left
    (fun hs d =>
       if String.prefix yearMonthPrefix (Date d) then (hs ++ [d])%list else hs)
    specialHolidays holydays.

(** The slice [holydays] just before [sort.Sort]. *)
Definition emittedHolidays (rule : annuallyHolidaysRule) (year month : Z)
  : list Holiday :=
  let holydays := staticHolidaysOf rule year month [] in
  let holydays := weekdayHolidaysOf rule year month holydays in
  let holydays :=
    if month =? GoTime.March
    then (holydays ++
          [mkHoliday
             (Fmt.date year month (vernalEquinoxDay math_Sin math_Mod jst year))
             "春分の日"])%list
    else holydays in
  let holydays :=
    if month =? GoTime.September
    then (holydays ++
          [mkHoliday
             (Fmt.date year month (autumnalEquinoxDay math_Sin math_Mod jst year))
             "秋分の日"])%list
    else holydays in
  specialHolidaysOf year month holydays.

Definition calcHolidaysInMonthWithoutInLieu (year month : Z)
  : go (list Holiday) :=
  rule <- searchRule (List.length annuallyHolidaysRules) year ;;
  match rule with
  | None => ret []
  | Some rule => ret (Sort (emittedHolidays rule year month))
  end.

Definition calcHolidaysInMonth (year month : Z) : go (list Holiday) :=
  (* add holidays in lieu *)
  calcHolidaysInMonthWithoutInLieu year month.

(** [for month := time.January; month <= time.December; month++],
    with [n] iterations left. *)
Fixpoint calcYearLoop (year : Z) (n : nat) (month : Z) (result : list Holiday)
  : go (list Holiday) :=
  match n with
  | O => ret result
  | S n' =>
      holidays <- calcHolidaysInMonth year month ;;
      calcYearLoop year n' (month + 1) (result ++ holidays)%list
  end.

Definition calcHolidaysInYear (year : Z) : go (list Holiday) :=
  calcYearLoop year 12 1 [].

End Calculator.

(** ** What the specification says, where it is compared with the code *)

Module Spec.

(** Rule selection as the specification words it: the latest generation
    whose [BeginYear] is not after the requested year. *)
Fixpoint selectRule (rules : list annuallyHolidaysRule) (year : Z)
  : option annuallyHolidaysRule :=
  match rules with
  | [] => None
  | r :: rest =>
      match selectRule rest year with
      | Some r' => Some r'
      | None => if BeginYear r <=? year then Some r else None
      end
  end.

(** The vernal search as the specification words it: [i - 1] for the
    first day [i] of 10..31 whose longitude is no longer below 180. *)
Definition vernalEquinoxDay (longitude : Z -> float) : Z :=
  scanDays (fun i => negb (longitude i <? 180)%float) 22 10.

(** The outcome the specification asks of a search: a day, or the
    distinct "equinox not found". *)
Inductive outcome : Type :=
| Day (d : Z)
| EquinoxNotFound.

(** A search as the specification words it: the day before the first hit,
    and "equinox not found" when the scanned range has none. *)
Fixpoint search (hit : Z -> bool) (n : nat) (i : Z) : outcome :=
  match n with
  | O => EquinoxNotFound
  | S n' => if hit i then Day (i - 1) else search hit n' (i + 1)
  end.

End Spec.

(** ** Concrete tables, for evaluating the program *)

Module Sample.

(** Insertion of [h] before the first element it is [Less] than. *)
Fixpoint insert (h : Holiday) (l : list Holiday) : list Holiday :=
  match l with
  | [] => [h]
  | x :: l' => if Less h x then h :: x :: l' else x :: insert h l'
  end.

(** An insertion sort by [Less]: one implementation of the contract of
    [sort.Sort]. *)
Definition isort (l : list Holiday) : list Holiday :=
  fold_right insert [] l.

(** A static table in the format of the generated one: the entries of the
    official list for 2023. *)
Definition holidays : list Holiday := [
  mkHoliday "2023-01-01" "元日";
  mkHoliday "2023-01-02" "休日";
  mkHoliday "2023-01-09" "成人の日";
  mkHoliday "2023-02-11" "建国記念の日";
  mkHoliday "2023-02-23" "天皇誕生日";
  mkHoliday "2023-03-21" "春分の日";
  mkHoliday "2023-04-29" "昭和の日";
  mkHoliday "2023-05-03" "憲法記念日";
  mkHoliday "2023-05-04" "みどりの日";
  mkHoliday "2023-05-05" "こどもの日";
  mkHoliday "2023-07-17" "海の日";
  mkHoliday "2023-08-11" "山の日";
  mkHoliday "2023-09-18" "敬老の日";
  mkHoliday "2023-09-23" "秋分の日";
  mkHoliday "2023-10-09" "スポーツの日";
  mkHoliday "2023-11-03" "文化の日";
  mkHoliday "2023-11-23" "勤労感謝の日"
].

(** Year, month and day of each entry of [holidays]. *)
Definition holidayDays : list (Z * Z * Z) := [
  (2023, 1, 1); (2023, 1, 2); (2023, 1, 9); (2023, 2, 11); (2023, 2, 23);
  (2023, 3, 21); (2023, 4, 29); (2023, 5, 3); (2023, 5, 4); (2023, 5, 5);
  (2023, 7, 17); (2023, 8, 11); (2023, 9, 18); (2023, 9, 23); (2023, 10, 9);
  (2023, 11, 3); (2023, 11, 23)
].

(** [time.Monday] *)
Definition Monday : Z := 1.

(** The rule for Respect for the Aged Day: the third Monday of September. *)
Definition agedDay : weekdayHolyday := mkWeekday 9 Monday 2 "敬老の日".

(** Two rule generations: the law as enforced from 2016 and from 2020. *)
Definition rule2016 : annuallyHolidaysRule := mkRule 2016
  [ mkStatic "01-01" "元日";
    mkStatic "02-11" "建国記念の日";
    mkStatic "04-29" "昭和の日";
    mkStatic "05-03" "憲法記念日";
    mkStatic "05-04" "みどりの日";
    mkStatic "05-05" "こどもの日";
    mkStatic "08-11" "山の日";
    mkStatic "11-03" "文化の日";
    mkStatic "11-23" "勤労感謝の日";
    mkStatic "12-23" "天皇誕生日" ]
  [ mkWeekday 1 Monday 1 "成人の日";
    mkWeekday 7 Monday 2 "海の日";
    mkWeekday 9 Monday 2 "敬老の日";
    mkWeekday 10 Monday 1 "体育の日" ].

Definition rule2020 : annuallyHolidaysRule := mkRule 2020
  [ mkStatic "01-01" "元日";
    mkStatic "02-11" "建国記念の日";
    mkStatic "02-23" "天皇誕生日";
    mkStatic "04-29" "昭和の日";
    mkStatic "05-03" "憲法記念日";
    mkStatic "05-04" "みどりの日";
    mkStatic "05-05" "こどもの日";
    mkStatic "08-11" "山の日";
    mkStatic "11-03" "文化の日";
    mkStatic "11-23" "勤労感謝の日" ]
  [ mkWeekday 1 Monday 1 "成人の日";
    mkWeekday 7 Monday 2 "海の日";
    mkWeekday 9 Monday 2 "敬老の日";
    mkWeekday 10 Monday 1 "スポーツの日" ].

Definition annuallyHolidaysRules : list annuallyHolidaysRule :=
  [rule2016; rule2020].

(** One-off holidays: the enthronement days of 2019. *)
Definition specialHolidays : list Holiday := [
  mkHoliday "2019-04-30" "休日";
  mkHoliday "2019-05-01" "休日（祝日扱い）";
  mkHoliday "2019-05-02" "休日";
  mkHoliday "2019-10-22" "休日（祝日扱い）"
].

(** The same table with one more entry, whose date [rule2020] produces
    as well. *)
Definition specialHolidaysRepeating : list Holiday :=
  (specialHolidays ++ [mkHoliday "2020-02-23" "天皇誕生日"])%list.

End Sample.

(** ** [withDate] as a [sort.Interface] *)

Module withDate.

(** [s[i] = v] on a slice: panics when [i] is out of range. *)
Definition assign (s : list Holiday) (i : nat) (v : Holiday)
  : go (list Holiday) :=
  if (i <? List.length s)%nat
  then Some (firstn i s ++ v :: skipn (S i) s)%list
  else None.

Definition Len (s : list Holiday) : nat := List.length s.

(** [s[i], s[j] = s[j], s[i]]: both operands are read, then [s[i]] and
    [s[j]] are written, in that order. *)
Definition Swap (s : list Holiday) (i j : nat) : go (list Holiday) :=
  a <- index s j ;;
  b <- index s i ;;
  s1 <- assign s i a ;;
  assign s1 j b.

(** [withDate.Less(i, j)] *)
Definition LessAt (s : list Holiday) (i j : nat) : go bool :=
  a <- index s i ;;
  b <- index s j ;;
  ret (Less a b).

End withDate.

(** ** The generator: [internal/gen/gen.go] *)

Module Strings.

(** [strings.Split(s, sep)] for a separator of one byte: the pieces between
    the separators, one piece more than there are separators. *)
Fixpoint Split (s : string) (sep : ascii) : list string :=
  match s with
  | EmptyString => [EmptyString]
  | String c t =>
      if Ascii.eqb c sep then EmptyString :: Split t sep
      else match Split t sep with
           | piece :: pieces => String c piece :: pieces
           | [] => [String c EmptyString]
           end
  end.

End Strings.

Module Strconv.

(** The value of a decimal digit; [None] for any other byte. *)
Definition digitVal (c : ascii) : option Z :=
  let n := Z.of_N (N_of_ascii c) in
  if (48 <=? n) && (n <=? 57) then Some (n - 48) else None.

(** The digits of [s] read from the left onto [acc]. *)
Fixpoint parseDigits (s : string) (acc : Z) : option Z :=
  match s with
  | EmptyString => Some acc
  | String c t =>
      match digitVal c with
      | Some v => parseDigits t (acc * 10 + v)
      | None => None
      end
  end.

(** [strconv.Atoi]: an optional sign and at least one decimal digit, the
    value within [int]. [None] is a result with [err != nil] (a syntax
    error or a value out of range). *)
Definition Atoi (s : string) : option Z :=
  match s with
  | EmptyString => None
  | String c t =>
      let neg := Ascii.eqb c "-" in
      let body := if neg || Ascii.eqb c "+" then t else s in
      match body with
      | EmptyString => None
      | _ =>
          match parseDigits body 0 with
          | Some n =>
              let v := if neg then - n else n in
              if (- 2 ^ 63 <=? v) && (v <? 2 ^ 63) then Some v else None
          | None => None
          end
      end
  end.

End Strconv.

Module EncodingCsv.

(** A Go [error] that is neither [nil] nor [io.EOF], by its message. *)
Definition error : Type := string.

(** What one call of [csvReader.Read()] returns before the end of the
    input: a record with a [nil] error, or an error. The reader takes the
    number of fields from the first line it reads (the header line here)
    and returns [ErrFieldCount] for a later line with another number of
    fields, and a [ParseError] for a line it cannot read; the program does
    not look at the record that comes with an error. *)
Inductive read : Type :=
| Record (record : list string)
| Failed (err : error).

Definition ErrFieldCount : error := "wrong number of fields".

End EncodingCsv.

Module Gen.

(** [formatDate]: 2021/1/1 -> 2021-01-01. A field that is missing and a
    field [strconv.Atoi] rejects are panics. *)
Definition formatDate (s : string) : go string :=
  let date := Strings.Split s "/" in
  f0 <- index date 0 ;;
  y <- Strconv.Atoi f0 ;;
  f1 <- index date 1 ;;
  m <- Strconv.Atoi f1 ;;
  f2 <- index date 2 ;;
  d <- Strconv.Atoi f2 ;;
  ret (Fmt.date y m d).

(** The loop of [formatHolidays] over what [csvReader.Read()] returns after
    the header line, up to [io.EOF]: an error ends the function with
    [return err] (the result [inl err]); a record adds
    [Holiday{Date: formatDate(record[0]), Name: record[1]}]; at [io.EOF]
    the loop ends with the slice [holidays] (the result [inr holidays]). *)
Fixpoint readRecords (reads : list EncodingCsv.read) (holidays : list Holiday)
  : go (EncodingCsv.error + list Holiday) :=
  match reads with
  | [] => ret (inr holidays)
  | EncodingCsv.Failed err :: _ => ret (inl err)
  | EncodingCsv.Record record :: rest =>
      r0 <- index record 0 ;;
      date <- formatDate r0 ;;
      r1 <- index record 1 ;;
      readRecords rest (holidays ++ [mkHoliday date r1])%list
  end.

(** [formatHolidays] up to the slice it prints as the table [holidays]:
    the loop, then [sort.Slice] with the comparison of [Date]s, which has
    the contract of [sort.Sort] on [withDate] (a rearrangement in the order
    of [Less]) and is the class [Sorter] here too. [inl err] when the loop
    has returned [err]. *)
Definition sortedHolidays {sorter : Sorter} (reads : list EncodingCsv.read)
  : go (EncodingCsv.error + list Holiday) :=
  r <- readRecords reads [] ;;
  match r with
  | inl err => ret (inl err)
  | inr holidays => ret (inr (Sort holidays))
  end.

(** The texts printed as [holidaysStartYear] and [holidaysEndYear]:
    [strings.Split(holidays[0].Date, "-")[0]] and
    [strings.Split(holidays[len(holidays)-1].Date, "-")[0]]. *)
Definition yearRange (holidays : list Holiday) : go (string * string) :=
  first <- index holidays 0 ;;
  startYear <- index (Strings.Split (Date first) "-") 0 ;;
  last <- (if (0 <? List.length holidays)%nat
           then index holidays (List.length holidays - 1)
           else None) ;;
  endYear <- index (Strings.Split (Date last) "-") 0 ;;
  ret (startYear, endYear).

End Gen.

(** ** Rows of the official list *)

Module Csv.

(** The date of a row as the official list writes it: year, month and day
    in decimal without padding, separated by slashes. *)
Definition date (y m d : Z) : string :=
  Fmt.d0 0 y ++ "/" ++ Fmt.d0 0 m ++ "/" ++ Fmt.d0 0 d.

(** The record the CSV reader returns for a row: the date and the name. *)
Definition record (row : Z * Z * Z * string) : list string :=
  let '(y, m, d, name) := row in [date y m d; name].

(** What the CSV reader returns for the rows of a list under a header of
    two fields: one record for each row, and no error. *)
Definition reads (rows : list (Z * Z * Z * string)) : list EncodingCsv.read :=
  map (fun row => EncodingCsv.Record (record row)) rows.

(** The table entry of a row. *)
Definition holiday (row : Z * Z * Z * string) : Holiday :=
  let '(y, m, d, name) := row in mkHoliday (Fmt.date y m d) name.

(** The fields of a row fit an [int]. *)
Definition fits (row : Z * Z * Z * string) : Prop :=
  let '(y, m, d, _) := row in
  Int.in_range y /\ Int.in_range m /\ Int.in_range d.

(** The month and the day of a row are those of a calendar. *)
Definition calendar (row : Z * Z * Z * string) : Prop :=
  let '(_, m, d, _) := row in 1 <= m <= 12 /\ 1 <= d <= 31.

End Csv.

(** A formatted date with a year of at most four digits and fields of at
    most two. *)
Definition four_digit_date (s : string) : Prop :=
  exists y m d,
    0 <= y <= 9999 /\ 0 <= m <= 99 /\ 0 <= d <= 99 /\ s = Fmt.date y m d.

(** ** The vocabulary of the properties *)

(** The months January to December, in order. *)
Definition months : list Z := [1; 2; 3; 4; 5; 6; 7; 8; 9; 10; 11; 12].

(** The date is a formatted date whose month and day fields are those of a
    calendar: what the generator writes for a row of the official list. *)
Definition calendar_date (s : string) : Prop :=
  exists y m d, 1 <= m <= 12 /\ 1 <= d <= 31 /\ s = Fmt.date y m d.

(** No two records share a date and the dates increase: each record is
    [Less] than every later one. *)
Definition strictly_ascending (l : list Holiday) : Prop :=
  StronglySorted (fun a b => Less a b = true) l.

(** * Properties *)

(** ** The order on Go strings *)

Module StrOrd.

Lemma ascii_compare_refl (c : ascii) : Ascii.compare c c = Eq.
Proof. unfold Ascii.compare. apply N.compare_refl. Qed.

Lemma ascii_compare_lt_trans (a b c : ascii) :
  Ascii.compare a b = Lt -> Ascii.compare b c = Lt -> Ascii.compare a c = Lt.
Proof.
  unfold Ascii.compare. rewrite !N.compare_lt_iff. apply N.lt_trans.
Qed.

Lemma compare_refl (s : string) : String.compare s s = Eq.
Proof.
  induction s as [|c s IH]; simpl; [reflexivity|].
  now rewrite ascii_compare_refl.
Qed.

Lemma compare_lt_trans (a b c : string) :
  String.compare a b = Lt -> String.compare b c = Lt -> String.compare a c = Lt.
Proof.
  revert b c.
  induction a as [|x a IH]; intros [|y b] [|z c]; simpl; try congruence.
  destruct (Ascii.compare x y) eqn:Hxy; try discriminate.
  - apply Ascii.compare_eq_iff in Hxy. subst y.
    destruct (Ascii.compare x z); try congruence. apply IH.
  - intros _.
    destruct (Ascii.compare y z) eqn:Hyz; try discriminate.
    + apply Ascii.compare_eq_iff in Hyz. subst z. now rewrite Hxy.
    + intros _. now rewrite (ascii_compare_lt_trans _ _ _ Hxy Hyz).
Qed.

Lemma compare_gt_lt (a b : string) :
  String.compare a b = Gt <-> String.compare b a = Lt.
Proof.
  rewrite (String.compare_antisym a b).
  destruct (String.compare b a); simpl; split; congruence.
Qed.

(** [a < b] and [b <= c] give [a < c]. *)
Lemma ltb_leb_trans (a b c : string) :
  String.ltb a b = true -> String.ltb c b = false -> String.ltb a c = true.
Proof.
  unfold String.ltb. intros Hab Hcb.
  destruct (String.compare a b) eqn:E1; try discriminate.
  destruct (String.compare c b) eqn:E2; try discriminate.
  - apply String.compare_eq_iff in E2. subst c. now rewrite E1.
  - apply compare_gt_lt in E2.
    now rewrite (compare_lt_trans _ _ _ E1 E2).
Qed.

(** [a <= b] and [b < c] give [a < c]. *)
Lemma leb_ltb_trans (a b c : string) :
  String.ltb b a = false -> String.ltb b c = true -> String.ltb a c = true.
Proof.
  unfold String.ltb. intros Hba Hbc.
  destruct (String.compare b c) eqn:E1; try discriminate.
  destruct (String.compare b a) eqn:E2; try discriminate.
  - apply String.compare_eq_iff in E2. subst a. now rewrite E1.
  - apply compare_gt_lt in E2.
    now rewrite (compare_lt_trans _ _ _ E2 E1).
Qed.

(** [a >= b] and [b >= c] give [a >= c]. *)
Lemma geb_trans (a b c : string) :
  String.ltb a b = false -> String.ltb b c = false -> String.ltb a c = false.
Proof.
  intros Hab Hbc.
  destruct (String.ltb a c) eqn:E; [|reflexivity].
  rewrite (ltb_leb_trans a c b E Hbc) in Hab. discriminate.
Qed.

Lemma ltb_irrefl (a : string) : String.ltb a a = false.
Proof. unfold String.ltb. now rewrite compare_refl. Qed.

Lemma ltb_asym (a b : string) :
  String.ltb a b = true -> String.ltb b a = false.
Proof.
  unfold String.ltb. rewrite (String.compare_antisym b a).
  destruct (String.compare a b); simpl; congruence.
Qed.

(** Neither below the other: the same string. *)
Lemma ltb_false_antisym (a b : string) :
  String.ltb a b = false -> String.ltb b a = false -> a = b.
Proof.
  unfold String.ltb. rewrite (String.compare_antisym b a).
  destruct (String.compare a b) eqn:E; simpl; try congruence.
  intros _ _. now apply String.compare_eq_iff.
Qed.

(** A common prefix does not change the comparison. *)
Lemma compare_app (p a b : string) :
  String.compare (p ++ a) (p ++ b) = String.compare a b.
Proof.
  induction p as [|c p IH]; simpl; [reflexivity|].
  now rewrite ascii_compare_refl.
Qed.

Lemma ltb_app (p a b : string) :
  String.ltb (p ++ a) (p ++ b) = String.ltb a b.
Proof. unfold String.ltb. now rewrite compare_app. Qed.

(** Against a string that does not start with [p], everything that starts
    with [p] compares the same way. *)
Lemma compare_not_prefix (p e x y : string) :
  String.prefix p e = false ->
  String.compare e (p ++ x) = String.compare e (p ++ y).
Proof.
  revert e.
  induction p as [|c p IH]; intros e Hp.
  - destruct e; discriminate.
  - destruct e as [|c' e]; simpl; [reflexivity|].
    simpl in Hp.
    destruct (Ascii.ascii_dec c c') as [->|Hne].
    + rewrite ascii_compare_refl. now apply IH.
    + destruct (Ascii.compare c' c) eqn:E; try reflexivity.
      apply Ascii.compare_eq_iff in E. congruence.
Qed.

Lemma prefix_app (p s : string) : String.prefix p (p ++ s) = true.
Proof.
  induction p as [|c p IH]; simpl.
  - now destruct s.
  - destruct (Ascii.ascii_dec c c); [exact IH | congruence].
Qed.

Lemma prefix_inv (p e : string) :
  String.prefix p e = true -> exists r, e = p ++ r.
Proof.
  revert e.
  induction p as [|c p IH]; intros e H.
  - now exists e.
  - destruct e as [|c' e]; simpl in H; [discriminate|].
    destruct (Ascii.ascii_dec c c') as [->|]; [|discriminate].
    destruct (IH _ H) as [r ->]. now exists r.
Qed.

Lemma append_assoc (a b c : string) : (a ++ b) ++ c = a ++ (b ++ c).
Proof. induction a as [|x a IH]; simpl; [reflexivity | now rewrite IH]. Qed.

End StrOrd.

(** ** [sort.Search] terminates and returns the boundary it documents *)

Module SearchFacts.

(** For a predicate that does not panic on [0 .. n-1], the loop returns some
    [k] between [i] and [j], with the loop invariant of [sort.Search]:
    the predicate is false just below [k] (or [k] is the initial [i0]) and
    true at [k] (or [k] is the initial [j0]). The fuel [j - i] is enough. *)
Lemma search_loop_spec (f : nat -> go bool) (p : nat -> bool) (n i0 j0 : nat) :
  (forall h, (h < n)%nat -> f h = Some (p h)) ->
  forall fuel i j,
    (i <= j <= n)%nat -> (j - i <= fuel)%nat ->
    (i = i0 \/ (0 < i)%nat /\ p (i - 1)%nat = false) ->
    (j = j0 \/ p j = true) ->
    exists k, search_loop fuel f i j = Some k /\
              (i <= k <= j)%nat /\
              (k = i0 \/ (0 < k)%nat /\ p (k - 1)%nat = false) /\
              (k = j0 \/ p k = true).
Proof.
  intros Hf.
  induction fuel as [|fuel IH]; intros i j Hij Hfuel Hi Hj.
  - simpl. exists i. assert (i = j) by lia. subst j.
    repeat split; auto; lia.
  - cbn [search_loop]. cbv zeta.
    destruct (i <? j)%nat eqn:Hlt.
    + apply Nat.ltb_lt in Hlt.
      assert (Hh : (i <= (i + j) / 2 < j)%nat).
      { split.
        - apply Nat.div_le_lower_bound; lia.
        - apply Nat.Div0.div_lt_upper_bound; lia. }
      rewrite (Hf ((i + j) / 2)%nat) by lia. cbn [bind].
      destruct (p ((i + j) / 2)%nat) eqn:Hp; cbn [negb].
      * destruct (IH i ((i + j) / 2)%nat) as (k & Hk & Hr & Hlo & Hhi);
          auto; try lia.
        exists k. repeat split; auto; lia.
      * destruct (IH ((i + j) / 2 + 1)%nat j) as (k & Hk & Hr & Hlo & Hhi);
          auto; try lia.
        { right. split; [lia|].
          now replace ((i + j) / 2 + 1 - 1)%nat with ((i + j) / 2)%nat by lia. }
        exists k. repeat split; auto; lia.
    + apply Nat.ltb_ge in Hlt. exists i. assert (i = j) by lia. subst j.
      repeat split; auto; lia.
Qed.

Lemma Search_spec (f : nat -> go bool) (p : nat -> bool) (n : nat) :
  (forall h, (h < n)%nat -> f h = Some (p h)) ->
  exists k, Search n f = Some k /\ (k <= n)%nat /\
            (k = 0%nat \/ (0 < k)%nat /\ p (k - 1)%nat = false) /\
            (k = n \/ p k = true).
Proof.
  intros Hf. unfold Search.
  destruct (search_loop_spec f p n 0%nat n Hf n 0%nat n)
    as (k & Hk & Hr & Hlo & Hhi); auto; try lia.
  exists k. repeat split; auto; lia.
Qed.

End SearchFacts.

(** ** The static table *)

Section StaticTableFacts.

Variable holidays : list Holiday.

(** [k] is the boundary of [key] in the table: the entries before index [k]
    are below [key], the entries from [k] on are not. *)
Definition boundary (key : string) (k : nat) : Prop :=
  (k <= List.length holidays)%nat /\
  (forall h e, (h < k)%nat -> nth_error holidays h = Some e ->
               String.ltb (Date e) key = true) /\
  (forall h e, (k <= h)%nat -> nth_error holidays h = Some e ->
               String.ltb (Date e) key = false).

Definition geKey (key : string) (h : nat) : bool :=
  str_ge (Date (nth h holidays zeroHoliday)) key.

Lemma searchDate_closure (key : string) (h : nat) :
  (h < List.length holidays)%nat ->
  (e <- index holidays h ;; ret (str_ge (Date e) key)) = Some (geKey key h).
Proof.
  intros Hh. unfold index, geKey.
  destruct (nth_error holidays h) as [e|] eqn:E.
  - simpl. now rewrite (nth_error_nth _ _ _ E).
  - apply nth_error_None in E. lia.
Qed.

(** Without any assumption on the table, [searchDate] does not panic. *)
Lemma searchDate_total (key : string) :
  exists k, searchDate holidays key = Some k /\
            (k <= List.length holidays)%nat /\
            (k = 0%nat \/ (0 < k)%nat /\ geKey key (k - 1) = false) /\
            (k = List.length holidays \/ geKey key k = true).
Proof.
  unfold searchDate.
  apply SearchFacts.Search_spec. intros h Hh. now apply searchDate_closure.
Qed.

Lemma sorted_nth (i j : nat) (a b : Holiday) :
  date_sorted holidays -> (i <= j)%nat ->
  nth_error holidays i = Some a -> nth_error holidays j = Some b ->
  String.ltb (Date b) (Date a) = false.
Proof.
  unfold date_sorted. intros Hs. revert i j.
  induction Hs as [|x l Hs IH Hall]; intros i j Hij Ha Hb.
  - destruct i; discriminate.
  - destruct i as [|i]; destruct j as [|j]; simpl in *; try lia.
    + injection Ha as <-. injection Hb as <-. apply StrOrd.ltb_irrefl.
    + injection Ha as <-. apply nth_error_In in Hb.
      rewrite Forall_forall in Hall. exact (Hall _ Hb).
    + apply (IH i j); auto; lia.
Qed.

(** On a sorted table, the index [searchDate] returns is the boundary. *)
Lemma searchDate_boundary (key : string) :
  date_sorted holidays ->
  exists k, searchDate holidays key = Some k /\ boundary key k.
Proof.
  intros Hs.
  destruct (searchDate_total key) as (k & Hk & Hlen & Hlo & Hhi).
  exists k. split; [exact Hk|]. split; [exact Hlen|]. split.
  - intros h e Hh He.
    destruct Hlo as [->|[Hpos Hlo]]; [lia|].
    unfold geKey, str_ge in Hlo. apply negb_false_iff in Hlo.
    destruct (nth_error holidays (k - 1)) as [e'|] eqn:E'.
    + rewrite (nth_error_nth _ _ _ E') in Hlo.
      apply (StrOrd.leb_ltb_trans (Date e) (Date e') key); [|exact Hlo].
      apply (sorted_nth h (k - 1) e e'); auto; lia.
    + apply nth_error_None in E'. lia.
  - intros h e Hh He.
    destruct Hhi as [->|Hhi].
    + assert (h < List.length holidays)%nat
        by (apply nth_error_Some; congruence). lia.
    + unfold geKey, str_ge in Hhi. apply negb_true_iff in Hhi.
      destruct (nth_error holidays k) as [e'|] eqn:E'.
      * rewrite (nth_error_nth _ _ _ E') in Hhi.
        apply (StrOrd.geb_trans (Date e) (Date e') key); [|exact Hhi].
        apply (sorted_nth k h e' e); auto.
      * apply nth_error_None in E'.
        assert (h < List.length holidays)%nat
          by (apply nth_error_Some; congruence). lia.
Qed.

Lemma boundary_unique (key : string) (k k' : nat) :
  boundary key k -> boundary key k' -> k = k'.
Proof.
  intros (Hl & Hlo & Hhi) (Hl' & Hlo' & Hhi').
  destruct (Nat.lt_trichotomy k k') as [H|[H|H]]; [|exact H|].
  - destruct (nth_error holidays k) as [e|] eqn:E.
    + pose proof (Hlo' k e H E). pose proof (Hhi k e (le_n _) E). congruence.
    + apply nth_error_None in E. lia.
  - destruct (nth_error holidays k') as [e|] eqn:E.
    + pose proof (Hlo k' e H E). pose proof (Hhi' k' e (le_n _) E). congruence.
    + apply nth_error_None in E. lia.
Qed.

End StaticTableFacts.

Section FindHolidayFacts.

Variable holidays : list Holiday.

Lemma find_first {A} (p : A -> bool) (l : list A) (k : nat) (e : A) :
  nth_error l k = Some e -> p e = true ->
  (forall h x, (h < k)%nat -> nth_error l h = Some x -> p x = false) ->
  find p l = Some e.
Proof.
  revert k.
  induction l as [|a l IH]; intros k Hk Hp Hbefore.
  - destruct k; discriminate.
  - destruct k as [|k]; simpl in *.
    + injection Hk as ->. now rewrite Hp.
    + rewrite (Hbefore 0%nat a) by (simpl; auto; lia).
      apply (IH k); auto.
      intros h x Hh Hx. apply (Hbefore (S h) x); [lia | exact Hx].
Qed.

Lemma find_absent {A} (p : A -> bool) (l : list A) :
  (forall x, In x l -> p x = false) -> find p l = None.
Proof.
  induction l as [|a l IH]; intros H; simpl; [reflexivity|].
  rewrite (H a) by now left.
  apply IH. intros x Hx. apply H. now right.
Qed.

(** [findHoliday] never panics, whatever the table and the integers. *)
Lemma findHoliday_cases (year month day : Z) :
  exists k, searchDate holidays (Fmt.date year month day) = Some k /\
    (k <= List.length holidays)%nat /\
    findHoliday holidays year month day =
      Some (match nth_error holidays k with
            | Some h => if String.eqb (Date h) (Fmt.date year month day)
                        then (h, true) else (zeroHoliday, false)
            | None => (zeroHoliday, false)
            end).
Proof.
  destruct (searchDate_total holidays (Fmt.date year month day))
    as (k & Hk & Hlen & _).
  exists k. split; [exact Hk|]. split; [exact Hlen|].
  unfold findHoliday. rewrite Hk. cbn [bind].
  destruct (k <? List.length holidays)%nat eqn:Hlt.
  - apply Nat.ltb_lt in Hlt. unfold index.
    destruct (nth_error holidays k) as [h|] eqn:E.
    + cbn [bind]. now destruct (String.eqb (Date h) (Fmt.date year month day)).
    + apply nth_error_None in E. lia.
  - apply Nat.ltb_ge in Hlt.
    assert (E : nth_error holidays k = None) by (apply nth_error_None; lia).
    now rewrite E.
Qed.

(** On a sorted table the binary search finds what a scan from the front
    finds: the first entry with the formatted date, if there is one. *)
Lemma findHoliday_find (year month day : Z) :
  date_sorted holidays ->
  findHoliday holidays year month day =
    Some (match find (fun h => String.eqb (Date h) (Fmt.date year month day))
                     holidays with
          | Some h => (h, true)
          | None => (zeroHoliday, false)
          end).
Proof.
  intros Hs.
  set (date := Fmt.date year month day).
  destruct (findHoliday_cases year month day) as (k & Hk & Hlen & Hres).
  fold date in Hk, Hres.
  destruct (searchDate_boundary holidays date Hs) as (k' & Hk' & Hb).
  assert (k' = k) by congruence. subst k'.
  destruct Hb as (_ & Hlo & Hhi).
  rewrite Hres.
  assert (Hbelow : forall h x, (h < k)%nat -> nth_error holidays h = Some x ->
                               String.eqb (Date x) date = false).
  { intros h x Hh Hx. apply String.eqb_neq. intros Heq.
    pose proof (Hlo h x Hh Hx) as Hltb. rewrite Heq in Hltb.
    rewrite StrOrd.ltb_irrefl in Hltb. discriminate. }
  destruct (nth_error holidays k) as [e|] eqn:E.
  - destruct (String.eqb (Date e) date) eqn:Heq.
    + now rewrite (find_first _ holidays k e E Heq Hbelow).
    + rewrite find_absent; [reflexivity|].
      intros x Hx. apply In_nth_error in Hx. destruct Hx as [h Hx].
      destruct (Nat.lt_ge_cases h k) as [Hh|Hh]; [now apply (Hbelow h)|].
      apply String.eqb_neq. intros Hxd.
      apply String.eqb_neq in Heq. apply Heq.
      apply StrOrd.ltb_false_antisym.
      * exact (Hhi k e (le_n _) E).
      * rewrite <- Hxd. apply (sorted_nth holidays k h e x); auto.
  - rewrite find_absent; [reflexivity|].
    intros x Hx. apply In_nth_error in Hx. destruct Hx as [h Hx].
    apply (Hbelow h); auto.
    apply nth_error_None in E.
    assert (h < List.length holidays)%nat by (apply nth_error_Some; congruence).
    lia.
Qed.

End FindHolidayFacts.

(** C4. On a table in sorted order, the single-date lookup agrees exactly
    with the table: it reports [found = true] exactly when the table has a
    record with the requested date, the record it then returns is a record
    of the table with that date (the first one), and otherwise it returns
    the empty record with [found = false]. This holds for every date, in
    particular for those of the years the table covers. *)
Theorem findHoliday_agrees_with_table (holidays : list Holiday)
    (year month day : Z) :
  date_sorted holidays ->
  exists r found,
    findHoliday holidays year month day = Some (r, found) /\
    (found = true <->
       exists h, In h holidays /\ Date h = Fmt.date year month day) /\
    (found = true ->
       In r holidays /\ Date r = Fmt.date year month day /\
       find (fun h => String.eqb (Date h) (Fmt.date year month day)) holidays
         = Some r) /\
    (found = false -> r = zeroHoliday).
Proof.
  intros Hs. rewrite (findHoliday_find holidays year month day Hs).
  destruct (find _ holidays) as [h|] eqn:F.
  - exists h, true. apply find_some in F as [Hin Heq].
    apply String.eqb_eq in Heq.
    repeat split; auto; try discriminate. now exists h.
  - exists zeroHoliday, false.
    repeat split; auto; try discriminate.
    intros (h & Hin & Hd).
    pose proof (find_none _ _ F h Hin) as Hne. cbv beta in Hne.
    apply String.eqb_neq in Hne. contradiction.
Qed.

(** C10. The single-date lookup is total and validates nothing: for all
    integers [year], [month] and [day], calendar dates or not, and for any
    table, it returns without a panic; and when the formatted date string
    equals the date of no entry it returns the empty record and
    [found = false]. *)
Theorem findHoliday_total (holidays : list Holiday) (year month day : Z) :
  exists r found,
    findHoliday holidays year month day = Some (r, found) /\
    ((forall h, In h holidays -> Date h <> Fmt.date year month day) ->
     r = zeroHoliday /\ found = false).
Proof.
  destruct (findHoliday_cases holidays year month day)
    as (k & _ & _ & Hres).
  rewrite Hres.
  destruct (nth_error holidays k) as [h|] eqn:E.
  - destruct (String.eqb (Date h) (Fmt.date year month day)) eqn:Heq.
    + exists h, true. split; [reflexivity|].
      intros Hno. apply String.eqb_eq in Heq.
      apply nth_error_In in E. now destruct (Hno h E).
    + exists zeroHoliday, false. now split.
  - exists zeroHoliday, false. now split.
Qed.

(** ** The shape of formatted numbers *)

Module FmtFacts.

(** No character of the string is the separator ["-"]. *)
Fixpoint dashfree (s : string) : bool :=
  match s with
  | EmptyString => true
  | String c t => negb (Ascii.eqb c "-") && dashfree t
  end.

Lemma dashfree_app (a b : string) :
  dashfree (a ++ b) = dashfree a && dashfree b.
Proof.
  induction a as [|c a IH]; simpl; [reflexivity|].
  now rewrite IH, andb_assoc.
Qed.

Lemma dashfree_uint (d : Decimal.uint) :
  dashfree (NilEmpty.string_of_uint d) = true.
Proof. induction d; simpl; auto. Qed.

Lemma dashfree_zeros (k : nat) : dashfree (Fmt.zeros k) = true.
Proof. induction k; simpl; auto. Qed.

Lemma dashfree_pad0 (w : nat) (n : N) :
  dashfree (Fmt.pad0 w (Fmt.digits n)) = true.
Proof.
  unfold Fmt.pad0, Fmt.digits.
  now rewrite dashfree_app, dashfree_zeros, dashfree_uint.
Qed.

Lemma uint_nonempty (n : N) : Fmt.digits n <> "".
Proof.
  unfold Fmt.digits. destruct n as [|p]; simpl; [discriminate|].
  pose proof (DecimalPos.Unsigned.to_uint_nonnil p) as Hnn.
  destruct (Pos.to_uint p); simpl; congruence.
Qed.

(** A formatted number is one character, sign or digit, followed by
    characters that are not the separator. *)
Lemma d0_shape (w : nat) (z : Z) :
  (1 <= w)%nat ->
  exists c t, Fmt.d0 w z = String c t /\ dashfree t = true.
Proof.
  intros Hw. unfold Fmt.d0.
  destruct (z <? 0).
  - eexists _, _. split; [reflexivity|]. apply dashfree_pad0.
  - pose proof (dashfree_pad0 w (Z.to_N z)) as Hd.
    pose proof (uint_nonempty (Z.to_N z)) as Hne.
    unfold Fmt.pad0 in *.
    destruct (w - String.length (Fmt.digits (Z.to_N z)))%nat eqn:E; simpl in *.
    + destruct (Fmt.digits (Z.to_N z)) as [|c t]; [congruence|].
      exists c, t. split; [reflexivity|].
      simpl in Hd. now apply andb_true_iff in Hd.
    + eexists _, _. split; [reflexivity|]. exact Hd.
Qed.

Lemma dashfree_sep_inj (t t' x x' : string) :
  dashfree t = true -> dashfree t' = true ->
  t ++ String "-" x = t' ++ String "-" x' -> t = t' /\ x = x'.
Proof.
  revert t'.
  induction t as [|a t IH]; intros [|a' t'] Ht Ht' Heq; simpl in *.
  - injection Heq as ->. auto.
  - injection Heq as <- _. discriminate.
  - injection Heq as -> _. discriminate.
  - injection Heq as -> Heq.
    apply andb_true_iff in Ht as [_ Ht].
    apply andb_true_iff in Ht' as [_ Ht'].
    destruct (IH t' Ht Ht' Heq) as [-> ->]. auto.
Qed.

(** Two formatted dates that share the text up to the first separator after
    the year share the year field, and the rest. *)
Lemma d0_sep_inj (w : nat) (z z' : Z) (x x' : string) :
  (1 <= w)%nat ->
  Fmt.d0 w z ++ String "-" x = Fmt.d0 w z' ++ String "-" x' ->
  Fmt.d0 w z = Fmt.d0 w z' /\ x = x'.
Proof.
  intros Hw Heq.
  destruct (d0_shape w z Hw) as (c & t & E & Ht).
  destruct (d0_shape w z' Hw) as (c' & t' & E' & Ht').
  rewrite E, E' in *. simpl in Heq. injection Heq as -> Heq.
  destruct (dashfree_sep_inj t t' x x' Ht Ht' Heq) as [-> ->]. auto.
Qed.

End FmtFacts.

(** ** Month slices and the year slice of the static table *)

Module Enum.

(** The integers [lo], [lo + 1], ..., [hi]. *)
Definition zrange (lo hi : Z) : list Z :=
  map (fun i => lo + Z.of_nat i) (seq 0 (Z.to_nat (hi - lo + 1))).

Lemma zrange_In (lo hi z : Z) : lo <= z <= hi -> In z (zrange lo hi).
Proof.
  intros H. unfold zrange. apply in_map_iff.
  exists (Z.to_nat (z - lo)). split; [lia|].
  apply in_seq. lia.
Qed.

Lemma forallb_zrange (p : Z -> bool) (lo hi : Z) :
  forallb p (zrange lo hi) = true ->
  forall z, lo <= z <= hi -> p z = true.
Proof.
  intros H z Hz. rewrite forallb_forall in H.
  apply H. now apply zrange_In.
Qed.

End Enum.

Module Gap.

(** The text of a calendar date after the year field and its separator. *)
Definition monthDay (m d : Z) : string :=
  Fmt.d0 2 m ++ "-" ++ Fmt.d0 2 d.

(** No month-and-day text lies from [x] up to [y]: each compares with [x]
    as it compares with [y]. *)
Definition gapfree (x y : string) : bool :=
  forallb
    (fun m =>
       forallb
         (fun d =>
            Bool.eqb (String.ltb (monthDay m d) x) (String.ltb (monthDay m d) y))
         (Enum.zrange 1 31))
    (Enum.zrange 1 12).

Lemma gapfree_spec (x y : string) :
  gapfree x y = true ->
  forall m d, 1 <= m <= 12 -> 1 <= d <= 31 ->
    String.ltb (monthDay m d) x = String.ltb (monthDay m d) y.
Proof.
  intros H m d Hm Hd. unfold gapfree in H.
  pose proof (Enum.forallb_zrange _ 1 12 H m Hm) as H1. cbv beta in H1.
  pose proof (Enum.forallb_zrange _ 1 31 H1 d Hd) as H2. cbv beta in H2.
  now apply Bool.eqb_prop.
Qed.

(** Between the end key of a month and the start key of the next. *)
Lemma gapfree_months (m : Z) :
  1 <= m <= 11 ->
  gapfree (Fmt.d0 2 m ++ "-99") (Fmt.d0 2 (m + 1) ++ "-01") = true.
Proof.
  apply (Enum.forallb_zrange
           (fun m => gapfree (Fmt.d0 2 m ++ "-99") (Fmt.d0 2 (m + 1) ++ "-01"))
           1 11).
  vm_compute. reflexivity.
Qed.

(** Between the end key of December and the end key of the year. *)
Lemma gapfree_december : gapfree "12-99" "99-99" = true.
Proof. vm_compute. reflexivity. Qed.

End Gap.

Section SliceFacts.

Variable holidays : list Holiday.
Hypothesis Hsorted : date_sorted holidays.
Hypothesis Hdates : Forall (fun h => calendar_date (Date h)) holidays.

Variable year : Z.

(** The year field and its separator: the common prefix of all keys. *)
Let P : string := Fmt.d0 4 year ++ "-".

(** The index [searchDate] returns for a key. *)
Definition K (key : string) : nat :=
  match searchDate holidays key with
  | Some k => k
  | None => 0%nat
  end.

Lemma searchDate_K (key : string) :
  searchDate holidays key = Some (K key) /\ boundary holidays key (K key).
Proof.
  unfold K.
  destruct (searchDate_boundary holidays key Hsorted) as (k & -> & Hb).
  auto.
Qed.

Lemma K_same (a b : string) :
  (forall e, In e holidays ->
             String.ltb (Date e) a = String.ltb (Date e) b) ->
  K a = K b.
Proof.
  intros Hsame.
  destruct (searchDate_K a) as [_ Ha].
  destruct (searchDate_K b) as [_ Hb].
  apply (boundary_unique holidays b); [|exact Hb].
  destruct Ha as (Hl & Hlo & Hhi).
  split; [exact Hl|]. split.
  - intros h e Hh He. rewrite <- (Hsame e (nth_error_In _ _ He)).
    now apply (Hlo h).
  - intros h e Hh He. rewrite <- (Hsame e (nth_error_In _ _ He)).
    now apply (Hhi h).
Qed.

Lemma K_mono (a b : string) : String.ltb b a = false -> (K a <= K b)%nat.
Proof.
  intros Hab.
  destruct (searchDate_K a) as [_ (Hla & Hloa & Hhia)].
  destruct (searchDate_K b) as [_ (Hlb & Hlob & Hhib)].
  destruct (Nat.le_gt_cases (K a) (K b)) as [H|H]; [exact H|].
  destruct (nth_error holidays (K b)) as [e|] eqn:E.
  - pose proof (Hloa (K b) e H E) as H1.
    pose proof (Hhib (K b) e (le_n _) E) as H2.
    rewrite (StrOrd.ltb_leb_trans _ _ _ H1 Hab) in H2. discriminate.
  - apply nth_error_None in E. lia.
Qed.

Lemma K_le_length (key : string) : (K key <= List.length holidays)%nat.
Proof. now destruct (searchDate_K key) as [_ (Hl & _)]. Qed.

(** A table entry compares with two keys of the year alike when no
    month-and-day text separates the keys. *)
Lemma entry_gap (x y : string) (e : Holiday) :
  Gap.gapfree x y = true -> In e holidays ->
  String.ltb (Date e) (P ++ x) = String.ltb (Date e) (P ++ y).
Proof.
  intros Hgap Hin.
  destruct (String.prefix P (Date e)) eqn:Hp.
  - rewrite Forall_forall in Hdates.
    destruct (Hdates e Hin) as (y' & m & d & Hm & Hd & Hfmt).
    apply StrOrd.prefix_inv in Hp. destruct Hp as [r Hr].
    assert (Hrest : r = Gap.monthDay m d).
    { rewrite Hfmt in Hr. unfold Fmt.date, P in Hr.
      rewrite StrOrd.append_assoc in Hr. simpl in Hr.
      destruct (FmtFacts.d0_sep_inj 4 y' year _ _ ltac:(lia) Hr) as [_ Hx].
      now rewrite <- Hx. }
    rewrite Hr, !StrOrd.ltb_app, Hrest.
    now apply Gap.gapfree_spec.
  - unfold String.ltb.
    now rewrite (StrOrd.compare_not_prefix P (Date e) x y Hp).
Qed.

(** [holidays[lo:hi]] *)
Definition sl (lo hi : nat) : list Holiday :=
  firstn (hi - lo) (skipn lo holidays).

Lemma firstn_add_skipn {A} (a b : nat) (l : list A) :
  firstn (a + b) l = (firstn a l ++ firstn b (skipn a l))%list.
Proof.
  revert l. induction a as [|a IH]; intros l; simpl; [reflexivity|].
  destruct l as [|x l]; simpl.
  - now rewrite firstn_nil.
  - now rewrite IH.
Qed.

Lemma sl_app (lo mid hi : nat) :
  (lo <= mid <= hi)%nat -> (sl lo mid ++ sl mid hi)%list = sl lo hi.
Proof.
  intros H. unfold sl.
  replace (hi - lo)%nat with ((mid - lo) + (hi - mid))%nat by lia.
  rewrite firstn_add_skipn, skipn_skipn.
  now replace (mid - lo + lo)%nat with mid by lia.
Qed.

Lemma slice_sl (lo hi : nat) :
  (lo <= hi <= List.length holidays)%nat ->
  slice holidays lo hi = Some (sl lo hi).
Proof.
  intros [H1 H2]. unfold slice.
  apply Nat.leb_le in H1. apply Nat.leb_le in H2.
  now rewrite H1, H2.
Qed.

Definition monthStart (m : Z) : string := P ++ (Fmt.d0 2 m ++ "-01").
Definition monthEnd (m : Z) : string := P ++ (Fmt.d0 2 m ++ "-99").

Lemma findHolidaysInMonth_sl (m : Z) :
  findHolidaysInMonth holidays year m =
    Some (sl (K (monthStart m)) (K (monthEnd m))).
Proof.
  unfold findHolidaysInMonth.
  assert (E1 : Fmt.d0 4 year ++ "-" ++ Fmt.d0 2 m ++ "-01" = monthStart m).
  { unfold monthStart, P. now rewrite StrOrd.append_assoc. }
  assert (E2 : Fmt.d0 4 year ++ "-" ++ Fmt.d0 2 m ++ "-99" = monthEnd m).
  { unfold monthEnd, P. now rewrite StrOrd.append_assoc. }
  rewrite E1, E2.
  destruct (searchDate_K (monthStart m)) as [-> _].
  destruct (searchDate_K (monthEnd m)) as [-> _].
  cbn [bind]. apply slice_sl. split; [|apply K_le_length].
  apply K_mono. unfold monthStart, monthEnd.
  rewrite !StrOrd.ltb_app. reflexivity.
Qed.

Lemma findHolidaysInYear_sl :
  findHolidaysInYear holidays year =
    Some (sl (K (monthStart 1)) (K (monthEnd 12))).
Proof.
  unfold findHolidaysInYear.
  assert (E1 : Fmt.d0 4 year ++ "-01-01" = monthStart 1).
  { unfold monthStart, P. now rewrite StrOrd.append_assoc. }
  assert (E2 : Fmt.d0 4 year ++ "-99-99" = P ++ "99-99").
  { unfold P. now rewrite StrOrd.append_assoc. }
  rewrite E1, E2.
  destruct (searchDate_K (monthStart 1)) as [-> _].
  destruct (searchDate_K (P ++ "99-99")) as [-> _].
  cbn [bind].
  assert (E3 : K (P ++ "99-99") = K (monthEnd 12)).
  { symmetry. apply K_same. intros e He.
    apply (entry_gap "12-99" "99-99" e Gap.gapfree_december He). }
  rewrite E3. apply slice_sl. split; [|apply K_le_length].
  apply K_mono. unfold monthStart, monthEnd.
  rewrite !StrOrd.ltb_app. reflexivity.
Qed.

Lemma month_chain (m : Z) :
  1 <= m <= 11 -> K (monthEnd m) = K (monthStart (m + 1)).
Proof.
  intros Hm. apply K_same. intros e He.
  apply (entry_gap _ _ e (Gap.gapfree_months m Hm) He).
Qed.

Lemma K_start_le_end (m : Z) : (K (monthStart m) <= K (monthEnd m))%nat.
Proof.
  apply K_mono. unfold monthStart, monthEnd.
  rewrite !StrOrd.ltb_app. reflexivity.
Qed.

Lemma K_end_mono (k : nat) (a : Z) :
  1 <= a -> a + Z.of_nat k <= 12 ->
  (K (monthEnd a) <= K (monthEnd (a + Z.of_nat k)))%nat.
Proof.
  revert a. induction k as [|k IHk]; intros a Ha Hk.
  - now rewrite Z.add_0_r.
  - replace (a + Z.of_nat (S k)) with (a + 1 + Z.of_nat k) by lia.
    rewrite (month_chain a) by lia.
    etransitivity; [apply K_start_le_end|].
    apply IHk; lia.
Qed.

(** The slices of [n] consecutive months from [m] on, joined, are the one
    slice from the start of [m] to the end of the last month. *)
Lemma months_chain (n : nat) (m : Z) :
  1 <= m -> m + Z.of_nat n <= 12 ->
  exists ms,
    mapM (findHolidaysInMonth holidays year)
         (map (fun i => m + Z.of_nat i) (seq 0 (S n))) = Some ms /\
    List.concat ms = sl (K (monthStart m)) (K (monthEnd (m + Z.of_nat n))).
Proof.
  revert m. induction n as [|n IH]; intros m Hm Hn.
  - exists [sl (K (monthStart m)) (K (monthEnd m))]. split.
    + cbn [seq map mapM]. rewrite Z.add_0_r, findHolidaysInMonth_sl.
      reflexivity.
    + cbn [List.concat]. rewrite app_nil_r. now rewrite Z.add_0_r.
  - destruct (IH (m + 1)) as (ms & Hms & Hcat); try lia.
    exists (sl (K (monthStart m)) (K (monthEnd m)) :: ms). split.
    + change (seq 0 (S (S n))) with (0%nat :: seq 1 (S n)).
      rewrite <- seq_shift, map_cons, map_map. cbn [mapM].
      rewrite Z.add_0_r, findHolidaysInMonth_sl.
      erewrite map_ext; [rewrite Hms; reflexivity|].
      intros i. cbv beta. lia.
    + cbn [List.concat]. rewrite Hcat.
      replace (m + 1 + Z.of_nat n) with (m + Z.of_nat (S n)) by lia.
      rewrite <- (month_chain m) by lia.
      apply sl_app. split; [apply K_start_le_end|].
      rewrite (month_chain m) by lia.
      replace (m + Z.of_nat (S n)) with (m + 1 + Z.of_nat n) by lia.
      etransitivity; [apply K_start_le_end|].
      apply K_end_mono; lia.
Qed.

(** The twelve month slices, joined in order, are the year slice. *)
Lemma static_months_year :
  exists ms ys,
    mapM (findHolidaysInMonth holidays year) months = Some ms /\
    findHolidaysInYear holidays year = Some ys /\
    List.concat ms = ys.
Proof.
  destruct (months_chain 11 1) as (ms & Hms & Hcat); try lia.
  exists ms, (sl (K (monthStart 1)) (K (monthEnd 12))).
  split; [exact Hms|]. split; [apply findHolidaysInYear_sl | exact Hcat].
Qed.

End SliceFacts.

(** ** Insertion sort meets the contract of [sort.Sort] *)

Module SortFacts.

Import Sample.

Lemma insert_perm (h : Holiday) (l : list Holiday) :
  Permutation (h :: l) (insert h l).
Proof.
  induction l as [|x l IH]; simpl; [reflexivity|].
  destruct (Less h x); [reflexivity|].
  rewrite perm_swap. now constructor.
Qed.

Lemma isort_perm (l : list Holiday) : Permutation l (isort l).
Proof.
  induction l as [|h l IH]; simpl; [constructor|].
  rewrite <- insert_perm. now constructor.
Qed.

Lemma insert_sorted (h : Holiday) (l : list Holiday) :
  date_sorted l -> date_sorted (insert h l).
Proof.
  unfold date_sorted.
  induction 1 as [|x l Hs IH Hall]; simpl.
  - constructor; constructor.
  - destruct (Less h x) eqn:Hhx.
    + constructor; [now constructor|].
      constructor; [now apply StrOrd.ltb_asym|].
      rewrite Forall_forall in *. intros y Hy.
      apply StrOrd.ltb_asym.
      apply (StrOrd.ltb_leb_trans _ (Date x)); [exact Hhx | exact (Hall y Hy)].
    + constructor; [exact IH|].
      rewrite Forall_forall in *. intros y Hy.
      apply (Permutation_in _ (Permutation_sym (insert_perm h l))) in Hy.
      destruct Hy as [<-|Hy]; [exact Hhx | exact (Hall y Hy)].
Qed.

Lemma isort_sorted (l : list Holiday) : date_sorted (isort l).
Proof.
  induction l as [|h l IH]; simpl; [constructor|].
  now apply insert_sorted.
Qed.

End SortFacts.

#[export] Instance insertionSorter : Sorter := {|
  Sort := Sample.isort;
  Sort_perm := SortFacts.isort_perm;
  Sort_sorted := SortFacts.isort_sorted
|}.

(** ** The calculator *)

Module LoopFacts.

(** A loop that appends [g d] for each [d] passing the test [c] adds, in
    order, the images of the elements that pass. *)
Lemma fold_append {A B} (c : A -> bool) (g : A -> B) (l : list A)
    (acc : list B) :
  fold_left (fun hs d => if c d then (hs ++ [g d])%list else hs) l acc =
  (acc ++ map g (filter c l))%list.
Proof.
  revert acc. induction l as [|a l IH]; intros acc; simpl.
  - now rewrite app_nil_r.
  - rewrite IH. destruct (c a); simpl; [|reflexivity].
    now rewrite <- app_assoc.
Qed.

End LoopFacts.

Module IntFacts.

Lemma wrap_id (z : Z) : Int.in_range z -> Int.wrap z = z.
Proof.
  unfold Int.in_range, Int.wrap. intros H.
  rewrite Z.mod_small; lia.
Qed.

End IntFacts.

Module TimeFacts.

(** The day count is linear in the day of the month. *)
Lemma daysSinceEpoch_day (year month day : Z) :
  GoTime.daysSinceEpoch year month day =
  GoTime.daysSinceEpoch year month 1 + (day - 1).
Proof. unfold GoTime.daysSinceEpoch. cbv zeta. ring. Qed.

(** A month outside 1..12 overflows into the year. *)
Lemma daysSinceEpoch_norm (year month day : Z) :
  GoTime.daysSinceEpoch year month day =
  GoTime.daysSinceEpoch
    (year + (month - 1) / 12) ((month - 1) mod 12 + 1) day.
Proof.
  pose proof (Z.mod_pos_bound (month - 1) 12 ltac:(lia)) as Hm.
  unfold GoTime.daysSinceEpoch. cbv zeta.
  replace ((month - 1) mod 12 + 1 - 1) with ((month - 1) mod 12) by lia.
  rewrite (Z.div_small ((month - 1) mod 12)) by lia.
  rewrite (Z.mod_small ((month - 1) mod 12)) by lia.
  replace (year + (month - 1) / 12 + 0) with (year + (month - 1) / 12) by lia.
  reflexivity.
Qed.

(** The days of the years up to the end of year [y], counted from the end
    of the year 0: 365 days a year and the leap days. *)
Definition yearDays (y : Z) : Z :=
  let era := y / 400 in
  let yoe := y - era * 400 in
  era * 146097 + yoe * 365 + yoe / 4 - yoe / 100.

Lemma daysSinceEpoch_yearDays (year month day : Z) :
  GoTime.daysSinceEpoch year month day =
  let Y := year + (month - 1) / 12 in
  let m := (month - 1) mod 12 + 1 in
  yearDays (if m <=? 2 then Y - 1 else Y)
  + (153 * ((m + 9) mod 12) + 2) / 5 + day - 1 - 719468.
Proof. unfold GoTime.daysSinceEpoch, yearDays. cbv zeta. ring. Qed.

(** A year has 365 days, and one more when it is a leap year. *)
Lemma yearDays_step (Y : Z) :
  yearDays Y = yearDays (Y - 1) + 365 + (if GoTime.isLeap Y then 1 else 0).
Proof.
  unfold yearDays, GoTime.isLeap. cbv zeta.
  pose proof (Z.div_mod Y 400 ltac:(lia)) as E.
  pose proof (Z.mod_pos_bound Y 400 ltac:(lia)) as B.
  set (q := Y / 400) in *. set (r := Y mod 400) in *.
  assert (E4 : Y mod 4 = r mod 4).
  { rewrite E. replace (400 * q + r) with (r + (100 * q) * 4) by lia.
    now rewrite Z.mod_add by lia. }
  assert (E100 : Y mod 100 = r mod 100).
  { rewrite E. replace (400 * q + r) with (r + (4 * q) * 100) by lia.
    now rewrite Z.mod_add by lia. }
  rewrite E4, E100.
  replace (Y - q * 400) with r by lia.
  destruct (Z.eq_dec r 0) as [Hr|Hr].
  - rewrite Hr. cbn.
    replace ((Y - 1) / 400) with (q - 1)
      by (apply (Z.div_unique _ _ _ 399); lia).
    replace (Y - 1 - (q - 1) * 400) with 399 by lia.
    cbn. lia.
  - replace ((Y - 1) / 400) with q
      by (apply (Z.div_unique _ _ _ (r - 1)); lia).
    replace (Y - 1 - q * 400) with (r - 1) by lia.
    destruct (r =? 0) eqn:E0; [apply Z.eqb_eq in E0; lia|].
    rewrite orb_false_r.
    pose proof (Z.div_mod r 4 ltac:(lia)).
    pose proof (Z.mod_pos_bound r 4 ltac:(lia)).
    pose proof (Z.div_mod r 100 ltac:(lia)).
    pose proof (Z.mod_pos_bound r 100 ltac:(lia)).
    pose proof (Z.div_mod (r - 1) 4 ltac:(lia)).
    pose proof (Z.mod_pos_bound (r - 1) 4 ltac:(lia)).
    pose proof (Z.div_mod (r - 1) 100 ltac:(lia)).
    pose proof (Z.mod_pos_bound (r - 1) 100 ltac:(lia)).
    destruct (Z.eqb_spec (r mod 4) 0) as [M4|M4];
      destruct (Z.eqb_spec (r mod 100) 0) as [M100|M100];
      cbn [andb negb]; lia.
Qed.

(** The library's count of the days before a year is that of the
    calendar. *)
Lemma daysSinceAbsoluteEpoch_yearDays (Y : Z) :
  GoTime.absoluteZeroYear <= Y -> Y - GoTime.absoluteZeroYear < 2 ^ 55 ->
  GoTime.daysSinceAbsoluteEpoch Y =
  yearDays (Y - 1) - yearDays (GoTime.absoluteZeroYear - 1).
Proof.
  intros H1 H2.
  replace (yearDays (GoTime.absoluteZeroYear - 1)) with (-106751990353932)
    by (vm_compute; reflexivity).
  unfold GoTime.daysSinceAbsoluteEpoch, yearDays, GoTime.u64,
    GoTime.absoluteZeroYear in *.
  cbv zeta.
  rewrite (Z.mod_small (Y - -292277022399)) by lia.
  set (y := Y - -292277022399) in *.
  assert (Hy : 0 <= y < 2 ^ 55) by (unfold y; lia).
  pose proof (Z.div_mod y 400 ltac:(lia)) as E400.
  pose proof (Z.mod_pos_bound y 400 ltac:(lia)) as B400.
  set (q := y / 400) in *.
  replace (y - 400 * q) with (y mod 400) by lia.
  set (r := y mod 400) in *.
  rewrite (Z.mod_small (146097 * q)) by lia.
  pose proof (Z.div_mod r 100 ltac:(lia)) as E100.
  pose proof (Z.mod_pos_bound r 100 ltac:(lia)) as B100.
  set (c := r / 100) in *.
  replace (r - 100 * c) with (r mod 100) by lia.
  set (r2 := r mod 100) in *.
  rewrite (Z.mod_small (146097 * q + 36524 * c)) by lia.
  pose proof (Z.div_mod r2 4 ltac:(lia)) as E4.
  pose proof (Z.mod_pos_bound r2 4 ltac:(lia)) as B4.
  set (q4 := r2 / 4) in *.
  replace (r2 - 4 * q4) with (r2 mod 4) by lia.
  set (r4 := r2 mod 4) in *.
  rewrite (Z.mod_small (146097 * q + 36524 * c + 1461 * q4)) by lia.
  rewrite (Z.mod_small) by lia.
  replace (Y - 1) with (400 * (q - 730692556) + r) by (unfold y in *; lia).
  replace ((400 * (q - 730692556) + r) / 400) with (q - 730692556)
    by (apply (Z.div_unique _ _ _ r); lia).
  replace (400 * (q - 730692556) + r - (q - 730692556) * 400) with r by lia.
  replace (r / 4) with (25 * c + q4)
    by (apply (Z.div_unique _ _ _ r4); lia).
  fold c. lia.
Qed.

(** The day count of a date of month [m + 1], [m] from 0 to 11: the days
    before the year, the days before the month and the days of the
    month. *)
Lemma daysSinceEpoch_month (Y m day : Z) :
  0 <= m <= 11 ->
  GoTime.daysSinceEpoch Y (m + 1) day =
  yearDays (Y - 1) - 719162
  + nth (Z.to_nat m) GoTime.daysBefore 0
  + (if GoTime.isLeap Y && (3 <=? m + 1) then 1 else 0)
  + (day - 1).
Proof.
  intros Hm. rewrite daysSinceEpoch_yearDays. cbv zeta.
  replace (m + 1 - 1) with m by lia.
  rewrite Z.div_small, Z.mod_small by lia.
  replace (Y + 0) with Y by lia.
  pose proof (yearDays_step Y) as Hstep.
  assert (Hcases : m = 0 \/ m = 1 \/ m = 2 \/ m = 3 \/ m = 4 \/ m = 5 \/
                   m = 6 \/ m = 7 \/ m = 8 \/ m = 9 \/ m = 10 \/ m = 11)
    by lia.
  destruct (GoTime.isLeap Y);
    repeat (destruct Hcases as [->|Hcases]); try subst m;
    match goal with
    | |- context [nth ?n GoTime.daysBefore 0] =>
        let v := eval vm_compute in (nth n GoTime.daysBefore 0) in
        change (nth n GoTime.daysBefore 0) with v
    end;
    cbn -[yearDays] in *; lia.
Qed.

(** On an exact date the library's count of seconds is that of the
    calendar. *)
Lemma absDate_exact (year month day hour : Z) :
  GoTime.exact year month day -> 0 <= hour <= 23 ->
  GoTime.absDate year month day hour =
  GoTime.absoluteDays year month day * 86400 + hour * 3600.
Proof.
  intros (Hmonth & HY & H0 & H1) Hhour.
  assert (Hm : 0 <= (month - 1) mod 12 <= 11)
    by (pose proof (Z.mod_pos_bound (month - 1) 12); lia).
  unfold GoTime.absoluteDays in *.
  replace (GoTime.daysSinceEpoch GoTime.absoluteZeroYear 1 1)
    with (-106751991073094) in * by (vm_compute; reflexivity).
  rewrite (daysSinceEpoch_norm year month day) in *.
  rewrite (daysSinceEpoch_month _ _ day Hm) in *.
  unfold GoTime.absDate. cbv zeta.
  rewrite (IntFacts.wrap_id (month - 1)) by exact Hmonth.
  set (Y := year + (month - 1) / 12) in *.
  set (m := (month - 1) mod 12) in *.
  rewrite (IntFacts.wrap_id Y)
    by (unfold Int.in_range, GoTime.absoluteZeroYear in *; lia).
  rewrite (daysSinceAbsoluteEpoch_yearDays Y)
    by (unfold GoTime.absoluteZeroYear in *; lia).
  replace (yearDays (GoTime.absoluteZeroYear - 1)) with (-106751990353932)
    in * by (vm_compute; reflexivity).
  set (G := yearDays (Y - 1) - -106751990353932) in *.
  set (db := nth (Z.to_nat m) GoTime.daysBefore 0) in *.
  set (leap := GoTime.isLeap Y && (3 <=? m + 1)) in *.
  assert (Hd : GoTime.u64
                 ((if leap then GoTime.u64 (GoTime.u64 (G + db) + 1)
                   else GoTime.u64 (G + db)) + (day - 1))
               = GoTime.u64
                   (G + db + (if leap then 1 else 0) + (day - 1))).
  { unfold GoTime.u64. destruct leap.
    - rewrite Zplus_mod_idemp_l, <- Z.add_assoc, Zplus_mod_idemp_l.
      f_equal. lia.
    - rewrite Zplus_mod_idemp_l. f_equal. lia. }
  rewrite Hd. clear Hd.
  set (l := if leap then 1 else 0) in *.
  replace (G + db + l + (day - 1))
    with (yearDays (Y - 1) - 719162 + db + l + (day - 1) - -106751991073094)
    by (unfold G; lia).
  set (D := yearDays (Y - 1) - 719162 + db + l + (day - 1)
            - -106751991073094) in *.
  unfold GoTime.u64. rewrite (Z.mod_small D) by lia.
  rewrite (Z.mod_small (D * 86400)) by lia.
  apply Z.mod_small. lia.
Qed.

Lemma Weekday_range (year month day : Z) :
  0 <= GoTime.Weekday year month day <= 6.
Proof.
  unfold GoTime.Weekday.
  pose proof (Z.mod_pos_bound
                (GoTime.u64 (GoTime.absDate year month day 0 + 86400)) 604800
                ltac:(lia)) as H.
  split.
  - apply Z.div_pos; lia.
  - apply Z.lt_succ_r. apply Z.div_lt_upper_bound; lia.
Qed.

(** On an exact date the library's weekday is that of the calendar:
    1970-01-01 was a Thursday. *)
Lemma Weekday_exact (year month day : Z) :
  GoTime.exact year month day ->
  GoTime.Weekday year month day =
  (GoTime.daysSinceEpoch year month day + 4) mod 7.
Proof.
  intros H. unfold GoTime.Weekday.
  rewrite (absDate_exact _ _ _ 0 H) by lia.
  destruct H as (_ & _ & H0 & H1).
  unfold GoTime.u64.
  rewrite (Z.mod_small
             (GoTime.absoluteDays year month day * 86400 + 0 * 3600 + 86400))
    by lia.
  unfold GoTime.absoluteDays in *.
  replace (GoTime.daysSinceEpoch GoTime.absoluteZeroYear 1 1)
    with (-106751991073094) in * by (vm_compute; reflexivity).
  set (c := GoTime.daysSinceEpoch year month day) in *.
  replace ((c - -106751991073094) * 86400 + 0 * 3600 + 86400)
    with ((c + 4 + 7 * 15250284439013) * 86400) by lia.
  change 604800 with (7 * 86400).
  rewrite Z.mul_mod_distr_r by lia.
  rewrite Z.div_mul by lia.
  rewrite Z.mul_comm, Z.mod_add by lia. reflexivity.
Qed.

(** Between exact dates of a month, the weekday of day [day] follows from
    the weekday of day 1. *)
Lemma Weekday_day (year month day : Z) :
  GoTime.exact year month 1 -> GoTime.exact year month day ->
  GoTime.Weekday year month day =
  (GoTime.Weekday year month 1 + (day - 1)) mod 7.
Proof.
  intros H1 Hd. rewrite (Weekday_exact _ _ _ H1), (Weekday_exact _ _ _ Hd).
  rewrite (daysSinceEpoch_day year month day).
  rewrite Zplus_mod_idemp_l. f_equal. ring.
Qed.

(** On an exact date whose instant fits an [int64], the library's [Unix()]
    is the wall clock of the calendar less the offset of the zone. *)
Lemma DateUnix_exact (year month day hour : Z) (loc : GoTime.Location) :
  GoTime.exact year month day -> 0 <= hour <= 23 ->
  let wall := GoTime.daysSinceEpoch year month day * 86400 + hour * 3600 in
  Int.in_range wall -> Int.in_range (wall - loc wall) ->
  GoTime.DateUnix year month day hour loc = wall - loc wall.
Proof.
  intros H Hhour wall Hw Hu. unfold GoTime.DateUnix. cbv zeta.
  rewrite (absDate_exact _ _ _ _ H Hhour).
  unfold GoTime.absoluteDays, GoTime.absoluteToUnix.
  replace (GoTime.daysSinceEpoch GoTime.absoluteZeroYear 1 1)
    with (-106751991073094) by (vm_compute; reflexivity).
  replace ((GoTime.daysSinceEpoch year month day - -106751991073094) * 86400
           + hour * 3600 + -9223372028715321600)
    with wall by (unfold wall; lia).
  rewrite (IntFacts.wrap_id wall) by exact Hw.
  now apply IntFacts.wrap_id.
Qed.

(** [exact] at concrete dates. *)
Lemma exact_dec (year month day : Z) :
  ((- 2 ^ 63 <=? month - 1) && (month - 1 <? 2 ^ 63) &&
   (GoTime.absoluteZeroYear <=? year + (month - 1) / 12) &&
   (year + (month - 1) / 12 <=? 292277026854) &&
   (0 <=? GoTime.absoluteDays year month day) &&
   ((GoTime.absoluteDays year month day + 1) * 86400 <? 2 ^ 64)) = true <->
  GoTime.exact year month day.
Proof.
  unfold GoTime.exact, Int.in_range.
  rewrite !andb_true_iff, !Z.leb_le, !Z.ltb_lt. tauto.
Qed.

(** The first and the last exact date, and their neighbours. *)
Lemma exact_ends :
  GoTime.exact GoTime.absoluteZeroYear 1 1 /\
  ~ GoTime.exact GoTime.absoluteZeroYear 1 0 /\
  GoTime.exact 292277026854 11 8 /\
  ~ GoTime.exact 292277026854 11 9.
Proof.
  split; [apply exact_dec; vm_compute; reflexivity|].
  split; [intros H; apply exact_dec in H; vm_compute in H; discriminate|].
  split; [apply exact_dec; vm_compute; reflexivity|].
  intros H; apply exact_dec in H; vm_compute in H; discriminate.
Qed.

(** Past the last exact date, and before the absolute epoch, the count
    wraps around and the library's weekday is not the calendar's: on
    1 January 292277026855 and on 1 September -1000000000100. *)
Lemma Weekday_wraps :
  GoTime.Weekday 292277026855 1 1 = 4 /\
  (GoTime.daysSinceEpoch 292277026855 1 1 + 4) mod 7 = 5 /\
  GoTime.Weekday (-1000000000100) 9 1 = 5 /\
  (GoTime.daysSinceEpoch (-1000000000100) 9 1 + 4) mod 7 = 6.
Proof. repeat split; vm_compute; reflexivity. Qed.

(** The days between two exact days of a month are exact. *)
Lemma exact_between (year month a b day : Z) :
  GoTime.exact year month a -> GoTime.exact year month b ->
  a <= day <= b -> GoTime.exact year month day.
Proof.
  unfold GoTime.exact, GoTime.absoluteDays.
  rewrite (daysSinceEpoch_day year month a),
          (daysSinceEpoch_day year month b),
          (daysSinceEpoch_day year month day).
  intros (Hm & HY & Ha1 & Ha2) (_ & _ & Hb1 & Hb2) Hd.
  split; [exact Hm|]. split; [exact HY|]. split; lia.
Qed.

End TimeFacts.

Section CalculatorFacts.

Variable annuallyHolidaysRules : list annuallyHolidaysRule.
Variable specialHolidays : list Holiday.
Context {sorter : Sorter}.
Variable math_Sin : float -> float.
Variable math_Mod : float -> float -> float.
Variable jst : GoTime.Location.

Local Abbreviation searchRule' := (searchRule annuallyHolidaysRules).
Local Abbreviation emitted :=
  (emittedHolidays specialHolidays math_Sin math_Mod jst).
Local Abbreviation calcMonth :=
  (calcHolidaysInMonth annuallyHolidaysRules specialHolidays
     math_Sin math_Mod jst).
Local Abbreviation calcMonthWithoutInLieu :=
  (calcHolidaysInMonthWithoutInLieu annuallyHolidaysRules specialHolidays
     math_Sin math_Mod jst).
Local Abbreviation calcYear :=
  (calcHolidaysInYear annuallyHolidaysRules specialHolidays
     math_Sin math_Mod jst).

(** The loop over the rules never indexes out of range, and it stops at the
    last generation, in table order, whose [BeginYear] is [>= year]. *)
Lemma searchRule_find (i : nat) (year : Z) :
  (i <= List.length annuallyHolidaysRules)%nat ->
  searchRule' i year =
    Some (find (fun r => BeginYear r >=? year)
               (rev (firstn i annuallyHolidaysRules))).
Proof.
  induction i as [|i IH]; intros Hi; [reflexivity|].
  cbn [searchRule]. unfold index.
  destruct (nth_error annuallyHolidaysRules i) as [r|] eqn:E.
  - cbn [bind].
    assert (Hf : firstn (S i) annuallyHolidaysRules =
                 (firstn i annuallyHolidaysRules ++ [r])%list).
    { clear IH Hi. revert i E.
      induction annuallyHolidaysRules as [|x l IHl]; intros i E.
      - destruct i; discriminate.
      - destruct i as [|i]; simpl in *.
        + now injection E as ->.
        + now rewrite (IHl i E). }
    rewrite Hf, rev_app_distr. cbn [rev app find].
    destruct (BeginYear r >=? year); [reflexivity|].
    apply IH. lia.
  - apply nth_error_None in E. lia.
Qed.

Lemma searchRule_total (year : Z) :
  searchRule' (List.length annuallyHolidaysRules) year =
    Some (find (fun r => BeginYear r >=? year) (rev annuallyHolidaysRules)).
Proof.
  rewrite searchRule_find by lia. now rewrite firstn_all.
Qed.

(** The emitted list, source by source. *)
Lemma emittedHolidays_parts (rule : annuallyHolidaysRule) (year month : Z) :
  emitted rule year month =
  (map (fun d => mkHoliday ((Fmt.d0 4 year ++ "-") ++ sDate d) (sName d))
       (filter (fun d => String.prefix (Fmt.d0 2 month ++ "-") (sDate d))
               (StaticHolydays rule))
   ++ map (fun d => mkHoliday
                      (Fmt.date year month
                         (weekdayRuleDay (GoTime.Weekday year month 1) d))
                      (wName d))
          (filter (fun d => wMonth d =? month) (WeekdayHolydays rule))
   ++ (if month =? GoTime.March
       then [mkHoliday
               (Fmt.date year month
                  (vernalEquinoxDay math_Sin math_Mod jst year))
               "春分の日"]
       else [])
   ++ (if month =? GoTime.September
       then [mkHoliday
               (Fmt.date year month
                  (autumnalEquinoxDay math_Sin math_Mod jst year))
               "秋分の日"]
       else [])
   ++ filter (fun d => String.prefix
                         ((Fmt.d0 4 year ++ "-") ++ (Fmt.d0 2 month ++ "-"))
                         (Date d))
             specialHolidays)%list.
Proof.
  unfold emittedHolidays, specialHolidaysOf, weekdayHolidaysOf,
    staticHolidaysOf.
  cbv zeta.
  rewrite (LoopFacts.fold_append _ (fun d => d)), map_id.
  rewrite !LoopFacts.fold_append. cbn [app].
  destruct (month =? GoTime.March); destruct (month =? GoTime.September);
    rewrite <- ?app_assoc; cbn [app]; rewrite ?app_nil_r; reflexivity.
Qed.

(** The month calculator never panics: it returns the sorted emitted list
    of the selected generation, or the empty list when none is selected. *)
Lemma calcMonth_result (year month : Z) :
  calcMonthWithoutInLieu year month =
    Some (match find (fun r => BeginYear r >=? year)
                     (rev annuallyHolidaysRules) with
          | Some rule => Sort (emitted rule year month)
          | None => []
          end).
Proof.
  unfold calcHolidaysInMonthWithoutInLieu.
  rewrite searchRule_total. cbn [bind].
  now destruct (find _ _).
Qed.

(** The loop of the year calculator appends the month lists in order. *)
Lemma calcYearLoop_concat (year : Z) (n : nat) (month : Z)
    (result : list Holiday) :
  exists ms,
    mapM (calcMonth year) (map (fun i => month + Z.of_nat i) (seq 0 n))
      = Some ms /\
    calcYearLoop annuallyHolidaysRules specialHolidays math_Sin math_Mod jst
      year n month result = Some (result ++ List.concat ms)%list.
Proof.
  revert month result. induction n as [|n IH]; intros month result.
  - exists []. split; [reflexivity|]. cbn. now rewrite app_nil_r.
  - destruct (IH (month + 1)
                (result ++ match find (fun r => BeginYear r >=? year)
                                      (rev annuallyHolidaysRules) with
                           | Some rule => Sort (emitted rule year month)
                           | None => []
                           end)%list) as (ms & Hms & Hloop).
    eexists (_ :: ms). split.
    + change (seq 0 (S n)) with (0%nat :: seq 1 n).
      rewrite <- seq_shift, map_cons, map_map. cbn [mapM].
      rewrite Z.add_0_r. unfold calcHolidaysInMonth at 1.
      rewrite calcMonth_result.
      erewrite map_ext; [rewrite Hms; reflexivity|].
      intros i. cbv beta. lia.
    + cbn [calcYearLoop]. unfold calcHolidaysInMonth at 1.
      rewrite calcMonth_result. cbn [bind].
      rewrite Hloop. cbn [List.concat]. now rewrite app_assoc.
Qed.

End CalculatorFacts.

(** ** Properties of the calculator *)

Lemma sorted_nodup_strict (l : list Holiday) :
  date_sorted l -> NoDup (map Date l) -> strictly_ascending l.
Proof.
  unfold date_sorted, strictly_ascending.
  induction 1 as [|x l Hs IH Hall]; intros Hnd; [constructor|].
  simpl in Hnd. apply NoDup_cons_iff in Hnd as [Hx Hnd].
  constructor; [now apply IH|].
  rewrite Forall_forall in *. intros y Hy.
  unfold Less in *.
  destruct (String.ltb (Date x) (Date y)) eqn:E; [reflexivity|].
  exfalso. apply Hx.
  rewrite (StrOrd.ltb_false_antisym _ _ E (Hall y Hy)).
  now apply in_map.
Qed.

(** The selection the specification words, as a scan from the last
    generation back; the code's loop is the same scan with the comparison
    turned round ([searchRule_total]). *)
Lemma selectRule_find (rules : list annuallyHolidaysRule) (year : Z) :
  Spec.selectRule rules year =
    find (fun r => BeginYear r <=? year) (rev rules).
Proof.
  induction rules as [|r rest IH]; [reflexivity|].
  cbn [Spec.selectRule rev]. rewrite IH.
  generalize (rev rest). intros l.
  induction l as [|x l IHl]; cbn [find app].
  - now destruct (BeginYear r <=? year).
  - destruct (BeginYear x <=? year); [reflexivity | exact IHl].
Qed.

(** C1 (the code at the failing inputs). With the generations of 2016 and
    2020 in the table, the loop selects no generation for 2024, where the
    latest generation not after the year is the one of 2020, and the month
    list is empty; and for 2000, which precedes every generation, it
    selects the generation of 2020 and emits its holidays. *)
Lemma searchRule_compares_the_wrong_way :
  let rules := Sample.annuallyHolidaysRules in
  let calc := calcHolidaysInMonthWithoutInLieu rules Sample.specialHolidays
                Runtime.Sin Runtime.Mod Runtime.tokyo in
  searchRule rules (List.length rules) 2024 = Some None /\
  Spec.selectRule rules 2024 = Some Sample.rule2020 /\
  calc 2024 1 = Some [] /\
  searchRule rules (List.length rules) 2000 = Some (Some Sample.rule2020) /\
  Spec.selectRule rules 2000 = None /\
  calc 2000 1 = Some [mkHoliday "2000-01-01" "元日";
                      mkHoliday "2000-01-10" "成人の日"].
Proof. vm_compute. repeat split; reflexivity. Qed.

(** C5 (as stated, refuted). With a special holiday on a date the selected
    generation produces too, the list for February 2020 holds two records
    of the same date: it is not strictly ascending. *)
Lemma month_list_repeats_a_date :
  exists l,
    calcHolidaysInMonthWithoutInLieu Sample.annuallyHolidaysRules
      Sample.specialHolidaysRepeating Runtime.Sin Runtime.Mod Runtime.tokyo
      2020 2 = Some l /\
    ~ strictly_ascending l.
Proof.
  eexists. split; [vm_compute; reflexivity|].
  unfold strictly_ascending. intros H.
  apply StronglySorted_inv in H as [H _].
  apply StronglySorted_inv in H as [_ H].
  apply Forall_inv in H. vm_compute in H. discriminate.
Qed.

(** C5 (amended). For every year and month the month calculator returns a
    list in ascending order of date, a rearrangement of the records the
    selected generation, the equinox and the special table emit, none
    removed; it is strictly ascending whenever its dates are pairwise
    distinct. *)
Theorem month_list_ascending
    (annuallyHolidaysRules : list annuallyHolidaysRule)
    (specialHolidays : list Holiday) (sorter : Sorter)
    (math_Sin : float -> float) (math_Mod : float -> float -> float)
    (jst : GoTime.Location) (year month : Z) :
  exists l,
    calcHolidaysInMonthWithoutInLieu annuallyHolidaysRules specialHolidays
      math_Sin math_Mod jst year month = Some l /\
    date_sorted l /\
    (forall rule,
       searchRule annuallyHolidaysRules (List.length annuallyHolidaysRules)
         year = Some (Some rule) ->
       Permutation
         (emittedHolidays specialHolidays math_Sin math_Mod jst rule year month)
         l) /\
    (NoDup (map Date l) -> strictly_ascending l).
Proof.
  rewrite calcMonth_result. eexists. split; [reflexivity|].
  rewrite searchRule_total.
  destruct (find _ _) as [rule|].
  - split; [apply Sort_sorted|]. split.
    + intros r [= <-]. apply Sort_perm.
    + apply sorted_nodup_strict, Sort_sorted.
  - split; [constructor|]. split; [discriminate|].
    intros _. constructor.
Qed.

(** C6. In a year and month whose first day [time.Date] computes without
    wrap-around ([GoTime.exact]: the years -292277022399 to 292277026853
    and most of 292277026854), for every weekday rule of the selected
    generation whose month is the requested one, with a weekday of
    Sunday..Saturday and an index whose multiple by 7 fits an [int]: the
    loop computes the day
    [1 + ((weekday - weekdayOfFirstDay + 7) mod 7) + 7 * index], the month
    list holds the rule's holiday on that day, and that day of the month,
    when it is an exact date too, falls on the rule's weekday. *)
Theorem weekday_rule_day
    (annuallyHolidaysRules : list annuallyHolidaysRule)
    (specialHolidays : list Holiday) (sorter : Sorter)
    (math_Sin : float -> float) (math_Mod : float -> float -> float)
    (jst : GoTime.Location) (year month : Z)
    (rule : annuallyHolidaysRule) (d : weekdayHolyday) :
  searchRule annuallyHolidaysRules (List.length annuallyHolidaysRules) year
    = Some (Some rule) ->
  In d (WeekdayHolydays rule) ->
  wMonth d = month ->
  0 <= wWeekday d <= 6 ->
  Int.in_range (wIndex d * 7) -> Int.in_range (wIndex d * 7 + 7) ->
  GoTime.exact year month 1 ->
  let weekdayOfFirstDay := GoTime.Weekday year month 1 in
  let day := 1 + ((wWeekday d - weekdayOfFirstDay + 7) mod 7) + 7 * wIndex d in
  weekdayRuleDay weekdayOfFirstDay d = day /\
  (exists l,
     calcHolidaysInMonthWithoutInLieu annuallyHolidaysRules specialHolidays
       math_Sin math_Mod jst year month = Some l /\
     In (mkHoliday (Fmt.date year month day) (wName d)) l) /\
  (GoTime.exact year month day ->
   GoTime.Weekday year month day = wWeekday d).
Proof.
  intros Hrule Hd Hmonth Hw Hi1 Hi2 Hexact F day.
  pose proof (TimeFacts.Weekday_range year month 1) as HF. fold F in HF.
  assert (Hday : weekdayRuleDay F d = day).
  { unfold weekdayRuleDay, day, Int.in_range in *.
    rewrite (IntFacts.wrap_id (wWeekday d - F)) by (unfold Int.in_range; lia).
    rewrite (IntFacts.wrap_id (wIndex d * 7)) by (unfold Int.in_range; lia).
    rewrite (IntFacts.wrap_id (wIndex d * 7 + 1))
      by (unfold Int.in_range; lia).
    destruct (wWeekday d - F <? 0) eqn:E.
    - apply Z.ltb_lt in E.
      rewrite (IntFacts.wrap_id (wWeekday d - F + 7))
        by (unfold Int.in_range; lia).
      rewrite IntFacts.wrap_id by (unfold Int.in_range; lia).
      rewrite (Z.mod_small (wWeekday d - F + 7) 7) by lia. lia.
    - apply Z.ltb_ge in E.
      rewrite IntFacts.wrap_id by (unfold Int.in_range; lia).
      replace (wWeekday d - F + 7) with ((wWeekday d - F) + 1 * 7) by lia.
      rewrite Z.mod_add, Z.mod_small by lia. lia. }
  split; [exact Hday|]. split.
  - rewrite calcMonth_result. eexists. split; [reflexivity|].
    rewrite searchRule_total in Hrule. injection Hrule as ->.
    apply (Permutation_in _ (Sort_perm _)).
    rewrite emittedHolidays_parts.
    apply in_or_app. right. apply in_or_app. left.
    apply in_map_iff. exists d. split.
    + fold F. now rewrite Hday.
    + apply filter_In. split; [exact Hd|]. now apply Z.eqb_eq.
  - intros Hemitted.
    rewrite (TimeFacts.Weekday_day _ _ _ Hexact Hemitted). fold F. unfold day.
    replace (F + (1 + (wWeekday d - F + 7) mod 7 + 7 * wIndex d - 1))
      with ((F + (wWeekday d - F + 7) mod 7) + wIndex d * 7) by lia.
    rewrite Z.mod_add by lia.
    rewrite Zplus_mod_idemp_r.
    replace (F + (wWeekday d - F + 7)) with (wWeekday d + 1 * 7) by lia.
    rewrite Z.mod_add by lia. apply Z.mod_small. lia.
Qed.

(** C7. On a table in sorted order whose dates are formatted calendar
    dates, the lists [findHolidaysInMonth] returns for January to December
    of a year, joined in that order, are the list [findHolidaysInYear]
    returns for the year; and the lists [calcHolidaysInMonth] returns for
    the twelve months, joined in that order, are the list
    [calcHolidaysInYear] returns. None of these calls panics. *)
Theorem months_concat_is_year
    (holidays : list Holiday)
    (annuallyHolidaysRules : list annuallyHolidaysRule)
    (specialHolidays : list Holiday) (sorter : Sorter)
    (math_Sin : float -> float) (math_Mod : float -> float -> float)
    (jst : GoTime.Location) (year : Z) :
  date_sorted holidays ->
  Forall (fun h => calendar_date (Date h)) holidays ->
  (exists ms ys,
     mapM (findHolidaysInMonth holidays year) months = Some ms /\
     findHolidaysInYear holidays year = Some ys /\
     List.concat ms = ys) /\
  (exists ms ys,
     mapM (calcHolidaysInMonth annuallyHolidaysRules specialHolidays
             math_Sin math_Mod jst year) months = Some ms /\
     calcHolidaysInYear annuallyHolidaysRules specialHolidays
       math_Sin math_Mod jst year = Some ys /\
     List.concat ms = ys).
Proof.
  intros Hs Hd. split.
  - now apply static_months_year.
  - destruct (calcYearLoop_concat annuallyHolidaysRules specialHolidays
                math_Sin math_Mod jst year 12 1 []) as (ms & Hms & Hloop).
    exists ms, (List.concat ms). split; [exact Hms|]. split; [exact Hloop|].
    reflexivity.
Qed.

(** C8. The in-lieu step is the identity: for every year and month
    [calcHolidaysInMonth] returns the list
    [calcHolidaysInMonthWithoutInLieu] returns, unchanged. *)
Theorem calcHolidaysInMonth_adds_nothing
    (annuallyHolidaysRules : list annuallyHolidaysRule)
    (specialHolidays : list Holiday) (sorter : Sorter)
    (math_Sin : float -> float) (math_Mod : float -> float -> float)
    (jst : GoTime.Location) (year month : Z) :
  calcHolidaysInMonth annuallyHolidaysRules specialHolidays
    math_Sin math_Mod jst year month =
  calcHolidaysInMonthWithoutInLieu annuallyHolidaysRules specialHolidays
    math_Sin math_Mod jst year month.
Proof. reflexivity. Qed.

(** ** The equinox searches *)

Module ScanFacts.

(** The code's loop returns the day the specification's search returns,
    and 0 where that search reports "equinox not found". *)
Lemma scanDays_search (hit : Z -> bool) (n : nat) (i : Z) :
  scanDays hit n i =
    match Spec.search hit n i with
    | Spec.Day d => d
    | Spec.EquinoxNotFound => 0
    end.
Proof.
  revert i. induction n as [|n IH]; intros i; simpl; [reflexivity|].
  destruct (hit i); [reflexivity | apply IH].
Qed.

Lemma search_first (hit : Z -> bool) (n : nat) (i d : Z) :
  i <= d < i + Z.of_nat n -> hit d = true ->
  (forall j, i <= j < d -> hit j = false) ->
  Spec.search hit n i = Spec.Day (d - 1).
Proof.
  revert i. induction n as [|n IH]; intros i Hd Hhit Hbefore; [lia|].
  simpl. destruct (hit i) eqn:E.
  - destruct (Z.eq_dec i d) as [->|Hne]; [reflexivity|].
    rewrite (Hbefore i) in E by lia. discriminate.
  - assert (i <> d) by congruence.
    apply IH; [lia | exact Hhit |].
    intros j Hj. apply Hbefore. lia.
Qed.

Lemma search_none (hit : Z -> bool) (n : nat) (i : Z) :
  (forall j, i <= j < i + Z.of_nat n -> hit j = false) ->
  Spec.search hit n i = Spec.EquinoxNotFound.
Proof.
  revert i. induction n as [|n IH]; intros i H; [reflexivity|].
  simpl. rewrite (H i) by lia. apply IH. intros j Hj. apply H. lia.
Qed.

(** A day the search returns is the day before a hit of the range. *)
Lemma search_day (hit : Z -> bool) (n : nat) (i d : Z) :
  Spec.search hit n i = Spec.Day d ->
  i - 1 <= d < i - 1 + Z.of_nat n /\ hit (d + 1) = true.
Proof.
  revert i. induction n as [|n IH]; intros i H; [discriminate|].
  simpl in H. destruct (hit i) eqn:E.
  - injection H as <-. split; [lia|].
    now replace (i - 1 + 1) with i by lia.
  - destruct (IH (i + 1) H) as [Hr Hh]. split; [lia | exact Hh].
Qed.

Lemma scanDays_zero (hit : Z -> bool) (n : nat) (i : Z) :
  1 < i -> scanDays hit n i = 0 ->
  forall j, i <= j < i + Z.of_nat n -> hit j = false.
Proof.
  revert i. induction n as [|n IH]; intros i Hi H j Hj; [lia|].
  simpl in H. destruct (hit i) eqn:E; [lia|].
  destruct (Z.eq_dec j i) as [->|Hne]; [exact E|].
  apply (IH (i + 1)); [lia | exact H | lia].
Qed.

End ScanFacts.

(** C3 (as stated, refuted). For 2024 the code returns 20, the day before
    the first day of 10..31 whose longitude is below 180 (day 21, when the
    longitude has passed from 359.5 to 0.5); the search the specification
    words, which stops at the first day whose longitude is not below 180, stops on
    day 10 and returns 9. *)
Lemma vernalEquinoxDay_is_not_first_day_not_below_180 :
  vernalEquinoxDay Runtime.Sin Runtime.Mod Runtime.tokyo 2024 = 20 /\
  Spec.vernalEquinoxDay
    (longitudeAt Runtime.Sin Runtime.Mod Runtime.tokyo 2024 GoTime.March) = 9 /\
  vernalEquinoxDay Runtime.Sin Runtime.Mod Runtime.tokyo 2024 <>
  Spec.vernalEquinoxDay
    (longitudeAt Runtime.Sin Runtime.Mod Runtime.tokyo 2024 GoTime.March).
Proof.
  assert (H1 : vernalEquinoxDay Runtime.Sin Runtime.Mod Runtime.tokyo 2024
               = 20) by (vm_compute; reflexivity).
  assert (H2 : Spec.vernalEquinoxDay
                 (longitudeAt Runtime.Sin Runtime.Mod Runtime.tokyo 2024
                    GoTime.March) = 9) by (vm_compute; reflexivity).
  split; [exact H1|]. split; [exact H2|].
  rewrite H1, H2. lia.
Qed.

(** Whatever the runtime and the year, the two searches disagree: on day 10
    exactly one of them stops. *)
Lemma vernalEquinoxDay_never_the_worded_search
    (math_Sin : float -> float) (math_Mod : float -> float -> float)
    (jst : GoTime.Location) (year : Z) :
  vernalEquinoxDay math_Sin math_Mod jst year <>
  Spec.vernalEquinoxDay (longitudeAt math_Sin math_Mod jst year GoTime.March).
Proof.
  unfold vernalEquinoxDay, Spec.vernalEquinoxDay.
  rewrite !ScanFacts.scanDays_search.
  set (lt180 := fun i =>
         (longitudeAt math_Sin math_Mod jst year GoTime.March i <? 180)%float).
  change (match (if lt180 10 then Spec.Day (10 - 1)
                 else Spec.search lt180 21 (10 + 1)) with
          | Spec.Day d => d | Spec.EquinoxNotFound => 0 end <>
          match (if negb (lt180 10) then Spec.Day (10 - 1)
                 else Spec.search (fun i => negb (lt180 i)) 21 (10 + 1)) with
          | Spec.Day d => d | Spec.EquinoxNotFound => 0 end).
  destruct (lt180 10) eqn:E; cbn [negb].
  - destruct (Spec.search (fun i => negb (lt180 i)) 21 (10 + 1)) as [d|] eqn:S;
      [|lia].
    apply ScanFacts.search_day in S. lia.
  - destruct (Spec.search lt180 21 (10 + 1)) as [d|] eqn:S; [|lia].
    apply ScanFacts.search_day in S. lia.
Qed.

(** C3 (amended). For every year the vernal search evaluates the longitude
    at midnight, in the zone [jst], of the days 10 to 31 of March and
    returns [i - 1] for the first day [i] whose longitude is below 180
    (the longitude has then passed 360 and started again from 0); it
    returns 0 when no day of the range is below 180. *)
Theorem vernalEquinoxDay_first_day_below_180
    (math_Sin : float -> float) (math_Mod : float -> float -> float)
    (jst : GoTime.Location) (year : Z) :
  let below180 := fun i =>
    (sunLongitude math_Sin math_Mod
       (time2JulianYear (GoTime.DateUnix year GoTime.March i 0 jst))
     <? 180)%float in
  (forall i, 10 <= i <= 31 -> below180 i = true ->
             (forall j, 10 <= j < i -> below180 j = false) ->
             vernalEquinoxDay math_Sin math_Mod jst year = i - 1) /\
  ((forall j, 10 <= j <= 31 -> below180 j = false) ->
   vernalEquinoxDay math_Sin math_Mod jst year = 0).
Proof.
  intros below180. unfold vernalEquinoxDay.
  change (fun i => (longitudeAt math_Sin math_Mod jst year GoTime.March i
                    <? 180)%float) with below180.
  rewrite ScanFacts.scanDays_search. split.
  - intros i Hi Hhit Hbefore.
    rewrite (ScanFacts.search_first below180 22 10 i); auto. lia.
  - intros Hnone. rewrite ScanFacts.search_none; [reflexivity|].
    intros j Hj. apply Hnone. lia.
Qed.

(** C2 (as stated, refuted). For the year -50000 the longitude stays
    between 330 and 351 on the days 10 to 31 of March: the search the
    specification words reports "equinox not found", while the code returns
    the day value 0 and the month calculator hands its caller a holiday
    dated day 00 of March. *)
Lemma vernalEquinoxDay_not_found_is_day_zero :
  Spec.search
    (fun i => (longitudeAt Runtime.Sin Runtime.Mod Runtime.tokyo
                 (-50000) GoTime.March i <? 180)%float) 22 10
    = Spec.EquinoxNotFound /\
  vernalEquinoxDay Runtime.Sin Runtime.Mod Runtime.tokyo (-50000) = 0 /\
  calcHolidaysInMonth Sample.annuallyHolidaysRules Sample.specialHolidays
    Runtime.Sin Runtime.Mod Runtime.tokyo (-50000) GoTime.March
    = Some [mkHoliday "-50000-03-00" "春分の日"].
Proof. vm_compute. repeat split; reflexivity. Qed.

(** C2 (amended). When a search scans its whole range without finding its
    crossing, the estimator returns 0, and the month calculator puts into
    the list of March (of September) the equinox holiday dated with that
    day, 00; no error is signalled. A search that finds its crossing
    returns a day from 9 on, so the result 0 occurs in no other case. *)
Theorem equinox_not_found_returns_zero
    (annuallyHolidaysRules : list annuallyHolidaysRule)
    (specialHolidays : list Holiday) (sorter : Sorter)
    (math_Sin : float -> float) (math_Mod : float -> float -> float)
    (jst : GoTime.Location) (year : Z) :
  let vernalHit := fun i =>
    (longitudeAt math_Sin math_Mod jst year GoTime.March i <? 180)%float in
  let autumnalHit := fun i =>
    (180 <=? longitudeAt math_Sin math_Mod jst year GoTime.September i)%float in
  let selected := fun rule =>
    searchRule annuallyHolidaysRules (List.length annuallyHolidaysRules) year
      = Some (Some rule) in
  let calc :=
    calcHolidaysInMonth annuallyHolidaysRules specialHolidays
      math_Sin math_Mod jst year in
  ((forall i, 10 <= i <= 31 -> vernalHit i = false) ->
   vernalEquinoxDay math_Sin math_Mod jst year = 0 /\
   forall rule, selected rule ->
     exists l, calc GoTime.March = Some l /\
               In (mkHoliday (Fmt.date year GoTime.March 0) "春分の日") l) /\
  ((forall i, 10 <= i <= 30 -> autumnalHit i = false) ->
   autumnalEquinoxDay math_Sin math_Mod jst year = 0 /\
   forall rule, selected rule ->
     exists l, calc GoTime.September = Some l /\
               In (mkHoliday (Fmt.date year GoTime.September 0) "秋分の日") l) /\
  (vernalEquinoxDay math_Sin math_Mod jst year = 0 ->
   forall i, 10 <= i <= 31 -> vernalHit i = false) /\
  (autumnalEquinoxDay math_Sin math_Mod jst year = 0 ->
   forall i, 10 <= i <= 30 -> autumnalHit i = false).
Proof.
  intros vernalHit autumnalHit selected calc.
  assert (Hlist : forall month name day,
            (if month =? GoTime.March
             then name = "春分の日"%string /\
                  day = vernalEquinoxDay math_Sin math_Mod jst year
             else month = GoTime.September /\ name = "秋分の日"%string /\
                  day = autumnalEquinoxDay math_Sin math_Mod jst year) ->
            forall rule, selected rule ->
            exists l, calc month = Some l /\
                      In (mkHoliday (Fmt.date year month day) name) l).
  { intros month name day Hcase rule Hsel.
    unfold calc, calcHolidaysInMonth. rewrite calcMonth_result.
    eexists. split; [reflexivity|].
    unfold selected in Hsel. rewrite searchRule_total in Hsel.
    injection Hsel as ->.
    apply (Permutation_in _ (Sort_perm _)).
    rewrite emittedHolidays_parts.
    apply in_or_app. right. apply in_or_app. right.
    destruct (month =? GoTime.March) eqn:E.
    - destruct Hcase as [-> ->]. apply in_or_app. left. now left.
    - destruct Hcase as (-> & -> & ->).
      apply in_or_app. right. apply in_or_app. left. now left. }
  split; [|split; [|split]].
  - intros Hnone.
    assert (H0 : vernalEquinoxDay math_Sin math_Mod jst year = 0).
    { unfold vernalEquinoxDay. fold vernalHit.
      rewrite ScanFacts.scanDays_search, ScanFacts.search_none;
        [reflexivity|].
      intros j Hj. apply Hnone. lia. }
    split; [exact H0|].
    apply Hlist. rewrite Z.eqb_refl. now rewrite H0.
  - intros Hnone.
    assert (H0 : autumnalEquinoxDay math_Sin math_Mod jst year = 0).
    { unfold autumnalEquinoxDay. fold autumnalHit.
      rewrite ScanFacts.scanDays_search, ScanFacts.search_none;
        [reflexivity|].
      intros j Hj. apply Hnone. lia. }
    split; [exact H0|].
    apply Hlist. change (GoTime.September =? GoTime.March) with false.
    now rewrite H0.
  - intros H0 i Hi.
    apply (ScanFacts.scanDays_zero vernalHit 22 10); [lia | exact H0 | lia].
  - intros H0 i Hi.
    apply (ScanFacts.scanDays_zero autumnalHit 21 10); [lia | exact H0 | lia].
Qed.

(** ** The concrete runtime on the years 2000 to 2099

    Evaluated with [Runtime.Sin], [Runtime.Mod] and [Runtime.tokyo], the
    vernal search returns 19, 20 or 21 and the autumnal search 22 or 23 for
    each of these years. This is a statement about that runtime. *)
Example runtime_equinox_days_2000_2099 :
  forallb
    (fun year =>
       let v := vernalEquinoxDay Runtime.Sin Runtime.Mod Runtime.tokyo year in
       let a := autumnalEquinoxDay Runtime.Sin Runtime.Mod Runtime.tokyo year in
       ((v =? 19) || (v =? 20) || (v =? 21)) && ((a =? 22) || (a =? 23)))
    (Enum.zrange 2000 2099) = true.
Proof. vm_compute. reflexivity. Qed.

(** On every day the two searches look at in these years, the longitude
    that is tested stays more than 0.003 degrees away from the value at
    which the test changes (0 or 360 for March, 180 for September): a sine
    that differs from [Runtime.Sin] in its last bits gives the same days. *)
Example runtime_longitudes_clear_of_thresholds :
  forallb
    (fun year =>
       forallb
         (fun i =>
            let l := longitudeAt Runtime.Sin Runtime.Mod Runtime.tokyo
                       year GoTime.March i in
            (0.003 <? l)%float && (l <? 359.997)%float)
         (Enum.zrange 10 31) &&
       forallb
         (fun i =>
            let l := longitudeAt Runtime.Sin Runtime.Mod Runtime.tokyo
                       year GoTime.September i in
            (l <? 179.997)%float || (180.003 <? l)%float)
         (Enum.zrange 10 30))
    (Enum.zrange 2000 2099) = true.
Proof. vm_compute. reflexivity. Qed.

(** C9. For every year from 2000 through 2099, the day the vernal search
    returns is 19, 20 or 21 and the day the autumnal search returns is 22
    or 23, when the estimator runs on the runtime of [Runtime]: the
    portable [math.Sin], the exact remainder for [math.Mod] and the Tokyo
    zone at nine hours east of UTC. *)
Theorem equinox_days_2000_2099 (year : Z) :
  2000 <= year <= 2099 ->
  let v := vernalEquinoxDay Runtime.Sin Runtime.Mod Runtime.tokyo year in
  let a := autumnalEquinoxDay Runtime.Sin Runtime.Mod Runtime.tokyo year in
  (v = 19 \/ v = 20 \/ v = 21) /\ (a = 22 \/ a = 23).
Proof.
  intros Hyear v a.
  pose proof (Enum.forallb_zrange _ _ _ runtime_equinox_days_2000_2099
                year Hyear) as E.
  cbv beta zeta in E. subst v a.
  apply andb_true_iff in E as [Ev Ea].
  apply orb_true_iff in Ev as [Ev|Ev]; [apply orb_true_iff in Ev as [Ev|Ev]|];
    apply orb_true_iff in Ea as [Ea|Ea]; apply Z.eqb_eq in Ev, Ea; auto.
Qed.

(** The year 2024: 20 March and 22 September. *)
Lemma equinox_days_2000_2099_witness :
  vernalEquinoxDay Runtime.Sin Runtime.Mod Runtime.tokyo 2024 = 20 /\
  autumnalEquinoxDay Runtime.Sin Runtime.Mod Runtime.tokyo 2024 = 22 /\
  (let v := vernalEquinoxDay Runtime.Sin Runtime.Mod Runtime.tokyo 2024 in
   let a := autumnalEquinoxDay Runtime.Sin Runtime.Mod Runtime.tokyo 2024 in
   (v = 19 \/ v = 20 \/ v = 21) /\ (a = 22 \/ a = 23)).
Proof.
  split; [vm_compute; reflexivity|]. split; [vm_compute; reflexivity|].
  apply (equinox_days_2000_2099 2024). lia.
Defined.

(** ** The theorems at concrete inputs *)

Module Checks.

(** [date_sorted], decided. *)
Fixpoint date_sortedb (l : list Holiday) : bool :=
  match l with
  | [] => true
  | x :: l' => forallb (fun y => negb (Less y x)) l' && date_sortedb l'
  end.

Lemma date_sortedb_ok (l : list Holiday) :
  date_sortedb l = true -> date_sorted l.
Proof.
  induction l as [|x l IH]; intros H; [constructor|].
  simpl in H. apply andb_true_iff in H as [H1 H2].
  constructor; [now apply IH|].
  rewrite forallb_forall in H1. apply Forall_forall.
  intros y Hy. now apply negb_true_iff, H1.
Qed.

(** Each entry of [l] carries the formatted date of the triple at its
    place in [ts], a calendar month and day. *)
Fixpoint calendarb (l : list Holiday) (ts : list (Z * Z * Z)) : bool :=
  match l, ts with
  | [], [] => true
  | h :: l', (y, m, d) :: ts' =>
      (1 <=? m) && (m <=? 12) && (1 <=? d) && (d <=? 31) &&
      String.eqb (Date h) (Fmt.date y m d) && calendarb l' ts'
  | _, _ => false
  end.

Lemma calendarb_ok (l : list Holiday) (ts : list (Z * Z * Z)) :
  calendarb l ts = true -> Forall (fun h => calendar_date (Date h)) l.
Proof.
  revert ts. induction l as [|h l IH]; intros ts H; [constructor|].
  destruct ts as [|[[y m] d] ts]; [discriminate|].
  simpl in H.
  apply andb_true_iff in H as [H Hrest].
  apply andb_true_iff in H as [H Hdate].
  apply andb_true_iff in H as [H Hd2].
  apply andb_true_iff in H as [H Hd1].
  apply andb_true_iff in H as [Hm1 Hm2].
  constructor; [|now apply (IH ts)].
  exists y, m, d. apply String.eqb_eq in Hdate.
  apply Z.leb_le in Hm1, Hm2, Hd1, Hd2. auto.
Qed.

Lemma sample_sorted : date_sorted Sample.holidays.
Proof. apply date_sortedb_ok. vm_compute. reflexivity. Qed.

Lemma sample_calendar :
  Forall (fun h => calendar_date (Date h)) Sample.holidays.
Proof.
  apply (calendarb_ok _ Sample.holidayDays). vm_compute. reflexivity.
Qed.

(** No entry of the table carries the given date. *)
Lemma absent_ok (l : list Holiday) (date : string) :
  forallb (fun h => negb (String.eqb (Date h) date)) l = true ->
  forall h, In h l -> Date h <> date.
Proof.
  intros H h Hin. rewrite forallb_forall in H.
  apply String.eqb_neq, negb_true_iff, H, Hin.
Qed.

(** A test that holds on every day from [lo] to [hi]. *)
Lemma days_ok (hit : Z -> bool) (lo hi : Z) :
  forallb (fun i => negb (hit i)) (Enum.zrange lo hi) = true ->
  forall i, lo <= i <= hi -> hit i = false.
Proof.
  intros H i Hi.
  apply negb_true_iff.
  exact (Enum.forallb_zrange (fun i => negb (hit i)) lo hi H i Hi).
Qed.

End Checks.

(** The lookup of 2023-01-09 in the table of 2023. *)
Lemma findHoliday_agrees_with_table_witness :
  date_sorted Sample.holidays /\
  exists r found,
    findHoliday Sample.holidays 2023 1 9 = Some (r, found) /\
    (found = true <->
       exists h, In h Sample.holidays /\ Date h = Fmt.date 2023 1 9) /\
    (found = true ->
       In r Sample.holidays /\ Date r = Fmt.date 2023 1 9 /\
       find (fun h => String.eqb (Date h) (Fmt.date 2023 1 9)) Sample.holidays
         = Some r) /\
    (found = false -> r = zeroHoliday).
Proof.
  split; [exact Checks.sample_sorted|].
  exact (findHoliday_agrees_with_table Sample.holidays 2023 1 9
           Checks.sample_sorted).
Defined.

(** The lookup of month 13, day 0 of 2023: no entry, no panic. *)
Lemma findHoliday_total_witness :
  (forall h, In h Sample.holidays -> Date h <> Fmt.date 2023 13 0) /\
  exists r found,
    findHoliday Sample.holidays 2023 13 0 = Some (r, found) /\
    r = zeroHoliday /\ found = false.
Proof.
  assert (Habsent : forall h, In h Sample.holidays ->
                              Date h <> Fmt.date 2023 13 0).
  { apply Checks.absent_ok. vm_compute. reflexivity. }
  split; [exact Habsent|].
  destruct (findHoliday_total Sample.holidays 2023 13 0)
    as (r & found & Hres & Hzero).
  exists r, found. split; [exact Hres | exact (Hzero Habsent)].
Defined.

(** February 2020, with the special table that repeats 2020-02-23. *)
Lemma month_list_ascending_witness :
  exists l,
    calcHolidaysInMonthWithoutInLieu Sample.annuallyHolidaysRules
      Sample.specialHolidaysRepeating Runtime.Sin Runtime.Mod Runtime.tokyo
      2020 2 = Some l /\
    date_sorted l /\
    Permutation
      (emittedHolidays Sample.specialHolidaysRepeating
         Runtime.Sin Runtime.Mod Runtime.tokyo Sample.rule2020 2020 2)
      l.
Proof.
  destruct (month_list_ascending Sample.annuallyHolidaysRules
              Sample.specialHolidaysRepeating insertionSorter
              Runtime.Sin Runtime.Mod Runtime.tokyo 2020 2)
    as (l & Hl & Hs & Hp & _).
  exists l. split; [exact Hl|]. split; [exact Hs|].
  apply Hp. vm_compute. reflexivity.
Defined.

(** Respect for the Aged Day 2020: the third Monday of September is
    the 21st. *)
Lemma weekday_rule_day_witness :
  GoTime.exact 2020 9 1 /\
  weekdayRuleDay (GoTime.Weekday 2020 9 1) Sample.agedDay = 21 /\
  (exists l,
     calcHolidaysInMonthWithoutInLieu Sample.annuallyHolidaysRules
       Sample.specialHolidays Runtime.Sin Runtime.Mod Runtime.tokyo
       2020 9 = Some l /\
     In (mkHoliday "2020-09-21" "敬老の日") l) /\
  GoTime.Weekday 2020 9 21 = Sample.Monday.
Proof.
  assert (Hsel : searchRule Sample.annuallyHolidaysRules
                   (List.length Sample.annuallyHolidaysRules) 2020
                 = Some (Some Sample.rule2020)) by (vm_compute; reflexivity).
  assert (Hin : In Sample.agedDay (WeekdayHolydays Sample.rule2020))
    by (simpl; tauto).
  assert (Hw : 0 <= wWeekday Sample.agedDay <= 6)
    by (unfold Sample.agedDay, Sample.Monday; simpl; lia).
  assert (H1 : Int.in_range (wIndex Sample.agedDay * 7))
    by (unfold Int.in_range, Sample.agedDay; simpl; lia).
  assert (H2 : Int.in_range (wIndex Sample.agedDay * 7 + 7))
    by (unfold Int.in_range, Sample.agedDay; simpl; lia).
  assert (Hfirst : GoTime.exact 2020 9 1)
    by (apply TimeFacts.exact_dec; vm_compute; reflexivity).
  assert (Hday : GoTime.exact 2020 9 21)
    by (apply TimeFacts.exact_dec; vm_compute; reflexivity).
  split; [exact Hfirst|].
  destruct (weekday_rule_day Sample.annuallyHolidaysRules
              Sample.specialHolidays insertionSorter Runtime.Sin Runtime.Mod
              Runtime.tokyo 2020 9 Sample.rule2020 Sample.agedDay
              Hsel Hin eq_refl Hw H1 H2 Hfirst) as (Hd & Hl & Hwd).
  split; [exact Hd|]. split; [exact Hl|]. exact (Hwd Hday).
Defined.

(** The table of 2023 by month and by year, and the calculator on 2020. *)
Lemma months_concat_is_year_witness :
  date_sorted Sample.holidays /\
  Forall (fun h => calendar_date (Date h)) Sample.holidays /\
  (exists ms ys,
     mapM (findHolidaysInMonth Sample.holidays 2023) months = Some ms /\
     findHolidaysInYear Sample.holidays 2023 = Some ys /\
     List.concat ms = ys) /\
  (exists ms ys,
     mapM (calcHolidaysInMonth Sample.annuallyHolidaysRules
             Sample.specialHolidays Runtime.Sin Runtime.Mod Runtime.tokyo 2020)
          months = Some ms /\
     calcHolidaysInYear Sample.annuallyHolidaysRules Sample.specialHolidays
       Runtime.Sin Runtime.Mod Runtime.tokyo 2020 = Some ys /\
     List.concat ms = ys).
Proof.
  split; [exact Checks.sample_sorted|].
  split; [exact Checks.sample_calendar|].
  split.
  - exact (proj1 (months_concat_is_year Sample.holidays
                    Sample.annuallyHolidaysRules Sample.specialHolidays
                    insertionSorter Runtime.Sin Runtime.Mod Runtime.tokyo 2023
                    Checks.sample_sorted Checks.sample_calendar)).
  - exact (proj2 (months_concat_is_year Sample.holidays
                    Sample.annuallyHolidaysRules Sample.specialHolidays
                    insertionSorter Runtime.Sin Runtime.Mod Runtime.tokyo 2020
                    Checks.sample_sorted Checks.sample_calendar)).
Defined.

(** 2024: the longitude is below 180 on day 21 and on no day of 10..20. *)
Lemma vernalEquinoxDay_first_day_below_180_witness :
  let below180 := fun i =>
    (sunLongitude Runtime.Sin Runtime.Mod
       (time2JulianYear (GoTime.DateUnix 2024 GoTime.March i 0 Runtime.tokyo))
     <? 180)%float in
  below180 21 = true /\
  (forall j, 10 <= j < 21 -> below180 j = false) /\
  vernalEquinoxDay Runtime.Sin Runtime.Mod Runtime.tokyo 2024 = 21 - 1.
Proof.
  intros below180.
  assert (Hhit : below180 21 = true) by (vm_compute; reflexivity).
  assert (Hbefore : forall j, 10 <= j < 21 -> below180 j = false).
  { intros j Hj. apply (Checks.days_ok below180 10 20); [|lia].
    vm_compute. reflexivity. }
  split; [exact Hhit|]. split; [exact Hbefore|].
  exact (proj1 (vernalEquinoxDay_first_day_below_180
                  Runtime.Sin Runtime.Mod Runtime.tokyo 2024)
               21 ltac:(lia) Hhit Hbefore).
Defined.

(** The year -50000: no day of 10..31 March has a longitude below 180. *)
Lemma equinox_not_found_returns_zero_witness :
  (forall i, 10 <= i <= 31 ->
     (longitudeAt Runtime.Sin Runtime.Mod Runtime.tokyo (-50000)
        GoTime.March i <? 180)%float = false) /\
  vernalEquinoxDay Runtime.Sin Runtime.Mod Runtime.tokyo (-50000) = 0 /\
  exists l,
    calcHolidaysInMonth Sample.annuallyHolidaysRules Sample.specialHolidays
      Runtime.Sin Runtime.Mod Runtime.tokyo (-50000) GoTime.March = Some l /\
    In (mkHoliday (Fmt.date (-50000) GoTime.March 0) "春分の日") l.
Proof.
  assert (Hnone : forall i, 10 <= i <= 31 ->
            (longitudeAt Runtime.Sin Runtime.Mod Runtime.tokyo (-50000)
               GoTime.March i <? 180)%float = false).
  { apply Checks.days_ok. vm_compute. reflexivity. }
  split; [exact Hnone|].
  destruct (proj1 (equinox_not_found_returns_zero
                     Sample.annuallyHolidaysRules Sample.specialHolidays
                     insertionSorter Runtime.Sin Runtime.Mod Runtime.tokyo
                     (-50000)) Hnone) as [H0 Hlist].
  split; [exact H0|].
  apply (Hlist Sample.rule2020). vm_compute. reflexivity.
Defined.

(** * More of the package *)

(** ** The equinox searches, continued *)

(** X1. For every year the autumnal search evaluates the longitude at
    midnight, in the zone [jst], of the days 10 to 30 of September and
    returns [i - 1] for the first day [i] whose longitude is 180 or more;
    it returns 0 when no day of the range reaches 180. *)
Theorem autumnalEquinoxDay_first_day_at_180
    (math_Sin : float -> float) (math_Mod : float -> float -> float)
    (jst : GoTime.Location) (year : Z) :
  let atLeast180 := fun i =>
    (180 <=? sunLongitude math_Sin math_Mod
               (time2JulianYear
                  (GoTime.DateUnix year GoTime.September i 0 jst)))%float in
  (forall i, 10 <= i <= 30 -> atLeast180 i = true ->
             (forall j, 10 <= j < i -> atLeast180 j = false) ->
             autumnalEquinoxDay math_Sin math_Mod jst year = i - 1) /\
  ((forall j, 10 <= j <= 30 -> atLeast180 j = false) ->
   autumnalEquinoxDay math_Sin math_Mod jst year = 0).
Proof.
  intros atLeast180. unfold autumnalEquinoxDay.
  change (fun i => (180 <=? longitudeAt math_Sin math_Mod jst year
                              GoTime.September i)%float) with atLeast180.
  rewrite ScanFacts.scanDays_search. split.
  - intros i Hi Hhit Hbefore.
    rewrite (ScanFacts.search_first atLeast180 21 10 i); auto. lia.
  - intros Hnone. rewrite ScanFacts.search_none; [reflexivity|].
    intros j Hj. apply Hnone. lia.
Qed.

(** 2024: the longitude reaches 180 on day 23 and on no day of 10..22. *)
Lemma autumnalEquinoxDay_first_day_at_180_witness :
  let atLeast180 := fun i =>
    (180 <=? sunLongitude Runtime.Sin Runtime.Mod
               (time2JulianYear
                  (GoTime.DateUnix 2024 GoTime.September i 0 Runtime.tokyo)))%float in
  atLeast180 23 = true /\
  (forall j, 10 <= j < 23 -> atLeast180 j = false) /\
  autumnalEquinoxDay Runtime.Sin Runtime.Mod Runtime.tokyo 2024 = 23 - 1.
Proof.
  intros atLeast180.
  assert (Hhit : atLeast180 23 = true) by (vm_compute; reflexivity).
  assert (Hbefore : forall j, 10 <= j < 23 -> atLeast180 j = false).
  { intros j Hj. apply (Checks.days_ok atLeast180 10 22); [|lia].
    vm_compute. reflexivity. }
  split; [exact Hhit|]. split; [exact Hbefore|].
  exact (proj1 (autumnalEquinoxDay_first_day_at_180
                  Runtime.Sin Runtime.Mod Runtime.tokyo 2024)
               23 ltac:(lia) Hhit Hbefore).
Defined.

(** X2. Whatever the runtime, the zone and the year, the vernal search
    returns 0 or a day from 9 to 30, and the autumnal search 0 or a day
    from 9 to 29: neither returns a day after the range it scans, and
    neither returns a day from 1 to 8. *)
Theorem equinox_day_bounds
    (math_Sin : float -> float) (math_Mod : float -> float -> float)
    (jst : GoTime.Location) (year : Z) :
  let v := vernalEquinoxDay math_Sin math_Mod jst year in
  let a := autumnalEquinoxDay math_Sin math_Mod jst year in
  (v = 0 \/ 9 <= v <= 30) /\ (a = 0 \/ 9 <= a <= 29).
Proof.
  cbv zeta. unfold vernalEquinoxDay, autumnalEquinoxDay.
  rewrite !ScanFacts.scanDays_search. split.
  - destruct (Spec.search _ 22 10) as [d|] eqn:S; [|now left].
    apply ScanFacts.search_day in S. right. lia.
  - destruct (Spec.search _ 21 10) as [d|] eqn:S; [|now left].
    apply ScanFacts.search_day in S. right. lia.
Qed.

(** ** Strings in blocks of equal length *)

Module BlockOrd.

(** Two strings that start with blocks of the same length compare by the
    blocks first, and by what follows when the blocks are equal. *)
Lemma compare_blocks (a b x y : string) :
  String.length a = String.length b ->
  String.compare (a ++ x) (b ++ y) =
    match String.compare a b with
    | Eq => String.compare x y
    | c => c
    end.
Proof.
  revert b. induction a as [|c a IH]; intros [|c' b] Hlen;
    simpl in *; try discriminate; [reflexivity|].
  destruct (Ascii.compare c c'); try reflexivity.
  apply IH. congruence.
Qed.

Lemma d0_2_length (m : Z) :
  0 <= m <= 99 -> String.length (Fmt.d0 2 m) = 2%nat.
Proof.
  intros Hm.
  apply Nat.eqb_eq.
  apply (Enum.forallb_zrange
           (fun m => (String.length (Fmt.d0 2 m) =? 2)%nat) 0 99);
    [vm_compute; reflexivity | exact Hm].
Qed.

(** Two-digit fields compare as their numbers do. *)
Lemma d0_2_compare (m m' : Z) :
  0 <= m <= 99 -> 0 <= m' <= 99 ->
  String.compare (Fmt.d0 2 m) (Fmt.d0 2 m') = (m ?= m').
Proof.
  intros Hm Hm'.
  assert (H : forallb
                (fun a => forallb
                   (fun b =>
                      match String.compare (Fmt.d0 2 a) (Fmt.d0 2 b), (a ?= b) with
                      | Eq, Eq | Lt, Lt | Gt, Gt => true
                      | _, _ => false
                      end)
                   (Enum.zrange 0 99))
                (Enum.zrange 0 99) = true) by (vm_compute; reflexivity).
  pose proof (Enum.forallb_zrange _ 0 99 H m Hm) as H1. cbv beta in H1.
  pose proof (Enum.forallb_zrange _ 0 99 H1 m' Hm') as H2. cbv beta in H2.
  destruct (String.compare (Fmt.d0 2 m) (Fmt.d0 2 m')), (m ?= m');
    congruence.
Qed.

End BlockOrd.

Module MapMFacts.

Lemma mapM_Forall2 {A B} (f : A -> go B) (l : list A) (bs : list B) :
  mapM f l = Some bs -> Forall2 (fun a b => f a = Some b) l bs.
Proof.
  revert bs. induction l as [|a l IH]; intros bs H; simpl in H.
  - injection H as <-. constructor.
  - destruct (f a) as [b|] eqn:Fa; [|discriminate].
    destruct (mapM f l) as [bs'|] eqn:Fl; [|discriminate].
    injection H as <-. constructor; auto.
Qed.

End MapMFacts.

Module SortedFacts.

Lemma StronglySorted_app {A} (R : A -> A -> Prop) (l1 l2 : list A) :
  StronglySorted R l1 -> StronglySorted R l2 ->
  (forall a b, In a l1 -> In b l2 -> R a b) ->
  StronglySorted R (l1 ++ l2).
Proof.
  induction 1 as [|x l1 Hs IH Hall]; intros H2 Hcross; simpl; [exact H2|].
  constructor.
  - apply IH; [exact H2|]. intros a b Ha Hb. apply Hcross; [now right|exact Hb].
  - apply Forall_app. split; [exact Hall|].
    apply Forall_forall. intros b Hb. apply Hcross; [now left|exact Hb].
Qed.

End SortedFacts.

(** ** The calculator, continued *)

Section CalculatorMore.

Variable annuallyHolidaysRules : list annuallyHolidaysRule.
Variable specialHolidays : list Holiday.
Context {sorter : Sorter}.
Variable math_Sin : float -> float.
Variable math_Mod : float -> float -> float.
Variable jst : GoTime.Location.

Local Abbreviation emitted' :=
  (emittedHolidays specialHolidays math_Sin math_Mod jst).
Local Abbreviation calcMonth' :=
  (calcHolidaysInMonth annuallyHolidaysRules specialHolidays
     math_Sin math_Mod jst).

(** [yearPrefix + monthPrefix] *)
Definition yearMonthPrefix (year month : Z) : string :=
  (Fmt.d0 4 year ++ "-") ++ (Fmt.d0 2 month ++ "-").

Lemma date_yearMonthPrefix (year month day : Z) :
  Fmt.date year month day = yearMonthPrefix year month ++ Fmt.d0 2 day.
Proof.
  unfold Fmt.date, yearMonthPrefix.
  now rewrite !StrOrd.append_assoc.
Qed.

(** Where a record of the emitted list comes from. *)
Lemma emitted_In (rule : annuallyHolidaysRule) (year month : Z) (h : Holiday) :
  In h (emitted' rule year month) <->
  (exists d, In d (StaticHolydays rule) /\
             String.prefix (Fmt.d0 2 month ++ "-") (sDate d) = true /\
             h = mkHoliday ((Fmt.d0 4 year ++ "-") ++ sDate d) (sName d)) \/
  (exists d, In d (WeekdayHolydays rule) /\ wMonth d = month /\
             h = mkHoliday
                   (Fmt.date year month
                      (weekdayRuleDay (GoTime.Weekday year month 1) d))
                   (wName d)) \/
  (month = GoTime.March /\
   h = mkHoliday
         (Fmt.date year month (vernalEquinoxDay math_Sin math_Mod jst year))
         "春分の日") \/
  (month = GoTime.September /\
   h = mkHoliday
         (Fmt.date year month (autumnalEquinoxDay math_Sin math_Mod jst year))
         "秋分の日") \/
  (In h specialHolidays /\
   String.prefix (yearMonthPrefix year month) (Date h) = true).
Proof.
  rewrite emittedHolidays_parts. rewrite !in_app_iff.
  rewrite !in_map_iff, filter_In.
  assert (HM : In h (if month =? GoTime.March
                     then [mkHoliday
                             (Fmt.date year month
                                (vernalEquinoxDay math_Sin math_Mod jst year))
                             "春分の日"]
                     else []) <->
               month = GoTime.March /\
               h = mkHoliday
                     (Fmt.date year month
                        (vernalEquinoxDay math_Sin math_Mod jst year))
                     "春分の日").
  { destruct (month =? GoTime.March) eqn:E.
    - apply Z.eqb_eq in E. simpl. intuition congruence.
    - apply Z.eqb_neq in E. simpl. intuition. }
  assert (HS : In h (if month =? GoTime.September
                     then [mkHoliday
                             (Fmt.date year month
                                (autumnalEquinoxDay math_Sin math_Mod jst year))
                             "秋分の日"]
                     else []) <->
               month = GoTime.September /\
               h = mkHoliday
                     (Fmt.date year month
                        (autumnalEquinoxDay math_Sin math_Mod jst year))
                     "秋分の日").
  { destruct (month =? GoTime.September) eqn:E.
    - apply Z.eqb_eq in E. simpl. intuition congruence.
    - apply Z.eqb_neq in E. simpl. intuition. }
  rewrite HM, HS. unfold yearMonthPrefix.
  split.
  - intros [(d & <- & Hd)|[(d & <- & Hd)|[H|[H|H]]]].
    + apply filter_In in Hd as [Hd Hp]. left. exists d. auto.
    + apply filter_In in Hd as [Hd Hp]. apply Z.eqb_eq in Hp.
      right. left. exists d. auto.
    + auto.
    + auto.
    + auto 6.
  - intros [(d & Hd & Hp & ->)|[(d & Hd & Hp & ->)|[H|[H|H]]]].
    + left. exists d. split; [reflexivity|]. apply filter_In. auto.
    + right. left. exists d. split; [reflexivity|].
      apply filter_In. split; [exact Hd|]. now apply Z.eqb_eq.
    + auto.
    + auto.
    + auto 6.
Qed.

Lemma emitted_prefix (rule : annuallyHolidaysRule) (year month : Z)
    (h : Holiday) :
  In h (emitted' rule year month) ->
  String.prefix (yearMonthPrefix year month) (Date h) = true.
Proof.
  intros H. apply emitted_In in H.
  destruct H as [(d & Hd & Hp & ->)|[(d & Hd & Hp & ->)|[[_ ->]|[[_ ->]|[_ H]]]]].
  - apply StrOrd.prefix_inv in Hp. destruct Hp as [r Hr].
    cbn [Date]. rewrite Hr. unfold yearMonthPrefix.
    rewrite <- (StrOrd.append_assoc (Fmt.d0 4 year ++ "-")
                  (Fmt.d0 2 month ++ "-") r).
    apply StrOrd.prefix_app.
  - cbn [Date]. rewrite date_yearMonthPrefix. apply StrOrd.prefix_app.
  - cbn [Date]. rewrite date_yearMonthPrefix. apply StrOrd.prefix_app.
  - cbn [Date]. rewrite date_yearMonthPrefix. apply StrOrd.prefix_app.
  - exact H.
Qed.

(** What a month list holds: nothing, or the emitted records of the
    generation the loop selected. *)
Lemma calcMonth_In (year month : Z) (l : list Holiday) (h : Holiday) :
  calcMonth' year month = Some l -> In h l ->
  exists rule,
    searchRule annuallyHolidaysRules (List.length annuallyHolidaysRules) year
      = Some (Some rule) /\
    In h (emitted' rule year month).
Proof.
  unfold calcHolidaysInMonth. rewrite calcMonth_result, searchRule_total.
  intros [= <-] Hin.
  destruct (find _ _) as [rule|]; [|destruct Hin].
  exists rule. split; [reflexivity|].
  exact (Permutation_in _ (Permutation_sym (Sort_perm _)) Hin).
Qed.

Lemma calcMonth_sorted (year month : Z) (l : list Holiday) :
  calcMonth' year month = Some l -> date_sorted l.
Proof.
  unfold calcHolidaysInMonth. rewrite calcMonth_result.
  intros [= <-]. destruct (find _ _); [apply Sort_sorted | constructor].
Qed.

(** A record of an earlier month is not above a record of a later month of
    the same year. *)
Lemma months_ordered (year m m' : Z) (a b : string) :
  1 <= m < m' -> m' <= 12 ->
  String.prefix (yearMonthPrefix year m) a = true ->
  String.prefix (yearMonthPrefix year m') b = true ->
  String.ltb b a = false.
Proof.
  intros Hm Hm' Ha Hb.
  apply StrOrd.prefix_inv in Ha. destruct Ha as [ra ->].
  apply StrOrd.prefix_inv in Hb. destruct Hb as [rb ->].
  unfold yearMonthPrefix.
  rewrite !StrOrd.append_assoc, !StrOrd.ltb_app.
  unfold String.ltb.
  rewrite BlockOrd.compare_blocks
    by (rewrite !BlockOrd.d0_2_length; [reflexivity | lia | lia]).
  rewrite BlockOrd.d0_2_compare by lia.
  now replace (m' ?= m) with Gt by (symmetry; apply Z.compare_gt_iff; lia).
Qed.

(** The month lists of increasing months, joined, are in order. *)
Lemma months_concat_sorted (year : Z) (ml : list Z) (ms : list (list Holiday)) :
  Forall2 (fun m l => calcMonth' year m = Some l) ml ms ->
  StronglySorted Z.lt ml -> Forall (fun m => 1 <= m <= 12) ml ->
  date_sorted (List.concat ms) /\
  forall h, In h (List.concat ms) ->
    exists m, In m ml /\
              String.prefix (yearMonthPrefix year m) (Date h) = true.
Proof.
  induction 1 as [|m l ml ms Hml HF IH]; intros Hs Hr.
  - split; [constructor|]. intros h [].
  - apply StronglySorted_inv in Hs as [Hs Hlt].
    apply Forall_cons_iff in Hr as [Hm Hr].
    destruct (IH Hs Hr) as [IHs IHp].
    assert (Hl : forall h, In h l ->
              String.prefix (yearMonthPrefix year m) (Date h) = true).
    { intros h Hh. destruct (calcMonth_In _ _ _ _ Hml Hh) as (rule & _ & He).
      now apply (emitted_prefix rule). }
    split.
    + cbn [List.concat]. apply SortedFacts.StronglySorted_app.
      * now apply (calcMonth_sorted year m).
      * exact IHs.
      * intros a b Ha Hb. destruct (IHp b Hb) as (m' & Hm' & Hpb).
        rewrite Forall_forall in Hlt, Hr.
        apply (months_ordered year m m'); auto.
        -- pose proof (Hlt m' Hm'). lia.
        -- pose proof (Hr m' Hm'). lia.
    + intros h Hh. cbn [List.concat] in Hh. apply in_app_or in Hh.
      destruct Hh as [Hh|Hh].
      * exists m. split; [now left | now apply Hl].
      * destruct (IHp h Hh) as (m' & Hm' & Hp). exists m'. split; auto.
        now right.
Qed.

End CalculatorMore.

(** X3. Every record of a month list is dated in the requested year and
    month: its date starts with [yearPrefix + monthPrefix], the text
    ["YYYY-MM-"] of the request, whatever the tables, the sort and the
    runtime. *)
Theorem month_list_dates_in_month
    (annuallyHolidaysRules : list annuallyHolidaysRule)
    (specialHolidays : list Holiday) (sorter : Sorter)
    (math_Sin : float -> float) (math_Mod : float -> float -> float)
    (jst : GoTime.Location) (year month : Z) :
  exists l,
    calcHolidaysInMonth annuallyHolidaysRules specialHolidays
      math_Sin math_Mod jst year month = Some l /\
    forall h, In h l ->
      String.prefix ((Fmt.d0 4 year ++ "-") ++ (Fmt.d0 2 month ++ "-")) (Date h)
        = true.
Proof.
  unfold calcHolidaysInMonth. rewrite calcMonth_result.
  eexists. split; [reflexivity|].
  intros h Hh.
  destruct (calcMonth_In annuallyHolidaysRules specialHolidays
              math_Sin math_Mod jst year month _ h
              (calcMonth_result _ _ _ _ _ year month) Hh)
    as (rule & _ & He).
  exact (emitted_prefix specialHolidays math_Sin math_Mod jst rule year month
           h He).
Qed.

(** X4. The year list is in ascending order of date as a whole, not only
    month by month, and every record of it is dated in the requested year:
    its date starts with ["YYYY-"]. *)
Theorem year_list_ascending
    (annuallyHolidaysRules : list annuallyHolidaysRule)
    (specialHolidays : list Holiday) (sorter : Sorter)
    (math_Sin : float -> float) (math_Mod : float -> float -> float)
    (jst : GoTime.Location) (year : Z) :
  exists ys,
    calcHolidaysInYear annuallyHolidaysRules specialHolidays
      math_Sin math_Mod jst year = Some ys /\
    date_sorted ys /\
    forall h, In h ys ->
      String.prefix (Fmt.d0 4 year ++ "-") (Date h) = true.
Proof.
  destruct (calcYearLoop_concat annuallyHolidaysRules specialHolidays
              math_Sin math_Mod jst year 12 1 []) as (ms & Hms & Hloop).
  exists (List.concat ms). split; [exact Hloop|].
  apply MapMFacts.mapM_Forall2 in Hms.
  destruct (months_concat_sorted annuallyHolidaysRules specialHolidays
              math_Sin math_Mod jst year _ ms Hms) as [Hs Hp].
  - cbn. repeat (constructor; [|repeat (constructor; [lia|]); constructor]).
    constructor.
  - cbn. repeat (constructor; [lia|]). constructor.
  - split; [exact Hs|].
    intros h Hh. destruct (Hp h Hh) as (m & _ & Hpre).
    apply StrOrd.prefix_inv in Hpre. destruct Hpre as [r ->].
    unfold yearMonthPrefix. rewrite StrOrd.append_assoc.
    apply StrOrd.prefix_app.
Qed.

(** X5. When the loop over the generations selects none (every
    [BeginYear] is below the year), the month list and the year list are
    empty: no equinox holiday is computed and the special holidays of the
    year are left out as well. *)
Theorem no_generation_no_holidays
    (annuallyHolidaysRules : list annuallyHolidaysRule)
    (specialHolidays : list Holiday) (sorter : Sorter)
    (math_Sin : float -> float) (math_Mod : float -> float -> float)
    (jst : GoTime.Location) (year : Z) :
  (forall r, In r annuallyHolidaysRules -> BeginYear r < year) ->
  (forall month,
     calcHolidaysInMonth annuallyHolidaysRules specialHolidays
       math_Sin math_Mod jst year month = Some []) /\
  calcHolidaysInYear annuallyHolidaysRules specialHolidays
    math_Sin math_Mod jst year = Some [].
Proof.
  intros Hall.
  assert (Hmonth : forall month,
            calcHolidaysInMonth annuallyHolidaysRules specialHolidays
              math_Sin math_Mod jst year month = Some []).
  { intros month. unfold calcHolidaysInMonth. rewrite calcMonth_result.
    rewrite find_absent; [reflexivity|].
    intros r Hr. apply in_rev in Hr. rewrite Z.geb_leb. apply Z.leb_gt.
    now apply Hall. }
  split; [exact Hmonth|].
  destruct (calcYearLoop_concat annuallyHolidaysRules specialHolidays
              math_Sin math_Mod jst year 12 1 []) as (ms & Hms & Hloop).
  unfold calcHolidaysInYear. rewrite Hloop. f_equal. cbn [app].
  apply MapMFacts.mapM_Forall2 in Hms.
  clear Hloop. induction Hms as [|m l ml ms Hl _ IH]; [reflexivity|].
  cbn [List.concat]. rewrite IH.
  rewrite Hmonth in Hl. now injection Hl as <-.
Qed.

(** 2024 with the generations of 2016 and 2020. *)
Lemma no_generation_no_holidays_witness :
  (forall r, In r Sample.annuallyHolidaysRules -> BeginYear r < 2024) /\
  (forall month,
     calcHolidaysInMonth Sample.annuallyHolidaysRules Sample.specialHolidays
       Runtime.Sin Runtime.Mod Runtime.tokyo 2024 month = Some []) /\
  calcHolidaysInYear Sample.annuallyHolidaysRules Sample.specialHolidays
    Runtime.Sin Runtime.Mod Runtime.tokyo 2024 = Some [].
Proof.
  assert (H : forall r, In r Sample.annuallyHolidaysRules ->
                        BeginYear r < 2024).
  { intros r [<-|[<-|[]]]; simpl; lia. }
  split; [exact H|].
  exact (no_generation_no_holidays Sample.annuallyHolidaysRules
           Sample.specialHolidays insertionSorter
           Runtime.Sin Runtime.Mod Runtime.tokyo 2024 H).
Defined.

(** X6. With a generation selected, the month list holds exactly: one
    record for each fixed-date rule of the generation whose date starts
    with the month, dated [yearPrefix + Date]; one for each weekday rule of
    the month; the vernal equinox in March and the autumnal equinox in
    September; and each special holiday whose date starts with
    ["YYYY-MM-"]. Nothing else is in the list and none of these is
    missing. *)
Theorem month_list_members
    (annuallyHolidaysRules : list annuallyHolidaysRule)
    (specialHolidays : list Holiday) (sorter : Sorter)
    (math_Sin : float -> float) (math_Mod : float -> float -> float)
    (jst : GoTime.Location) (year month : Z) (rule : annuallyHolidaysRule) :
  searchRule annuallyHolidaysRules (List.length annuallyHolidaysRules) year
    = Some (Some rule) ->
  exists l,
    calcHolidaysInMonth annuallyHolidaysRules specialHolidays
      math_Sin math_Mod jst year month = Some l /\
    forall h, In h l <->
      (exists d, In d (StaticHolydays rule) /\
                 String.prefix (Fmt.d0 2 month ++ "-") (sDate d) = true /\
                 h = mkHoliday ((Fmt.d0 4 year ++ "-") ++ sDate d) (sName d)) \/
      (exists d, In d (WeekdayHolydays rule) /\ wMonth d = month /\
                 h = mkHoliday
                       (Fmt.date year month
                          (weekdayRuleDay (GoTime.Weekday year month 1) d))
                       (wName d)) \/
      (month = GoTime.March /\
       h = mkHoliday
             (Fmt.date year month (vernalEquinoxDay math_Sin math_Mod jst year))
             "春分の日") \/
      (month = GoTime.September /\
       h = mkHoliday
             (Fmt.date year month
                (autumnalEquinoxDay math_Sin math_Mod jst year))
             "秋分の日") \/
      (In h specialHolidays /\
       String.prefix ((Fmt.d0 4 year ++ "-") ++ (Fmt.d0 2 month ++ "-"))
                     (Date h) = true).
Proof.
  intros Hsel. unfold calcHolidaysInMonth. rewrite calcMonth_result.
  rewrite searchRule_total in Hsel. injection Hsel as ->.
  eexists. split; [reflexivity|].
  intros h.
  rewrite <- (emitted_In specialHolidays math_Sin math_Mod jst rule year month h).
  split; intros H.
  - exact (Permutation_in _ (Permutation_sym (Sort_perm _)) H).
  - exact (Permutation_in _ (Sort_perm _) H).
Qed.

(** May 2019 with the generation of 2020 selected. *)
Lemma month_list_members_witness :
  searchRule Sample.annuallyHolidaysRules
    (List.length Sample.annuallyHolidaysRules) 2019 = Some (Some Sample.rule2020) /\
  exists l,
    calcHolidaysInMonth Sample.annuallyHolidaysRules Sample.specialHolidays
      Runtime.Sin Runtime.Mod Runtime.tokyo 2019 5 = Some l /\
    In (mkHoliday "2019-05-01" "休日（祝日扱い）") l /\
    In (mkHoliday "2019-05-03" "憲法記念日") l.
Proof.
  assert (Hsel : searchRule Sample.annuallyHolidaysRules
                   (List.length Sample.annuallyHolidaysRules) 2019
                 = Some (Some Sample.rule2020)) by (vm_compute; reflexivity).
  split; [exact Hsel|].
  destruct (month_list_members Sample.annuallyHolidaysRules
              Sample.specialHolidays insertionSorter
              Runtime.Sin Runtime.Mod Runtime.tokyo 2019 5 Sample.rule2020 Hsel)
    as (l & Hl & Hmem).
  exists l. split; [exact Hl|]. split.
  - apply Hmem. right. right. right. right.
    split; [simpl; tauto | vm_compute; reflexivity].
  - apply Hmem. left. exists (mkStatic "05-03" "憲法記念日").
    split; [simpl; tauto|]. split; vm_compute; reflexivity.
Defined.

(** ** The static table, continued *)

Module SegmentFacts.

Lemma filter_none {A} (f : A -> bool) (l : list A) :
  (forall e, In e l -> f e = false) -> filter f l = [].
Proof.
  induction l as [|x l IH]; intros H; [reflexivity|].
  cbn [filter]. rewrite (H x) by now left.
  apply IH. intros e He. apply H. now right.
Qed.

(** A list cut at two places keeps, under a test that fails before the
    first cut, holds between the cuts and fails after the second, exactly
    the part between the cuts. *)
Lemma filter_segment {A} (f : A -> bool) (l : list A) (lo hi : nat) :
  (lo <= hi)%nat ->
  (forall i e, (i < lo)%nat -> nth_error l i = Some e -> f e = false) ->
  (forall i e, (lo <= i < hi)%nat -> nth_error l i = Some e -> f e = true) ->
  (forall i e, (hi <= i)%nat -> nth_error l i = Some e -> f e = false) ->
  filter f l = firstn (hi - lo) (skipn lo l).
Proof.
  revert lo hi. induction l as [|x l IH]; intros lo hi Hle Hlo Hmid Hhi.
  - now rewrite skipn_nil, firstn_nil.
  - destruct lo as [|lo].
    + rewrite Nat.sub_0_r. cbn [skipn].
      destruct hi as [|hi].
      * cbn [firstn]. apply filter_none.
        intros e He. apply In_nth_error in He as [i Hi].
        apply (Hhi i e); [lia | exact Hi].
      * cbn [filter firstn]. rewrite (Hmid 0%nat x) by (simpl; auto; lia).
        f_equal. rewrite (IH 0%nat hi); [now rewrite Nat.sub_0_r | lia | | |].
        -- intros i e Hi. lia.
        -- intros i e Hi He. apply (Hmid (S i) e); [lia | exact He].
        -- intros i e Hi He. apply (Hhi (S i) e); [lia | exact He].
    + destruct hi as [|hi]; [lia|].
      cbn [filter skipn]. rewrite (Hlo 0%nat x) by (simpl; auto; lia).
      rewrite (IH lo hi); [reflexivity | lia | | |].
      * intros i e Hi He. apply (Hlo (S i) e); [lia | exact He].
      * intros i e Hi He. apply (Hmid (S i) e); [lia | exact He].
      * intros i e Hi He. apply (Hhi (S i) e); [lia | exact He].
Qed.

End SegmentFacts.

Section StaticMore.

Variable holidays : list Holiday.
Hypothesis Hsorted : date_sorted holidays.
Hypothesis Hdates : Forall (fun h => calendar_date (Date h)) holidays.

(** The dates from [a] up to, not including, [b]. *)
Definition between (a b : string) (e : Holiday) : bool :=
  negb (String.ltb (Date e) a) && String.ltb (Date e) b.

(** The slice between the boundaries of two keys holds the entries dated
    from the first key up to the second, and no other. *)
Lemma sl_between (a b : string) :
  String.ltb b a = false ->
  sl holidays (K holidays a) (K holidays b) = filter (between a b) holidays.
Proof.
  intros Hab. unfold sl. symmetry.
  destruct (searchDate_K holidays Hsorted a) as [_ (_ & Halo & Hahi)].
  destruct (searchDate_K holidays Hsorted b) as [_ (_ & Hblo & Hbhi)].
  apply SegmentFacts.filter_segment.
  - now apply K_mono.
  - intros i e Hi He. unfold between. now rewrite (Halo i e Hi He).
  - intros i e [Hi1 Hi2] He. unfold between.
    now rewrite (Hahi i e Hi1 He), (Hblo i e Hi2 He).
  - intros i e Hi He. unfold between.
    rewrite (Hbhi i e Hi He). apply andb_false_r.
Qed.

Lemma day_field_between (d : Z) :
  1 <= d <= 31 ->
  String.ltb (Fmt.d0 2 d) "01" = false /\ String.ltb (Fmt.d0 2 d) "99" = true.
Proof.
  intros Hd.
  pose proof (Enum.forallb_zrange
                (fun d => negb (String.ltb (Fmt.d0 2 d) "01") &&
                          String.ltb (Fmt.d0 2 d) "99") 1 31
                ltac:(vm_compute; reflexivity) d Hd) as H.
  cbv beta in H. apply andb_true_iff in H as [H1 H2].
  now apply negb_true_iff in H1.
Qed.

Lemma monthDay_field_between (m d : Z) :
  1 <= m <= 12 -> 1 <= d <= 31 ->
  String.ltb (Gap.monthDay m d) "01-01" = false /\
  String.ltb (Gap.monthDay m d) "12-99" = true.
Proof.
  intros Hm Hd.
  pose proof (Enum.forallb_zrange
                (fun m => forallb
                   (fun d => negb (String.ltb (Gap.monthDay m d) "01-01") &&
                             String.ltb (Gap.monthDay m d) "12-99")
                   (Enum.zrange 1 31)) 1 12
                ltac:(vm_compute; reflexivity) m Hm) as H.
  cbv beta in H.
  pose proof (Enum.forallb_zrange _ 1 31 H d Hd) as H'. cbv beta in H'.
  apply andb_true_iff in H' as [H1 H2].
  now apply negb_true_iff in H1.
Qed.

(** What follows the year and month of a calendar date is its day field. *)
Lemma calendar_day_field (year month : Z) (s r : string) :
  calendar_date s -> s = yearMonthPrefix year month ++ r ->
  exists d, 1 <= d <= 31 /\ r = Fmt.d0 2 d.
Proof.
  intros (y' & m' & d' & Hm & Hd & ->) Heq.
  unfold Fmt.date, yearMonthPrefix in Heq.
  rewrite !StrOrd.append_assoc in Heq. simpl in Heq.
  destruct (FmtFacts.d0_sep_inj 4 y' year _ _ ltac:(lia) Heq) as [_ Heq2].
  destruct (FmtFacts.d0_sep_inj 2 m' month _ _ ltac:(lia) Heq2) as [_ Heq3].
  exists d'. split; [exact Hd | now symmetry].
Qed.

(** What follows the year of a calendar date is its month and day. *)
Lemma calendar_monthDay_field (year : Z) (s r : string) :
  calendar_date s -> s = (Fmt.d0 4 year ++ "-") ++ r ->
  exists m d, 1 <= m <= 12 /\ 1 <= d <= 31 /\ r = Gap.monthDay m d.
Proof.
  intros (y' & m' & d' & Hm & Hd & ->) Heq.
  unfold Fmt.date in Heq.
  rewrite !StrOrd.append_assoc in Heq. simpl in Heq.
  destruct (FmtFacts.d0_sep_inj 4 y' year _ _ ltac:(lia) Heq) as [_ Heq2].
  exists m', d'. split; [exact Hm|]. split; [exact Hd | now symmetry].
Qed.

Lemma monthStart_prefix (year m : Z) :
  monthStart year m = yearMonthPrefix year m ++ "01".
Proof.
  unfold monthStart, yearMonthPrefix. now rewrite !StrOrd.append_assoc.
Qed.

Lemma monthEnd_prefix (year m : Z) :
  monthEnd year m = yearMonthPrefix year m ++ "99".
Proof.
  unfold monthEnd, yearMonthPrefix. now rewrite !StrOrd.append_assoc.
Qed.

(** For an entry of the table, lying between the keys of a month is
    starting with the year and month. *)
Lemma between_month (year m : Z) (e : Holiday) :
  In e holidays ->
  between (monthStart year m) (monthEnd year m) e =
  String.prefix (yearMonthPrefix year m) (Date e).
Proof.
  intros He. unfold between.
  rewrite monthStart_prefix, monthEnd_prefix.
  destruct (String.prefix (yearMonthPrefix year m) (Date e)) eqn:Hp.
  - apply StrOrd.prefix_inv in Hp. destruct Hp as [r Hr].
    rewrite Forall_forall in Hdates.
    destruct (calendar_day_field year m _ r (Hdates e He) Hr)
      as (d & Hd & ->).
    rewrite Hr, !StrOrd.ltb_app.
    destruct (day_field_between d Hd) as [-> ->]. reflexivity.
  - unfold String.ltb.
    rewrite (StrOrd.compare_not_prefix _ (Date e) "01" "99" Hp).
    now destruct (String.compare (Date e) (yearMonthPrefix year m ++ "99")).
Qed.

(** For an entry of the table, lying between the keys of a year is
    starting with the year. *)
Lemma between_year (year : Z) (e : Holiday) :
  In e holidays ->
  between (monthStart year 1) (monthEnd year 12) e =
  String.prefix (Fmt.d0 4 year ++ "-") (Date e).
Proof.
  intros He. unfold between.
  change (monthStart year 1) with ((Fmt.d0 4 year ++ "-") ++ "01-01").
  change (monthEnd year 12) with ((Fmt.d0 4 year ++ "-") ++ "12-99").
  destruct (String.prefix (Fmt.d0 4 year ++ "-") (Date e)) eqn:Hp.
  - apply StrOrd.prefix_inv in Hp. destruct Hp as [r Hr].
    rewrite Forall_forall in Hdates.
    destruct (calendar_monthDay_field year _ r (Hdates e He) Hr)
      as (m & d & Hm & Hd & ->).
    rewrite Hr, !StrOrd.ltb_app.
    destruct (monthDay_field_between m d Hm Hd) as [-> ->]. reflexivity.
  - unfold String.ltb.
    rewrite (StrOrd.compare_not_prefix _ (Date e) "01-01" "12-99" Hp).
    now destruct (String.compare (Date e) ((Fmt.d0 4 year ++ "-") ++ "12-99")).
Qed.

Lemma findHolidaysInMonth_filter (year month : Z) :
  findHolidaysInMonth holidays year month =
    Some (filter (fun h => String.prefix (yearMonthPrefix year month) (Date h))
                 holidays).
Proof.
  rewrite (findHolidaysInMonth_sl holidays Hsorted).
  rewrite sl_between.
  - f_equal. apply filter_ext_in. intros e He. now apply between_month.
  - rewrite monthStart_prefix, monthEnd_prefix, StrOrd.ltb_app. reflexivity.
Qed.

Lemma findHolidaysInYear_filter (year : Z) :
  findHolidaysInYear holidays year =
    Some (filter (fun h => String.prefix (Fmt.d0 4 year ++ "-") (Date h))
                 holidays).
Proof.
  rewrite (findHolidaysInYear_sl holidays Hsorted Hdates).
  rewrite sl_between.
  - f_equal. apply filter_ext_in. intros e He. now apply between_year.
  - change (monthStart year 1) with ((Fmt.d0 4 year ++ "-") ++ "01-01").
    change (monthEnd year 12) with ((Fmt.d0 4 year ++ "-") ++ "12-99").
    rewrite StrOrd.ltb_app. reflexivity.
Qed.

End StaticMore.

(** X7. On a table in sorted order whose dates are formatted calendar
    dates, [findHolidaysInMonth] returns, in table order, all the entries
    whose date starts with the ["YYYY-MM-"] of the request and no other
    entry, for every integer year and month; it does not panic. *)
Theorem findHolidaysInMonth_exact (holidays : list Holiday) (year month : Z) :
  date_sorted holidays ->
  Forall (fun h => calendar_date (Date h)) holidays ->
  findHolidaysInMonth holidays year month =
    Some (filter
            (fun h => String.prefix
                        ((Fmt.d0 4 year ++ "-") ++ (Fmt.d0 2 month ++ "-"))
                        (Date h))
            holidays).
Proof.
  intros Hs Hd. exact (findHolidaysInMonth_filter holidays Hs Hd year month).
Qed.

(** May 2023 in the table of 2023. *)
Lemma findHolidaysInMonth_exact_witness :
  date_sorted Sample.holidays /\
  Forall (fun h => calendar_date (Date h)) Sample.holidays /\
  findHolidaysInMonth Sample.holidays 2023 5 =
    Some [mkHoliday "2023-05-03" "憲法記念日";
          mkHoliday "2023-05-04" "みどりの日";
          mkHoliday "2023-05-05" "こどもの日"].
Proof.
  split; [exact Checks.sample_sorted|].
  split; [exact Checks.sample_calendar|].
  rewrite (findHolidaysInMonth_exact Sample.holidays 2023 5
             Checks.sample_sorted Checks.sample_calendar).
  vm_compute. reflexivity.
Defined.

(** X8. On a table in sorted order whose dates are formatted calendar
    dates, [findHolidaysInYear] returns, in table order, all the entries
    whose date starts with the ["YYYY-"] of the request and no other
    entry, for every integer year; it does not panic. *)
Theorem findHolidaysInYear_exact (holidays : list Holiday) (year : Z) :
  date_sorted holidays ->
  Forall (fun h => calendar_date (Date h)) holidays ->
  findHolidaysInYear holidays year =
    Some (filter (fun h => String.prefix (Fmt.d0 4 year ++ "-") (Date h))
                 holidays).
Proof.
  intros Hs Hd. exact (findHolidaysInYear_filter holidays Hs Hd year).
Qed.

(** 2022 in the table of 2023: no entry. *)
Lemma findHolidaysInYear_exact_witness :
  date_sorted Sample.holidays /\
  Forall (fun h => calendar_date (Date h)) Sample.holidays /\
  findHolidaysInYear Sample.holidays 2022 = Some [] /\
  findHolidaysInYear Sample.holidays 2023 = Some Sample.holidays.
Proof.
  split; [exact Checks.sample_sorted|].
  split; [exact Checks.sample_calendar|].
  rewrite !(fun y => findHolidaysInYear_exact Sample.holidays y
                       Checks.sample_sorted Checks.sample_calendar).
  split; vm_compute; reflexivity.
Defined.

(** X9. On such a table the single-date lookup and the month enumeration
    agree: a record [findHoliday] finds for a day of a month is in the list
    [findHolidaysInMonth] returns for that month and in the list
    [findHolidaysInYear] returns for that year; and every record of the
    month list is dated on one of the days 1 to 31 of the month, where
    [findHoliday] finds a record of that date. *)
Theorem findHoliday_agrees_with_month (holidays : list Holiday)
    (year month : Z) :
  date_sorted holidays ->
  Forall (fun h => calendar_date (Date h)) holidays ->
  exists ms ys,
    findHolidaysInMonth holidays year month = Some ms /\
    findHolidaysInYear holidays year = Some ys /\
    (forall day h,
       findHoliday holidays year month day = Some (h, true) ->
       In h ms /\ In h ys) /\
    (forall h, In h ms ->
       exists day h',
         1 <= day <= 31 /\ Date h = Fmt.date year month day /\
         findHoliday holidays year month day = Some (h', true) /\
         Date h' = Date h).
Proof.
  intros Hs Hd.
  rewrite (findHolidaysInMonth_filter holidays Hs Hd),
          (findHolidaysInYear_filter holidays Hs Hd).
  eexists _, _. split; [reflexivity|]. split; [reflexivity|]. split.
  - intros day h Hf.
    rewrite (findHoliday_find holidays year month day Hs) in Hf.
    destruct (find _ holidays) as [h0|] eqn:F; [|discriminate].
    injection Hf as <-.
    apply find_some in F as [Hin Heq]. apply String.eqb_eq in Heq.
    split; apply filter_In; (split; [exact Hin|]); rewrite Heq.
    + rewrite date_yearMonthPrefix. apply StrOrd.prefix_app.
    + unfold Fmt.date. rewrite <- StrOrd.append_assoc.
      apply StrOrd.prefix_app.
  - intros h Hh. apply filter_In in Hh as [Hin Hp].
    apply StrOrd.prefix_inv in Hp. destruct Hp as [r Hr].
    rewrite Forall_forall in Hd.
    destruct (calendar_day_field year month _ r (Hd h Hin) Hr)
      as (day & Hday & ->).
    rewrite <- date_yearMonthPrefix in Hr.
    pose proof (findHoliday_find holidays year month day Hs) as Hf.
    destruct (find _ holidays) as [h'|] eqn:F.
    + exists day, h'. apply find_some in F as [_ Heq].
      apply String.eqb_eq in Heq. repeat split; auto; try lia. congruence.
    + pose proof (find_none _ _ F h Hin) as Hne. cbv beta in Hne.
      rewrite Hr, String.eqb_refl in Hne. discriminate.
Qed.

(** The table of 2023 and its month of May. *)
Lemma findHoliday_agrees_with_month_witness :
  date_sorted Sample.holidays /\
  Forall (fun h => calendar_date (Date h)) Sample.holidays /\
  exists ms ys,
    findHolidaysInMonth Sample.holidays 2023 5 = Some ms /\
    findHolidaysInYear Sample.holidays 2023 = Some ys /\
    In (mkHoliday "2023-05-04" "みどりの日") ms /\
    In (mkHoliday "2023-05-04" "みどりの日") ys.
Proof.
  split; [exact Checks.sample_sorted|].
  split; [exact Checks.sample_calendar|].
  destruct (findHoliday_agrees_with_month Sample.holidays 2023 5
              Checks.sample_sorted Checks.sample_calendar)
    as (ms & ys & Hms & Hys & Hfound & _).
  exists ms, ys. split; [exact Hms|]. split; [exact Hys|].
  apply (Hfound 4). vm_compute. reflexivity.
Defined.

(** ** [withDate] meets what [sort.Sort] asks of a [sort.Interface] *)

Module SwapFacts.

Import withDate.

Lemma assign_nth_error (s : list Holiday) (i : nat) (v : Holiday) :
  (i < List.length s)%nat ->
  exists s', assign s i v = Some s' /\
             List.length s' = List.length s /\
             forall k, nth_error s' k =
                       if (k =? i)%nat then Some v else nth_error s k.
Proof.
  intros Hi. unfold assign.
  apply Nat.ltb_lt in Hi as Hb. rewrite Hb.
  eexists. split; [reflexivity|].
  assert (Hlen : List.length (firstn i s) = i)
    by (rewrite length_firstn; lia).
  split.
  - rewrite length_app. cbn [List.length].
    rewrite Hlen, length_skipn. lia.
  - intros k. destruct (k =? i)%nat eqn:E.
    + apply Nat.eqb_eq in E. subst k.
      rewrite nth_error_app2 by lia. now rewrite Hlen, Nat.sub_diag.
    + apply Nat.eqb_neq in E.
      destruct (Nat.lt_ge_cases k i) as [Hk|Hk].
      * rewrite nth_error_app1 by lia.
        rewrite nth_error_firstn.
        apply Nat.ltb_lt in Hk. now rewrite Hk.
      * rewrite nth_error_app2 by lia. rewrite Hlen.
        destruct (k - i)%nat as [|n] eqn:D; [lia|].
        cbn [nth_error]. rewrite nth_error_skipn. f_equal. lia.
Qed.

Lemma assign_out_of_range (s : list Holiday) (i : nat) (v : Holiday) :
  (List.length s <= i)%nat -> assign s i v = None.
Proof.
  intros Hi. unfold assign. apply Nat.ltb_ge in Hi. now rewrite Hi.
Qed.

(** The exchange of [i] and [j] on indices. *)
Definition exchange (i j k : nat) : nat :=
  if (k =? i)%nat then j else if (k =? j)%nat then i else k.

Lemma exchange_injective (i j : nat) : Finite.Injective (exchange i j).
Proof.
  intros a b. unfold exchange.
  destruct (a =? i)%nat eqn:Ai; destruct (a =? j)%nat eqn:Aj;
    destruct (b =? i)%nat eqn:Bi; destruct (b =? j)%nat eqn:Bj;
    rewrite ?Nat.eqb_eq, ?Nat.eqb_neq in *; lia.
Qed.

Lemma Swap_nth_error (s : list Holiday) (i j : nat) :
  (i < List.length s)%nat -> (j < List.length s)%nat ->
  exists s', Swap s i j = Some s' /\
             List.length s' = List.length s /\
             forall k, nth_error s' k = nth_error s (exchange i j k).
Proof.
  intros Hi Hj. unfold Swap, index.
  destruct (nth_error s j) as [a|] eqn:Ea;
    [|apply nth_error_None in Ea; lia].
  destruct (nth_error s i) as [b|] eqn:Eb;
    [|apply nth_error_None in Eb; lia].
  cbn [bind].
  destruct (assign_nth_error s i a Hi) as (s1 & -> & Hl1 & Hn1).
  cbn [bind].
  destruct (assign_nth_error s1 j b ltac:(lia)) as (s2 & -> & Hl2 & Hn2).
  exists s2. split; [reflexivity|]. split; [lia|].
  intros k. rewrite Hn2, Hn1. unfold exchange.
  destruct (k =? j)%nat eqn:Kj; destruct (k =? i)%nat eqn:Ki;
    rewrite ?Nat.eqb_eq, ?Nat.eqb_neq in *; subst; congruence.
Qed.

End SwapFacts.

(** X10. [Less] orders the records by date as [sort.Sort] requires of a
    [sort.Interface]: no record is less than itself, two records are
    never each less than the other, less is transitive, and so is "neither
    is less"; two records of which neither is less carry the same date. *)
Theorem Less_strict_weak_order (a b c : Holiday) :
  Less a a = false /\
  (Less a b = true -> Less b a = false) /\
  (Less a b = true -> Less b c = true -> Less a c = true) /\
  (Less a b = false -> Less b c = false -> Less a c = false) /\
  (Less a b = false -> Less b a = false -> Date a = Date b).
Proof.
  unfold Less. split; [apply StrOrd.ltb_irrefl|].
  split; [apply StrOrd.ltb_asym|]. split.
  - intros Hab Hbc.
    apply (StrOrd.ltb_leb_trans _ _ _ Hab). now apply StrOrd.ltb_asym.
  - split; [apply StrOrd.geb_trans | apply StrOrd.ltb_false_antisym].
Qed.

(** X11. [Swap(i, j)] with both indices in range exchanges the records at
    [i] and [j] and touches no other: the length is kept, the result is a
    rearrangement of the slice, and a second [Swap(i, j)] restores it. With
    an index out of range it panics. *)
Theorem Swap_exchanges (s : list Holiday) (i j : nat) :
  ((i < withDate.Len s)%nat /\ (j < withDate.Len s)%nat ->
   exists s',
     withDate.Swap s i j = Some s' /\
     withDate.Len s' = withDate.Len s /\
     Permutation s s' /\
     nth_error s' i = nth_error s j /\
     nth_error s' j = nth_error s i /\
     (forall k, k <> i -> k <> j -> nth_error s' k = nth_error s k) /\
     withDate.Swap s' i j = Some s) /\
  ((withDate.Len s <= i)%nat \/ (withDate.Len s <= j)%nat ->
   withDate.Swap s i j = None).
Proof.
  unfold withDate.Len. split.
  - intros [Hi Hj].
    destruct (SwapFacts.Swap_nth_error s i j Hi Hj) as (s' & Hs' & Hl & Hn).
    exists s'. split; [exact Hs'|]. split; [exact Hl|].
    assert (Hex : forall k, SwapFacts.exchange i j (SwapFacts.exchange i j k) = k).
    { intros k. unfold SwapFacts.exchange.
      destruct (Nat.eqb_spec k i); destruct (Nat.eqb_spec k j); cbv iota;
        repeat match goal with
               | |- context [(?x =? ?y)%nat] =>
                   destruct (Nat.eqb_spec x y); cbv iota
               end; lia. }
    split.
    { apply Permutation_nth_error. split; [now symmetry|].
      exists (SwapFacts.exchange i j).
      split; [apply SwapFacts.exchange_injective | exact Hn]. }
    split.
    { rewrite Hn. unfold SwapFacts.exchange. now rewrite Nat.eqb_refl. }
    split.
    { rewrite Hn. unfold SwapFacts.exchange. rewrite Nat.eqb_refl.
      destruct (j =? i)%nat eqn:E; [|reflexivity].
      apply Nat.eqb_eq in E. now subst. }
    split.
    { intros k Hki Hkj. rewrite Hn. unfold SwapFacts.exchange.
      apply Nat.eqb_neq in Hki, Hkj. now rewrite Hki, Hkj. }
    destruct (SwapFacts.Swap_nth_error s' i j ltac:(lia) ltac:(lia))
      as (s'' & Hs'' & Hl' & Hn').
    rewrite Hs''. f_equal. apply nth_error_ext.
    intros k. now rewrite Hn', Hn, Hex.
  - intros Hout. unfold withDate.Swap, index.
    destruct (nth_error s j) as [a|] eqn:Ea; [|reflexivity].
    destruct (nth_error s i) as [b|] eqn:Eb; [|reflexivity].
    assert (i < List.length s)%nat by (apply nth_error_Some; congruence).
    assert (j < List.length s)%nat by (apply nth_error_Some; congruence).
    lia.
Qed.

(** ** The order of the dates is the order of the calendar *)

Module DateOrd.

Lemma d0_4_split (y : Z) :
  0 <= y <= 9999 ->
  Fmt.d0 4 y = Fmt.d0 2 (y / 100) ++ Fmt.d0 2 (y mod 100).
Proof.
  intros Hy. apply String.eqb_eq.
  apply (Enum.forallb_zrange
           (fun y => String.eqb (Fmt.d0 4 y)
                       (Fmt.d0 2 (y / 100) ++ Fmt.d0 2 (y mod 100)))
           0 9999);
    [vm_compute; reflexivity | exact Hy].
Qed.

Lemma d0_4_length (y : Z) :
  0 <= y <= 9999 -> String.length (Fmt.d0 4 y) = 4%nat.
Proof.
  intros Hy. apply Nat.eqb_eq.
  apply (Enum.forallb_zrange
           (fun y => (String.length (Fmt.d0 4 y) =? 4)%nat) 0 9999);
    [vm_compute; reflexivity | exact Hy].
Qed.

(** Four-digit fields compare as their numbers do. *)
Lemma d0_4_compare (y y' : Z) :
  0 <= y <= 9999 -> 0 <= y' <= 9999 ->
  String.compare (Fmt.d0 4 y) (Fmt.d0 4 y') = (y ?= y').
Proof.
  intros Hy Hy'.
  pose proof (Z.div_mod y 100 ltac:(lia)) as E.
  pose proof (Z.div_mod y' 100 ltac:(lia)) as E'.
  pose proof (Z.mod_pos_bound y 100 ltac:(lia)) as B.
  pose proof (Z.mod_pos_bound y' 100 ltac:(lia)) as B'.
  assert (Hh : 0 <= y / 100 < 100)
    by (split; [apply Z.div_pos; lia | apply Z.div_lt_upper_bound; lia]).
  assert (Hh' : 0 <= y' / 100 < 100)
    by (split; [apply Z.div_pos; lia | apply Z.div_lt_upper_bound; lia]).
  rewrite (d0_4_split y Hy), (d0_4_split y' Hy').
  rewrite BlockOrd.compare_blocks
    by (rewrite !BlockOrd.d0_2_length; [reflexivity | lia | lia]).
  rewrite !BlockOrd.d0_2_compare by lia.
  destruct (Z.compare_spec (y / 100) (y' / 100)) as [H|H|H];
    destruct (Z.compare_spec (y mod 100) (y' mod 100)) as [L|L|L];
    symmetry;
    first [ apply Z.compare_eq_iff | apply Z.compare_lt_iff
          | apply Z.compare_gt_iff ]; lia.
Qed.

(** Two formatted dates compare as their years, then their months, then
    their days do. *)
Lemma date_compare (y m d y' m' d' : Z) :
  0 <= y <= 9999 -> 0 <= y' <= 9999 ->
  0 <= m <= 99 -> 0 <= m' <= 99 -> 0 <= d <= 99 -> 0 <= d' <= 99 ->
  String.compare (Fmt.date y m d) (Fmt.date y' m' d') =
    match y ?= y' with
    | Eq => match m ?= m' with
            | Eq => d ?= d'
            | c => c
            end
    | c => c
    end.
Proof.
  intros Hy Hy' Hm Hm' Hd Hd'. unfold Fmt.date.
  rewrite BlockOrd.compare_blocks
    by (rewrite !d0_4_length; [reflexivity | lia | lia]).
  rewrite d0_4_compare by lia.
  destruct (y ?= y'); try reflexivity.
  rewrite (StrOrd.compare_app "-").
  rewrite BlockOrd.compare_blocks
    by (rewrite !BlockOrd.d0_2_length; [reflexivity | lia | lia]).
  rewrite BlockOrd.d0_2_compare by lia.
  destruct (m ?= m'); try reflexivity.
  rewrite (StrOrd.compare_app "-").
  now apply BlockOrd.d0_2_compare.
Qed.

End DateOrd.

(** X12. For years 0 to 9999 and month and day fields 0 to 99, the order
    [Less] puts on two records with formatted dates is the order of the
    calendar: the first is less exactly when its year is smaller, or the
    years are equal and its month is smaller, or those are equal and its
    day is smaller; and two formatted dates are the same text only for the
    same year, month and day. *)
Theorem Less_is_chronological (y m d y' m' d' : Z) (name name' : string) :
  0 <= y <= 9999 -> 0 <= y' <= 9999 ->
  0 <= m <= 99 -> 0 <= m' <= 99 -> 0 <= d <= 99 -> 0 <= d' <= 99 ->
  (Less (mkHoliday (Fmt.date y m d) name) (mkHoliday (Fmt.date y' m' d') name')
     = true <->
   y < y' \/ (y = y' /\ (m < m' \/ (m = m' /\ d < d')))) /\
  (Fmt.date y m d = Fmt.date y' m' d' <-> y = y' /\ m = m' /\ d = d').
Proof.
  intros Hy Hy' Hm Hm' Hd Hd'.
  pose proof (DateOrd.date_compare y m d y' m' d' Hy Hy' Hm Hm' Hd Hd') as C.
  unfold Less, String.ltb. cbn [Date]. split.
  - rewrite C.
    destruct (Z.compare_spec y y'); destruct (Z.compare_spec m m');
      destruct (Z.compare_spec d d');
      split; intros Hlt; try discriminate; try reflexivity; lia.
  - split.
    + intros E. rewrite E, StrOrd.compare_refl in C.
      destruct (Z.compare_spec y y'); destruct (Z.compare_spec m m');
        destruct (Z.compare_spec d d'); try discriminate; auto.
    + now intros (-> & -> & ->).
Qed.

(** Mountain Day 2021 (8 August) is before Respect for the Aged Day 2021
    (20 September). *)
Lemma Less_is_chronological_witness :
  Less (mkHoliday (Fmt.date 2021 8 8) "山の日")
       (mkHoliday (Fmt.date 2021 9 20) "敬老の日") = true.
Proof.
  apply (Less_is_chronological 2021 8 8 2021 9 20 "山の日" "敬老の日");
    lia.
Defined.

(** ** The generator *)

Module SplitFacts.

(** No byte of the string is [sep]. *)
Fixpoint lacks (sep : ascii) (s : string) : bool :=
  match s with
  | EmptyString => true
  | String c t => negb (Ascii.eqb c sep) && lacks sep t
  end.

Lemma lacks_app (sep : ascii) (a b : string) :
  lacks sep (a ++ b) = lacks sep a && lacks sep b.
Proof.
  induction a as [|c a IH]; simpl; [reflexivity|].
  now rewrite IH, andb_assoc.
Qed.

Lemma Split_nonempty (s : string) (sep : ascii) : Strings.Split s sep <> [].
Proof.
  destruct s as [|c t]; simpl; [discriminate|].
  destruct (Ascii.eqb c sep); [discriminate|].
  destruct (Strings.Split t sep); discriminate.
Qed.

(** A piece without separator, followed by a separator, is the first
    piece of the split. *)
Lemma Split_piece (sep : ascii) (a rest : string) :
  lacks sep a = true ->
  Strings.Split (a ++ String sep rest) sep = a :: Strings.Split rest sep.
Proof.
  induction a as [|c a IH]; intros H; simpl in *.
  - now rewrite Ascii.eqb_refl.
  - apply andb_true_iff in H as [Hc Ha].
    apply negb_true_iff in Hc. rewrite Hc, (IH Ha). reflexivity.
Qed.

Lemma Split_last (sep : ascii) (a : string) :
  lacks sep a = true -> Strings.Split a sep = [a].
Proof.
  induction a as [|c a IH]; intros H; simpl in *; [reflexivity|].
  apply andb_true_iff in H as [Hc Ha].
  apply negb_true_iff in Hc. rewrite Hc, (IH Ha). reflexivity.
Qed.

Lemma lacks_slash_uint (d : Decimal.uint) :
  lacks "/" (NilEmpty.string_of_uint d) = true.
Proof. induction d; simpl; auto. Qed.

Lemma lacks_slash_zeros (k : nat) : lacks "/" (Fmt.zeros k) = true.
Proof. induction k; simpl; auto. Qed.

(** A formatted number holds no slash. *)
Lemma lacks_slash_d0 (w : nat) (z : Z) : lacks "/" (Fmt.d0 w z) = true.
Proof.
  unfold Fmt.d0, Fmt.pad0, Fmt.digits.
  destruct (z <? 0); cbn [lacks];
    rewrite lacks_app, lacks_slash_zeros, lacks_slash_uint; reflexivity.
Qed.

Lemma lacks_dash (s : string) : lacks "-" s = FmtFacts.dashfree s.
Proof. induction s as [|c s IH]; simpl; [reflexivity | now rewrite IH]. Qed.

End SplitFacts.

Module AtoiFacts.

Import Strconv.

(** Every byte of the string is a decimal digit. *)
Fixpoint digitsOnly (s : string) : bool :=
  match s with
  | EmptyString => true
  | String c t =>
      match digitVal c with
      | Some _ => digitsOnly t
      | None => false
      end
  end.

Lemma digitsOnly_app (a b : string) :
  digitsOnly (a ++ b) = digitsOnly a && digitsOnly b.
Proof.
  induction a as [|c a IH]; simpl; [reflexivity|].
  destruct (digitVal c); [exact IH | reflexivity].
Qed.

Lemma digitsOnly_uint (d : Decimal.uint) :
  digitsOnly (NilEmpty.string_of_uint d) = true.
Proof. induction d; simpl; auto. Qed.

Lemma digitsOnly_zeros (k : nat) : digitsOnly (Fmt.zeros k) = true.
Proof. induction k; simpl; auto. Qed.

Lemma parse_uint_acc (d : Decimal.uint) (acc : positive) :
  parseDigits (NilEmpty.string_of_uint d) (Zpos acc) =
    Some (Zpos (Pos.of_uint_acc d acc)).
Proof.
  revert acc.
  induction d; intros acc; cbn [NilEmpty.string_of_uint parseDigits];
    [reflexivity|..];
    match goal with
    | |- context [digitVal ?c] =>
        change (digitVal c) with (Some (Z.of_N (N_of_ascii c) - 48))
    end;
    cbn [Pos.of_uint_acc];
    match goal with
    | |- parseDigits _ ?z = Some (Zpos (Pos.of_uint_acc _ ?p)) =>
        replace z with (Zpos p)
          by (rewrite ?Pos2Z.inj_add, Pos2Z.inj_mul;
              simpl (Z.of_N (N_of_ascii _) - 48); lia)
    end; apply IHd.
Qed.

Lemma parse_uint (d : Decimal.uint) :
  parseDigits (NilEmpty.string_of_uint d) 0 = Some (Z.of_N (Pos.of_uint d)).
Proof.
  induction d; cbn [NilEmpty.string_of_uint parseDigits Pos.of_uint];
    [reflexivity|..];
    match goal with
    | |- context [digitVal ?c] =>
        change (digitVal c) with (Some (Z.of_N (N_of_ascii c) - 48))
    end;
    first [ exact IHd | apply parse_uint_acc ].
Qed.

Lemma parse_zeros (k : nat) (s : string) :
  parseDigits (Fmt.zeros k ++ s) 0 = parseDigits s 0.
Proof. induction k as [|k IH]; simpl; [reflexivity | exact IH]. Qed.

(** Reading back the padded digits of a number gives the number. *)
Lemma parse_pad0 (w : nat) (n : N) :
  parseDigits (Fmt.pad0 w (Fmt.digits n)) 0 = Some (Z.of_N n).
Proof.
  unfold Fmt.pad0, Fmt.digits.
  rewrite parse_zeros, parse_uint.
  change (Pos.of_uint (N.to_uint n)) with (N.of_uint (N.to_uint n)).
  now rewrite DecimalN.Unsigned.of_to.
Qed.

Lemma pad0_nonempty (w : nat) (n : N) : Fmt.pad0 w (Fmt.digits n) <> "".
Proof.
  unfold Fmt.pad0. pose proof (FmtFacts.uint_nonempty n) as H.
  destruct (Fmt.zeros _); simpl; [exact H | discriminate].
Qed.

Lemma pad0_digitsOnly (w : nat) (n : N) :
  digitsOnly (Fmt.pad0 w (Fmt.digits n)) = true.
Proof.
  unfold Fmt.pad0, Fmt.digits.
  now rewrite digitsOnly_app, digitsOnly_zeros, digitsOnly_uint.
Qed.

(** [Atoi] reads back what [%0<w>d] prints, for every [int]. *)
Lemma Atoi_d0 (w : nat) (z : Z) :
  Int.in_range z -> Atoi (Fmt.d0 w z) = Some z.
Proof.
  unfold Int.in_range. intros Hz. unfold Fmt.d0.
  destruct (z <? 0) eqn:Hneg.
  - apply Z.ltb_lt in Hneg. unfold Atoi.
    change (Ascii.eqb "-" "-") with true. cbn [orb].
    pose proof (pad0_nonempty (w - 1) (Z.to_N (- z))) as Hne.
    rewrite parse_pad0.
    destruct (Fmt.pad0 (w - 1) (Fmt.digits (Z.to_N (- z)))); [congruence|].
    rewrite Z2N.id by lia. rewrite Z.opp_involutive.
    replace ((- 2 ^ 63 <=? z) && (z <? 2 ^ 63)) with true; [reflexivity|].
    symmetry. apply andb_true_iff. split; [apply Z.leb_le | apply Z.ltb_lt]; lia.
  - apply Z.ltb_ge in Hneg.
    pose proof (pad0_nonempty w (Z.to_N z)) as Hne.
    pose proof (pad0_digitsOnly w (Z.to_N z)) as Hdo.
    pose proof (parse_pad0 w (Z.to_N z)) as Hp.
    destruct (Fmt.pad0 w (Fmt.digits (Z.to_N z))) as [|c t] eqn:E;
      [congruence|].
    unfold Atoi.
    assert (Hc : Ascii.eqb c "-" = false /\ Ascii.eqb c "+" = false).
    { cbn [digitsOnly] in Hdo.
      split; apply Ascii.eqb_neq; intros ->; discriminate. }
    destruct Hc as [-> ->]. cbn [orb].
    rewrite Hp. rewrite Z2N.id by lia.
    replace ((- 2 ^ 63 <=? z) && (z <? 2 ^ 63)) with true; [reflexivity|].
    symmetry. apply andb_true_iff. split; [apply Z.leb_le | apply Z.ltb_lt]; lia.
Qed.

End AtoiFacts.

Module GenFacts.

Lemma Split_slash (a rest : string) :
  SplitFacts.lacks "/" a = true ->
  Strings.Split (a ++ "/" ++ rest) "/" = a :: Strings.Split rest "/".
Proof. exact (SplitFacts.Split_piece "/" a rest). Qed.

Lemma Split_dash (a rest : string) :
  SplitFacts.lacks "-" a = true ->
  Strings.Split (a ++ "-" ++ rest) "-" = a :: Strings.Split rest "-".
Proof. exact (SplitFacts.Split_piece "-" a rest). Qed.

(** [formatDate] on three formatted numbers, whatever follows them. *)
Lemma formatDate_fields (wy wm wd : nat) (y m d : Z) (pieces : list string) :
  Int.in_range y -> Int.in_range m -> Int.in_range d ->
  forall s,
    Strings.Split s "/" = Fmt.d0 wy y :: Fmt.d0 wm m :: Fmt.d0 wd d :: pieces ->
    Gen.formatDate s = Some (Fmt.date y m d).
Proof.
  intros Hy Hm Hd s Hs. unfold Gen.formatDate. rewrite Hs.
  cbn [index nth_error bind].
  rewrite !AtoiFacts.Atoi_d0 by assumption. reflexivity.
Qed.

Lemma formatDate_csv (y m d : Z) :
  Int.in_range y -> Int.in_range m -> Int.in_range d ->
  Gen.formatDate (Csv.date y m d) = Some (Fmt.date y m d).
Proof.
  intros Hy Hm Hd.
  apply (formatDate_fields 0 0 0 y m d [] Hy Hm Hd).
  unfold Csv.date.
  rewrite !Split_slash by apply SplitFacts.lacks_slash_d0.
  rewrite SplitFacts.Split_last by apply SplitFacts.lacks_slash_d0.
  reflexivity.
Qed.

(** The loop takes the rows that fit and goes on with what follows. *)
Lemma readRecords_rows (rows : list (Z * Z * Z * string))
    (rest : list EncodingCsv.read) (acc : list Holiday) :
  Forall Csv.fits rows ->
  Gen.readRecords (Csv.reads rows ++ rest) acc =
    Gen.readRecords rest (acc ++ map Csv.holiday rows)%list.
Proof.
  intros H. revert acc.
  induction H as [|[[[y m] d] name] rows (Hy & Hm & Hd) _ IH]; intros acc.
  - cbn. now rewrite app_nil_r.
  - unfold Csv.reads in *.
    cbn [map app Gen.readRecords Csv.record index nth_error bind].
    rewrite (formatDate_csv y m d Hy Hm Hd). cbn [bind].
    rewrite IH. cbn [Csv.holiday map]. now rewrite <- app_assoc.
Qed.

(** Of two formatted dates in order, the years are in order. *)
Lemma date_order_year (y m d y' m' d' : Z) :
  0 <= y <= 9999 -> 0 <= y' <= 9999 ->
  0 <= m <= 99 -> 0 <= m' <= 99 -> 0 <= d <= 99 -> 0 <= d' <= 99 ->
  String.ltb (Fmt.date y' m' d') (Fmt.date y m d) = false -> y <= y'.
Proof.
  intros Hy Hy' Hm Hm' Hd Hd' H.
  unfold String.ltb in H.
  rewrite (DateOrd.date_compare y' m' d' y m d) in H by assumption.
  destruct (Z.compare_spec y' y); first [lia | discriminate].
Qed.

(** The text before the first dash of a formatted date whose year is not
    negative is the year field. *)
Lemma yearField (y m d : Z) :
  0 <= y ->
  index (Strings.Split (Fmt.date y m d) "-") 0 = Some (Fmt.d0 4 y).
Proof.
  intros Hy. unfold Fmt.date. rewrite Split_dash; [reflexivity|].
  rewrite SplitFacts.lacks_dash. unfold Fmt.d0.
  apply Z.ltb_ge in Hy. rewrite Hy. apply FmtFacts.dashfree_pad0.
Qed.

End GenFacts.

(** X13. [formatDate] reads back what [%d] prints: for a year, a month and
    a day that fit an [int], written in decimal with any zero padding and
    separated by slashes, it returns the date ["%04d-%02d-%02d"] of the
    three; text after a third slash is ignored. *)
Theorem formatDate_normalises (wy wm wd : nat) (y m d : Z) (rest : string) :
  Int.in_range y -> Int.in_range m -> Int.in_range d ->
  Gen.formatDate (Fmt.d0 wy y ++ "/" ++ Fmt.d0 wm m ++ "/" ++ Fmt.d0 wd d)
    = Some (Fmt.date y m d) /\
  Gen.formatDate
    (Fmt.d0 wy y ++ "/" ++ Fmt.d0 wm m ++ "/" ++ Fmt.d0 wd d ++ "/" ++ rest)
    = Some (Fmt.date y m d).
Proof.
  intros Hy Hm Hd. split.
  - apply (GenFacts.formatDate_fields wy wm wd y m d [] Hy Hm Hd).
    rewrite !GenFacts.Split_slash by apply SplitFacts.lacks_slash_d0.
    rewrite SplitFacts.Split_last by apply SplitFacts.lacks_slash_d0.
    reflexivity.
  - apply (GenFacts.formatDate_fields wy wm wd y m d
             (Strings.Split rest "/") Hy Hm Hd).
    rewrite !GenFacts.Split_slash by apply SplitFacts.lacks_slash_d0.
    reflexivity.
Qed.

(** The date of the source comment, 2021/1/1, and the same date padded. *)
Lemma formatDate_normalises_witness :
  Gen.formatDate "2021/1/1" = Some "2021-01-01" /\
  Gen.formatDate "2021/01/01" = Some "2021-01-01".
Proof.
  assert (H : Int.in_range 2021 /\ Int.in_range 1)
    by (unfold Int.in_range; lia).
  destruct H as [H1 H2]. split.
  - exact (proj1 (formatDate_normalises 0 0 0 2021 1 1 "" H1 H2 H2)).
  - exact (proj1 (formatDate_normalises 4 2 2 2021 1 1 "" H1 H2 H2)).
Defined.

(** X14. From rows whose fields fit an [int], each dated y/m/d and read
    without an error, the generator builds without a panic and without
    returning an error a table that holds one entry per row,
    dated ["%04d-%02d-%02d"] and named as the row, in sorted order; in this
    table [findHoliday] finds a record for the date of every row; and when
    the months and days of the rows are those of a calendar, the dates of
    the table are formatted calendar dates. *)
Theorem generated_table_serves_lookups (sorter : Sorter)
    (rows : list (Z * Z * Z * string)) :
  Forall Csv.fits rows ->
  exists table,
    Gen.sortedHolidays (Csv.reads rows) = Some (inr table) /\
    date_sorted table /\
    Permutation (map Csv.holiday rows) table /\
    (forall y m d name, In (y, m, d, name) rows ->
       exists h, findHoliday table y m d = Some (h, true) /\
                 Date h = Fmt.date y m d) /\
    (Forall Csv.calendar rows ->
     Forall (fun h => calendar_date (Date h)) table).
Proof.
  intros Hfit. unfold Gen.sortedHolidays.
  rewrite <- (app_nil_r (Csv.reads rows)).
  rewrite (GenFacts.readRecords_rows rows [] [] Hfit).
  cbn [Gen.readRecords ret bind app].
  eexists. split; [reflexivity|].
  split; [apply Sort_sorted|]. split; [apply Sort_perm|]. split.
  - intros y m d name Hin.
    rewrite (findHoliday_find _ y m d (Sort_sorted _)).
    assert (Hh : In (mkHoliday (Fmt.date y m d) name)
                    (Sort (map Csv.holiday rows))).
    { apply (Permutation_in _ (Sort_perm _)).
      apply in_map_iff. now exists (y, m, d, name). }
    destruct (find _ (Sort (map Csv.holiday rows))) as [h|] eqn:F.
    + exists h. split; [reflexivity|].
      apply find_some in F as [_ Heq]. now apply String.eqb_eq.
    + pose proof (find_none _ _ F _ Hh) as Hne. cbv beta in Hne.
      cbn [Date] in Hne. rewrite String.eqb_refl in Hne. discriminate.
  - intros Hcal. apply Forall_forall. intros h Hh.
    apply (Permutation_in _ (Permutation_sym (Sort_perm _))) in Hh.
    apply in_map_iff in Hh as ([[[y m] d] name] & <- & Hrow).
    rewrite Forall_forall in Hcal. destruct (Hcal _ Hrow) as [Hm Hd].
    exists y, m, d. auto.
Qed.

(** Two rows of 2023, out of order. *)
Lemma generated_table_serves_lookups_witness :
  Forall Csv.fits [(2023, 5, 3, "憲法記念日"); (2023, 1, 1, "元日")] /\
  Gen.sortedHolidays
    [EncodingCsv.Record ["2023/5/3"; "憲法記念日"];
     EncodingCsv.Record ["2023/1/1"; "元日"]]
    = Some (inr [mkHoliday "2023-01-01" "元日";
                 mkHoliday "2023-05-03" "憲法記念日"]) /\
  exists table,
    Gen.sortedHolidays
      [EncodingCsv.Record ["2023/5/3"; "憲法記念日"];
       EncodingCsv.Record ["2023/1/1"; "元日"]]
      = Some (inr table) /\
    exists h, findHoliday table 2023 5 3 = Some (h, true) /\
              Date h = Fmt.date 2023 5 3.
Proof.
  assert (Hfit : Forall Csv.fits
                   [(2023, 5, 3, "憲法記念日"); (2023, 1, 1, "元日")]).
  { repeat constructor; unfold Int.in_range; lia. }
  split; [exact Hfit|]. split; [vm_compute; reflexivity|].
  destruct (generated_table_serves_lookups insertionSorter _ Hfit)
    as (table & Ht & _ & _ & Hfind & _).
  exists table. split; [exact Ht|].
  apply (Hfind 2023 5 3 "憲法記念日"). simpl. tauto.
Defined.

(** X15. The first result of the reader that the loop cannot use decides
    how the generator ends, whatever follows it. After rows it reads (fields
    that fit an [int], each dated y/m/d): an error of the reader, such as
    [ErrFieldCount] for a line whose number of fields is not that of the
    header, makes [formatHolidays] return that error, without a panic; a
    record of a date and a name whose date [formatDate] panics on (fewer
    than three fields between slashes, or a field that is not an [int] in
    decimal) makes it panic. In both cases no table is built. *)
Theorem generator_stops_at_first_unusable_read (sorter : Sorter)
    (rows : list (Z * Z * Z * string)) (rest : list EncodingCsv.read) :
  Forall Csv.fits rows ->
  (forall err,
     Gen.sortedHolidays (Csv.reads rows ++ EncodingCsv.Failed err :: rest)
       = Some (inl err)) /\
  (forall date name,
     Gen.formatDate date = None ->
     Gen.sortedHolidays
       (Csv.reads rows ++ EncodingCsv.Record [date; name] :: rest) = None).
Proof.
  intros Hfit. unfold Gen.sortedHolidays. split.
  - intros err. rewrite (GenFacts.readRecords_rows rows _ [] Hfit).
    reflexivity.
  - intros date name Hf. rewrite (GenFacts.readRecords_rows rows _ [] Hfit).
    cbn [Gen.readRecords index nth_error bind]. rewrite Hf. reflexivity.
Qed.

(** After a good row: a line with three fields, for which the reader
    returns [ErrFieldCount], and a date written with dashes. *)
Lemma generator_stops_at_first_unusable_read_witness :
  Forall Csv.fits [(2023, 1, 1, "元日")] /\
  Gen.formatDate "2023-01-02" = None /\
  Gen.sortedHolidays
    [EncodingCsv.Record ["2023/1/1"; "元日"];
     EncodingCsv.Failed EncodingCsv.ErrFieldCount;
     EncodingCsv.Record ["2023-01-02"; "休日"]]
    = Some (inl EncodingCsv.ErrFieldCount) /\
  Gen.sortedHolidays
    [EncodingCsv.Record ["2023/1/1"; "元日"];
     EncodingCsv.Record ["2023-01-02"; "休日"]] = None.
Proof.
  assert (Hfit : Forall Csv.fits [(2023, 1, 1, "元日")]).
  { repeat constructor; unfold Int.in_range; lia. }
  assert (Hf : Gen.formatDate "2023-01-02" = None) by (vm_compute; reflexivity).
  split; [exact Hfit|]. split; [exact Hf|]. split.
  - exact (proj1 (generator_stops_at_first_unusable_read insertionSorter
                    [(2023, 1, 1, "元日")]
                    [EncodingCsv.Record ["2023-01-02"; "休日"]] Hfit)
                 EncodingCsv.ErrFieldCount).
  - exact (proj2 (generator_stops_at_first_unusable_read insertionSorter
                    [(2023, 1, 1, "元日")] [] Hfit)
                 "2023-01-02" "休日" Hf).
Defined.

(** X16. On an empty slice the generator panics where it computes the
    year range. On a table in sorted order, not empty, whose dates are
    formatted with years 0 to 9999, the two year texts it prints are the
    formatted years of the first and the last entry, and the year of every
    entry lies between the two. *)
Theorem yearRange_brackets_table :
  Gen.yearRange [] = None /\
  forall table,
    table <> [] -> date_sorted table ->
    Forall (fun h => four_digit_date (Date h)) table ->
    exists lo hi,
      0 <= lo <= hi /\ hi <= 9999 /\
      Gen.yearRange table = Some (Fmt.d0 4 lo, Fmt.d0 4 hi) /\
      forall h, In h table ->
        exists y m d, Date h = Fmt.date y m d /\ lo <= y <= hi.
Proof.
  split; [reflexivity|].
  intros table Hne Hs Hfd.
  destruct table as [|first rest]; [congruence|].
  set (table := first :: rest) in *.
  assert (Hlen : (0 < List.length table)%nat) by (simpl; lia).
  destruct (nth_error table (List.length table - 1)) as [last|] eqn:El;
    [|apply nth_error_None in El; lia].
  rewrite Forall_forall in Hfd.
  destruct (Hfd first ltac:(now left))
    as (y0 & m0 & d0 & Hy0 & Hm0 & Hd0 & E0).
  destruct (Hfd last (nth_error_In _ _ El))
    as (y1 & m1 & d1 & Hy1 & Hm1 & Hd1 & E1).
  assert (Hbound : forall h y m d, In h table ->
            0 <= y <= 9999 -> 0 <= m <= 99 -> 0 <= d <= 99 ->
            Date h = Fmt.date y m d -> y0 <= y <= y1).
  { intros h y m d Hin Hy Hm Hd E.
    apply In_nth_error in Hin as [k Hk].
    assert (k < List.length table)%nat by (apply nth_error_Some; congruence).
    split.
    - apply (GenFacts.date_order_year y0 m0 d0 y m d); auto.
      rewrite <- E0, <- E.
      apply (sorted_nth table 0 k first h Hs); [lia | reflexivity | exact Hk].
    - apply (GenFacts.date_order_year y m d y1 m1 d1); auto.
      rewrite <- E1, <- E.
      apply (sorted_nth table k (List.length table - 1) h last Hs);
        [lia | exact Hk | exact El]. }
  exists y0, y1.
  pose proof (Hbound first y0 m0 d0 ltac:(now left) Hy0 Hm0 Hd0 E0).
  split; [lia|]. split; [lia|]. split.
  - unfold Gen.yearRange.
    change (index table 0) with (Some first). cbn [bind].
    rewrite E0, GenFacts.yearField by lia. cbn [bind].
    apply Nat.ltb_lt in Hlen. rewrite Hlen.
    unfold index at 1. rewrite El. cbn [bind].
    rewrite E1, GenFacts.yearField by lia. reflexivity.
  - intros h Hin.
    destruct (Hfd h Hin) as (y & m & d & Hy & Hm & Hd & E).
    exists y, m, d. split; [exact E|].
    exact (Hbound h y m d Hin Hy Hm Hd E).
Qed.

Module Checks4.

(** Each entry of [l] carries the formatted date of the triple at its
    place in [ts], with a year of 0 to 9999 and fields of 0 to 99. *)
Fixpoint four_digitb (l : list Holiday) (ts : list (Z * Z * Z)) : bool :=
  match l, ts with
  | [], [] => true
  | h :: l', (y, m, d) :: ts' =>
      (0 <=? y) && (y <=? 9999) && (0 <=? m) && (m <=? 99) &&
      (0 <=? d) && (d <=? 99) &&
      String.eqb (Date h) (Fmt.date y m d) && four_digitb l' ts'
  | _, _ => false
  end.

Lemma four_digitb_ok (l : list Holiday) (ts : list (Z * Z * Z)) :
  four_digitb l ts = true -> Forall (fun h => four_digit_date (Date h)) l.
Proof.
  revert ts. induction l as [|h l IH]; intros ts H; [constructor|].
  destruct ts as [|[[y m] d] ts]; [discriminate|].
  simpl in H.
  apply andb_true_iff in H as [H Hrest].
  apply andb_true_iff in H as [H Hdate].
  apply andb_true_iff in H as [H Hd2].
  apply andb_true_iff in H as [H Hd1].
  apply andb_true_iff in H as [H Hm2].
  apply andb_true_iff in H as [H Hm1].
  apply andb_true_iff in H as [Hy1 Hy2].
  constructor; [|now apply (IH ts)].
  exists y, m, d. apply String.eqb_eq in Hdate.
  apply Z.leb_le in Hy1, Hy2, Hm1, Hm2, Hd1, Hd2. auto.
Qed.

Lemma sample_four_digit :
  Forall (fun h => four_digit_date (Date h)) Sample.holidays.
Proof.
  apply (four_digitb_ok _ Sample.holidayDays). vm_compute. reflexivity.
Qed.

End Checks4.

(** The table of 2023: both year texts are 2023. *)
Lemma yearRange_brackets_table_witness :
  Gen.yearRange Sample.holidays = Some ("2023", "2023") /\
  exists lo hi,
    Gen.yearRange Sample.holidays = Some (Fmt.d0 4 lo, Fmt.d0 4 hi) /\
    forall h, In h Sample.holidays ->
      exists y m d, Date h = Fmt.date y m d /\ lo <= y <= hi.
Proof.
  split; [vm_compute; reflexivity|].
  destruct (proj2 yearRange_brackets_table Sample.holidays
              ltac:(discriminate) Checks.sample_sorted
              Checks4.sample_four_digit)
    as (lo & hi & _ & _ & Hr & Hall).
  exists lo, hi. split; [exact Hr | exact Hall].
Defined.

(** ** The day of a weekday rule, continued *)

Module WeekdayFacts.

(** Without overflow the loop body computes the number of days from day 1
    to the first day of the rule's weekday, plus the weeks of the index. *)
Lemma weekdayRuleDay_value (F : Z) (d : weekdayHolyday) :
  0 <= F <= 6 -> 0 <= wWeekday d <= 6 ->
  Int.in_range (wIndex d * 7) -> Int.in_range (wIndex d * 7 + 7) ->
  weekdayRuleDay F d = 1 + (wWeekday d - F) mod 7 + 7 * wIndex d.
Proof.
  intros HF Hw H1 H2. unfold weekdayRuleDay, Int.in_range in *.
  rewrite (IntFacts.wrap_id (wWeekday d - F)) by (unfold Int.in_range; lia).
  rewrite (IntFacts.wrap_id (wIndex d * 7)) by (unfold Int.in_range; lia).
  rewrite (IntFacts.wrap_id (wIndex d * 7 + 1)) by (unfold Int.in_range; lia).
  destruct (wWeekday d - F <? 0) eqn:E.
  - apply Z.ltb_lt in E.
    rewrite (IntFacts.wrap_id (wWeekday d - F + 7))
      by (unfold Int.in_range; lia).
    rewrite IntFacts.wrap_id by (unfold Int.in_range; lia).
    replace ((wWeekday d - F) mod 7) with (wWeekday d - F + 7); [lia|].
    apply (Z.mod_unique _ _ (-1)); lia.
  - apply Z.ltb_ge in E.
    rewrite IntFacts.wrap_id by (unfold Int.in_range; lia).
    rewrite Z.mod_small by lia. lia.
Qed.

End WeekdayFacts.

(** X17. In a year and month in which [time.Date] computes day 1 and the
    days [7 * index + 1] to [7 * index + 7] without wrap-around
    ([GoTime.exact]; the years -292277022399 to 292277026853 for an index
    of 0 to 4), for a weekday rule with a weekday of Sunday..Saturday and
    an index whose multiple by 7 fits an [int], the day the loop computes
    is in the week of days [7 * index + 1] to [7 * index + 7] of the month,
    and it is the only day of that week that falls on the rule's weekday:
    the rule with index n names the (n+1)-th such weekday of the month. *)
Theorem weekday_rule_is_nth_weekday (year month : Z) (d : weekdayHolyday) :
  0 <= wWeekday d <= 6 ->
  Int.in_range (wIndex d * 7) -> Int.in_range (wIndex d * 7 + 7) ->
  GoTime.exact year month 1 ->
  GoTime.exact year month (7 * wIndex d + 1) ->
  GoTime.exact year month (7 * wIndex d + 7) ->
  let day := weekdayRuleDay (GoTime.Weekday year month 1) d in
  7 * wIndex d + 1 <= day <= 7 * wIndex d + 7 /\
  GoTime.Weekday year month day = wWeekday d /\
  forall day',
    7 * wIndex d + 1 <= day' <= 7 * wIndex d + 7 ->
    GoTime.Weekday year month day' = wWeekday d -> day' = day.
Proof.
  intros Hw H1 H2 Hfirst Hlo Hhi day.
  pose proof (TimeFacts.Weekday_range year month 1) as HF.
  pose proof (WeekdayFacts.weekdayRuleDay_value _ d HF Hw H1 H2) as Hday.
  fold day in Hday.
  set (F := GoTime.Weekday year month 1) in *.
  pose proof (Z.mod_pos_bound (wWeekday d - F) 7 ltac:(lia)) as Hr.
  assert (Hwd : forall x, 7 * wIndex d + 1 <= x <= 7 * wIndex d + 7 ->
            GoTime.Weekday year month x = (F + (x - 1)) mod 7).
  { intros x Hx. apply (TimeFacts.Weekday_day _ _ _ Hfirst).
    exact (TimeFacts.exact_between _ _ _ _ _ Hlo Hhi Hx). }
  split; [lia|]. split.
  - rewrite Hwd, Hday by lia.
    replace (F + (1 + (wWeekday d - F) mod 7 + 7 * wIndex d - 1))
      with ((F + (wWeekday d - F) mod 7) + wIndex d * 7) by lia.
    rewrite Z.mod_add by lia. rewrite Zplus_mod_idemp_r.
    replace (F + (wWeekday d - F)) with (wWeekday d) by lia.
    apply Z.mod_small. lia.
  - intros day' Hrange Hsame. rewrite Hwd in Hsame by exact Hrange.
    set (k := day' - 7 * wIndex d - 1) in *.
    assert (Hk : 0 <= k <= 6) by (unfold k; lia).
    assert (Hmod : (F + k) mod 7 = wWeekday d).
    { rewrite <- Hsame. unfold k.
      replace (F + (day' - 1)) with (F + (day' - 7 * wIndex d - 1) + wIndex d * 7)
        by lia.
      now rewrite Z.mod_add by lia. }
    assert (Hk' : k = (wWeekday d - F) mod 7).
    { rewrite <- Hmod.
      destruct (Z_lt_le_dec (F + k) 7) as [Hlt|Hge].
      - rewrite (Z.mod_small (F + k)) by lia.
        replace (F + k - F) with k by lia. now rewrite Z.mod_small by lia.
      - replace ((F + k) mod 7) with (F + k - 7)
          by (apply (Z.mod_unique _ _ 1); lia).
        replace (F + k - 7 - F) with (k + (-1) * 7) by lia.
        rewrite Z.mod_add by lia. now rewrite Z.mod_small by lia. }
    unfold k in Hk'. lia.
Qed.

(** Respect for the Aged Day 2020: index 2, the days 15 to 21 of
    September, of which the 21st is the Monday. *)
Lemma weekday_rule_is_nth_weekday_witness :
  GoTime.exact 2020 9 1 /\ GoTime.exact 2020 9 15 /\ GoTime.exact 2020 9 21 /\
  let day := weekdayRuleDay (GoTime.Weekday 2020 9 1) Sample.agedDay in
  15 <= day <= 21 /\ GoTime.Weekday 2020 9 day = Sample.Monday.
Proof.
  assert (Hw : 0 <= wWeekday Sample.agedDay <= 6)
    by (unfold Sample.agedDay, Sample.Monday; simpl; lia).
  assert (H1 : Int.in_range (wIndex Sample.agedDay * 7))
    by (unfold Int.in_range, Sample.agedDay; simpl; lia).
  assert (H2 : Int.in_range (wIndex Sample.agedDay * 7 + 7))
    by (unfold Int.in_range, Sample.agedDay; simpl; lia).
  assert (E1 : GoTime.exact 2020 9 1)
    by (apply TimeFacts.exact_dec; vm_compute; reflexivity).
  assert (E15 : GoTime.exact 2020 9 15)
    by (apply TimeFacts.exact_dec; vm_compute; reflexivity).
  assert (E21 : GoTime.exact 2020 9 21)
    by (apply TimeFacts.exact_dec; vm_compute; reflexivity).
  split; [exact E1|]. split; [exact E15|]. split; [exact E21|].
  destruct (weekday_rule_is_nth_weekday 2020 9 Sample.agedDay Hw H1 H2
              E1 E15 E21) as (Hr & Hd & _).
  split; [exact Hr | exact Hd].
Defined.

(** The first and the third entry of the table of 2023, exchanged and
    exchanged back. *)
Lemma Swap_exchanges_witness :
  exists s',
    withDate.Swap Sample.holidays 0 2 = Some s' /\
    nth_error s' 0 = Some (mkHoliday "2023-01-09" "成人の日") /\
    withDate.Swap s' 0 2 = Some Sample.holidays.
Proof.
  destruct (proj1 (Swap_exchanges Sample.holidays 0 2))
    as (s' & Hs & _ & _ & H0 & _ & _ & Hback).
  { unfold withDate.Len. simpl. lia. }
  exists s'. split; [exact Hs|]. split; [|exact Hback].
  rewrite H0. reflexivity.
Defined.
